(** * Fitness & macro tracker: the core of [src/src/App.tsx]

    A shallow embedding of the pure helpers of the application (the macro
    calculator, the exercise catalogue, the CSV rows) and of the state
    updaters that React runs ([setState] callbacks), followed by the
    properties the specification states about them.

    Conventions of the embedding.
    - Arithmetic is embedded in module [Binary64], over IEEE 754 doubles
      (the standard library's [spec_float]) with the rounding of every
      operation, the two zeros, the infinities and NaN: the macro
      calculator and the calorie check are settled there.
    - The state of the page holds numbers it stores, compares and clamps
      but does not compute with; there a number is an exact rational ([Q]),
      [Math.round] is [floor (x + 1/2)] and the only falsy number is zero.
      The macro calculator is embedded over these numbers too: the page's
      handlers use its guard and the rounding of what was typed, and it is
      the formula of the specification read in exact arithmetic.
    - An object literal used as a dictionary is an association list read
      through its own keys, in insertion order; module [Prototype] embeds
      the catalogue look-ups with the members every object inherits.
    - An array is a list.  The updaters index it with [activeIdx] and
      [exIdx]; where the source would write past the end of an array (and so
      build an object that lacks the fields of the data model) the embedded
      updater answers [None].
    - The clock ([todayISO ()]) is an argument, [today]. *)

From Stdlib Require Import ZArith QArith Qround Qabs Qminmax Lia Lqa.
From Stdlib Require Import String Ascii DecimalString Floats.SpecFloat.
From stdpp Require Import base option list strings.

Open Scope Q_scope.

(* ================================================================== *)
(** * Part I: the program                                              *)
(* ================================================================== *)

(** ** Numbers and loosely typed fields *)

(** A number the page stores: what was typed into an input, clamped or
    rounded.  These are compared and clamped, which is exact on doubles;
    what the page computes from them is in [Binary64]. *)
Definition number : Type := Q.

(** [!n] on a number. *)
Definition falsy (n : number) : bool := Qeq_bool n 0.

(** [Math.round]: the nearest integer, halves towards plus infinity. *)
Definition Math_round (x : number) : Z := Qfloor (x + 0.5).

(** [clamp (n, min, max) = Math.max (min, Math.min (max, n))]. *)
Definition clamp (n lo hi : number) : number := Qmax lo (Qmin hi n).

(** A numeric form field of a day or of an exercise: the empty string
    until the user types a number. *)
Inductive field : Type :=
  | Empty
  | Num (n : number).

(** [Number (f)]: the empty string converts to zero. *)
Definition Number (f : field) : number :=
  match f with
  | Empty => 0
  | Num n => n
  end.

(** [n || 0] on a number. *)
Definition or0 (n : number) : number := if falsy n then 0 else n.

(** [f || 0] on a field: the empty string and zero are both falsy. *)
Definition field_or0 (f : field) : number :=
  match f with
  | Empty => 0
  | Num n => or0 n
  end.

(** Truthiness of a string: only the empty string is falsy. *)
Definition truthy (s : string) : bool := negb (String.eqb s EmptyString).

Module Targets.
Record t : Type := mk {
  calories : number;
  protein : number;
  carbs : number;
  fat : number;
  goalWeight : number
}.
End Targets.

Definition defaultTargets : Targets.t :=
  Targets.mk 1800 130 160 60 150.

(** ** Macro calculator *)

Module Macros.
(** The object [computeMacros] returns: four rounded numbers. *)
Record t : Type := mk {
  calories : Z;
  protein : Z;
  fat : Z;
  carbs : Z
}.
End Macros.

(** Protein: 1 g per lb of goal weight; fat: 25% of the calories / 9;
    carbs: the remainder / 4.  [None] is JavaScript's [null].  This is the
    calculator in exact arithmetic: its guard and the rounding of the two
    inputs are those of the code, the fat and the carbs are what the
    formula gives without the rounding of doubles;
    [Binary64.computeMacros] is the calculator as the language runs it. *)
Definition computeMacros (goalWeight calories : number) : option Macros.t :=
  if falsy goalWeight || falsy calories then None
  else
    let proteinGrams := goalWeight in
    let proteinCalories := proteinGrams * 4 in
    let fatCalories := calories * 0.25 in
    let fatGrams := fatCalories / 9 in
    let carbCalories := calories - (proteinCalories + fatCalories) in
    let carbGrams := carbCalories / 4 in
    Some {| Macros.calories := Math_round calories;
            Macros.protein := Math_round proteinGrams;
            Macros.fat := Math_round fatGrams;
            Macros.carbs := Z.max 0 (Math_round carbGrams) |}.

(** ** Double precision

    The numbers of the language: binary64, with the rounding of every
    operation, the two zeros, the infinities and NaN; and over them the
    macro calculator and the calorie check as the code computes them. *)

Module Binary64.

Definition prec : Z := 53.
Definition emax : Z := 1024.

Definition number : Type := spec_float.

(** A whole number below 2^53 in magnitude, which a double holds exactly. *)
Definition of_Z (z : Z) : number := binary_normalize prec emax z 0 false.

Definition mul : number → number → number := SFmul prec emax.
Definition div : number → number → number := SFdiv prec emax.
Definition add : number → number → number := SFadd prec emax.
Definition sub : number → number → number := SFsub prec emax.

(** [!x]: the zeros and NaN. *)
Definition falsy (x : number) : bool :=
  match x with
  | S754_zero _ | S754_nan => true
  | _ => false
  end.

(** [Math.round]: an integral, infinite or NaN argument is returned as it
    is; otherwise the nearest integer, halves towards plus infinity, with
    the sign of the argument when that integer is zero. *)
Definition Math_round (x : number) : number :=
  match x with
  | S754_finite s m e =>
      if (0 <=? e)%Z then x
      else
        let n := ((cond_Zopp s (Zpos m) + 2 ^ (- e - 1)) / 2 ^ (- e))%Z in
        binary_normalize prec emax n 0 s
  | _ => x
  end.

(** [Math.max] of two numbers: NaN if either is, plus zero above minus
    zero. *)
Definition Math_max (x y : number) : number :=
  match x, y with
  | S754_nan, _ | _, S754_nan => S754_nan
  | S754_zero sx, S754_zero sy => S754_zero (sx && sy)
  | _, _ => if SFltb x y then y else x
  end.

Record Macros64 : Type := mkMacros64 {
  calories : number;
  protein : number;
  fat : number;
  carbs : number
}.

(** The literal 0.25 is the double 1 / 4, exactly. *)
Definition computeMacros (goalWeight calories : number) : option Macros64 :=
  if falsy goalWeight || falsy calories then None
  else
    let proteinGrams := goalWeight in
    let proteinCalories := mul proteinGrams (of_Z 4) in
    let fatCalories := mul calories (div (of_Z 1) (of_Z 4)) in
    let fatGrams := div fatCalories (of_Z 9) in
    let carbCalories := sub calories (add proteinCalories fatCalories) in
    let carbGrams := div carbCalories (of_Z 4) in
    Some {| calories := Math_round calories;
            protein := Math_round proteinGrams;
            fat := Math_round fatGrams;
            carbs := Math_max (of_Z 0) (Math_round carbGrams) |}.

(** The doubles that hold the four whole numbers of a rational result. *)
Definition of_macros (m : Macros.t) : Macros64 :=
  {| calories := of_Z (Macros.calories m);
     protein := of_Z (Macros.protein m);
     fat := of_Z (Macros.fat m);
     carbs := of_Z (Macros.carbs m) |}.

(** The same double, bit for bit. *)
Definition same (x y : number) : bool :=
  match x, y with
  | S754_zero a, S754_zero b => Bool.eqb a b
  | S754_infinity a, S754_infinity b => Bool.eqb a b
  | S754_nan, S754_nan => true
  | S754_finite a m e, S754_finite b m' e' =>
      Bool.eqb a b && Pos.eqb m m' && Z.eqb e e'
  | _, _ => false
  end.

Definition same_macros (a b : option Macros64) : bool :=
  match a, b with
  | Some a, Some b =>
      same (calories a) (calories b) && same (protein a) (protein b)
      && same (fat a) (fat b) && same (carbs a) (carbs b)
  | None, None => true
  | _, _ => false
  end.

(** The double a decimal literal [n / d] denotes, for whole [n] and [d]
    below 2^53: the double nearest to the quotient. *)
Definition decimal (n d : Z) : number := div (of_Z n) (of_Z d).

(** The rational a finite double is (zero for an infinity or NaN). *)
Definition to_Q (x : number) : Q :=
  match x with
  | S754_finite s m e =>
      (inject_Z (cond_Zopp s (Zpos m))
       * (if (0 <=? e)%Z then inject_Z (2 ^ e) else / inject_Z (2 ^ (- e))))%Q
  | _ => 0%Q
  end.

(** The carbs as the specification writes them,
    [max (0, round ((calories - 4 * goalWeight - 0.25 * calories) / 4))],
    evaluated from left to right in doubles. *)
Definition claimed_carbs (goalWeight calories : number) : number :=
  Math_max (of_Z 0)
    (Math_round
       (div (sub (sub calories (mul (of_Z 4) goalWeight))
               (mul (div (of_Z 1) (of_Z 4)) calories))
          (of_Z 4))).

(** A zero or a finite double of the format. *)
Definition finite (x : number) : bool :=
  match x with
  | S754_zero _ => true
  | S754_finite _ m e => bounded prec emax m e
  | _ => false
  end.

(** A double of the format: a zero, an infinity, NaN, or a finite number
    whose mantissa and exponent are those the format gives it. *)
Definition valid (x : number) : bool := valid_binary prec emax x.

(** *** The calorie check

    [macroCalories], [macroCal], [calDelta] and the two badges of the page,
    over the numbers the page computes with. *)

(** A numeric field of a day: the empty string or a number. *)
Inductive field : Type :=
  | Empty
  | Num (x : number).

(** [Number (f)]: the empty string converts to zero. *)
Definition Number (f : field) : number :=
  match f with
  | Empty => of_Z 0
  | Num x => x
  end.

(** [x || 0]. *)
Definition or0 (x : number) : number := if falsy x then of_Z 0 else x.

(** [macroCalories (p = 0, c = 0, f = 0)]: [p * 4 + c * 4 + f * 9], added
    from left to right; every call site passes three numbers, so the
    defaults never apply. *)
Definition macroCalories (p c f : number) : number :=
  add (add (mul p (of_Z 4)) (mul c (of_Z 4))) (mul f (of_Z 9)).

Module Entry.
(** The four numeric fields of a day. *)
Record t : Type := mk {
  calories : field;
  protein : field;
  carbs : field;
  fat : field
}.
End Entry.

(** [macroCal]: the calories the entered macros add up to. *)
Definition macroCal (d : Entry.t) : number :=
  macroCalories (or0 (Number (Entry.protein d)))
                (or0 (Number (Entry.carbs d)))
                (or0 (Number (Entry.fat d))).

(** [(Number (activeDay.calories) || 0) - macroCal]. *)
Definition calDelta (d : Entry.t) : number :=
  sub (or0 (Number (Entry.calories d))) (macroCal d).

(** What the page shows next to the computed calories: "Perfect match"
    when [calDelta === 0], or else the delta, with a plus sign in front
    when [calDelta > 0]. *)
Inductive badge : Type :=
  | PerfectMatch
  | Delta (plus : bool) (delta : number).

Definition deltaBadge (d : Entry.t) : badge :=
  if SFeqb (calDelta d) (of_Z 0) then PerfectMatch
  else Delta (SFltb (of_Z 0) (calDelta d)) (calDelta d).

(** [mismatch], computed the same way for every day of the day list; the
    list shows it on a day only when [mismatch !== 0]. *)
Definition mismatch (d : Entry.t) : number :=
  let mcal :=
    macroCalories (or0 (Number (Entry.protein d)))
                  (or0 (Number (Entry.carbs d)))
                  (or0 (Number (Entry.fat d))) in
  sub (or0 (Number (Entry.calories d))) mcal.

Definition mismatchShown (d : Entry.t) : option number :=
  if negb (SFeqb (mismatch d) (of_Z 0)) then Some (mismatch d) else None.

End Binary64.

(** Whether the double-precision calculator and the rational one agree on
    the whole numbers [g] and [c]. *)
Definition agrees (g c : Z) : bool :=
  Binary64.same_macros
    (Binary64.computeMacros (Binary64.of_Z g) (Binary64.of_Z c))
    (Binary64.of_macros <$> computeMacros (inject_Z g) (inject_Z c)).

(** [lo, lo + step, ...]: [n] whole numbers. *)
Definition grid (lo step : Z) (n : nat) : list Z :=
  map (λ k, (lo + step * Z.of_nat k)%Z) (seq 0 n).

(** ** Exercise catalogue *)

(** An object literal: its own keys with their values, in insertion order. *)
Definition object (V : Type) : Type := list (string * V).

(** [o[k]] for a key that is not the name of a member of
    [Object.prototype]: the value under the own key [k], if any.  (The
    read with the inherited members is [Prototype.get] below.) *)
Fixpoint prop {V : Type} (o : object V) (k : string) : option V :=
  match o with
  | [] => None
  | (k', v) :: o' => if String.eqb k k' then Some v else prop o' k
  end.

(** [o?.[k]]: [undefined] when [o] itself is. *)
Definition prop_opt {V : Type} (o : option (object V)) (k : string) : option V :=
  match o with
  | Some o' => prop o' k
  | None => None
  end.

(** [Object.keys (o)]. *)
Definition Object_keys {V : Type} (o : object V) : list string := map fst o.

Definition EXERCISE_TREE : object (object (object (list string))) :=
  [ ("Cardio",
      [ ("LISS", [ ("-", ["Treadmill"; "Stair Master"; "Elliptical"]) ]);
        ("HIIT", [ ("-", ["Treadmill"; "Stair Master"; "Elliptical"]) ]) ]);
    ("Strength",
      [ ("Pull",
          [ ("Back",
              [ "Seated low row";
                "Lat pulldown (wide grip)";
                "Lat pulldown (short grip)";
                "Bent over row" ]);
            ("Bicep",
              [ "EZ bar curl"; "Dumbbell hammer curl"; "Cable rope curl" ]) ]);
        ("Push",
          [ ("Chest",
              [ "Flat bench press"; "Incline bench press"; "Cable chest fly" ]);
            ("Shoulders",
              [ "Barbell or dumbbell shoulder press";
                "Lateral raise";
                "Front raise / Side raise / Around-the-world (alternate weekly)" ]);
            ("Triceps",
              [ "Cable triceps pushdown";
                "Bar triceps pushdown";
                "Overhead cable triceps extension" ]) ]);
        ("Legs",
          [ ("Legs + Glutes + Calves",
              [ "Dumbbell squat (shoulder hold)";
                "Sumo squat (front hold)";
                "Romanian deadlift";
                "Curtsy lunge / Side lunge (alternate weekly)";
                "Standing calf raise";
                "Seated calf raise" ]) ]) ]) ]%string.

(** [cat && EXERCISE_TREE[cat] ? Object.keys (EXERCISE_TREE[cat]) : []]. *)
Definition getTypes (cat : string) : list string :=
  match (if truthy cat then prop EXERCISE_TREE cat else None) with
  | Some types => Object_keys types
  | None => []
  end.

(** [cat && type && EXERCISE_TREE[cat]?.[type] ? Object.keys (...) : []]. *)
Definition getGroups (cat type : string) : list string :=
  match (if truthy cat && truthy type
         then prop_opt (prop EXERCISE_TREE cat) type
         else None) with
  | Some groups => Object_keys groups
  | None => []
  end.

(** [cat && type && group && EXERCISE_TREE[cat]?.[type]?.[group] ? ... : []]:
    an array, even an empty one, is truthy. *)
Definition getExercises (cat type group : string) : list string :=
  match (if truthy cat && truthy type && truthy group
         then prop_opt (prop_opt (prop EXERCISE_TREE cat) type) group
         else None) with
  | Some names => names
  | None => []
  end.

(** ** The look-ups with the members every object inherits

    [EXERCISE_TREE[cat]] is a plain property read: on an object literal it
    finds the own keys first and then the members of [Object.prototype].
    The three look-ups are embedded here a second time with those members
    in; [prop] above is this read on keys that are none of them. *)

Module Prototype.

(** The property names of [Object.prototype] (ECMAScript, with the
    legacy accessors of its annex B). *)
Definition Object_prototype_names : list string :=
  [ "constructor"; "hasOwnProperty"; "isPrototypeOf"; "propertyIsEnumerable";
    "toLocaleString"; "toString"; "valueOf"; "__proto__";
    "__defineGetter__"; "__defineSetter__"; "__lookupGetter__";
    "__lookupSetter__" ].

Definition inherited (k : string) : bool :=
  bool_decide (k ∈ Object_prototype_names).

(** What a read in the tree can give. *)
#[local] Unset Elimination Schemes.
Inductive value : Type :=
  | Undefined
  | Names (names : list string)
  | Node (own : object value)
  | Builtin (k : string).
#[local] Set Elimination Schemes.

(** [Names]: an array of exercise names, a leaf of the tree.  [Node]: an
    object literal of the tree.  [Builtin k]: the member [k] of
    [Object.prototype], a built-in function (for ["constructor"] the
    function [Object]) or, for ["__proto__"], [Object.prototype] itself. *)

(** The groups of a type, the types of a category and the tree, as
    values. *)
Definition groups_node (groups : object (list string)) : value :=
  Node (map (λ g, (g.1, Names g.2)) groups).

Definition types_node (types : object (object (list string))) : value :=
  Node (map (λ t, (t.1, groups_node t.2)) types).

Definition tree : object value :=
  map (λ c, (c.1, types_node c.2)) EXERCISE_TREE.

(** [o[k]] on an object literal. *)
Definition get (o : object value) (k : string) : value :=
  match prop o k with
  | Some v => v
  | None => if inherited k then Builtin k else Undefined
  end.

(** Every object and every array is truthy. *)
Definition truthy_value (v : value) : bool :=
  match v with
  | Undefined => false
  | _ => true
  end.

(** What a look-up answers: a value, or whatever a property of a built-in
    object is, which is the engine's to say (the name or the arity of a
    function, another function, an exception from a restricted accessor)
    and is not embedded. *)
Inductive answer (A : Type) : Type :=
  | Gives (a : A)
  | Of_builtin.
Arguments Gives {A} a.
Arguments Of_builtin {A}.

(** [v?.[k]]. *)
Definition get_opt (v : answer value) (k : string) : answer value :=
  match v with
  | Gives Undefined => Gives Undefined
  | Gives (Node o) => Gives (get o k)
  | Gives (Names _) | Gives (Builtin _) | Of_builtin => Of_builtin
  end.

(** [Object.keys (v)] for a truthy [v]: the own keys of an object literal;
    a built-in function and [Object.prototype] have no enumerable property
    of their own. *)
Definition Object_keys_of (v : value) : list string :=
  match v with
  | Node o => Object_keys o
  | Names names => imap (λ i _, NilZero.string_of_uint (Nat.to_uint i)) names
  | Builtin _ | Undefined => []
  end.

Definition getTypes (cat : string) : answer (list string) :=
  if truthy cat
  then match get tree cat with
       | Undefined => Gives []
       | v => Gives (Object_keys_of v)
       end
  else Gives [].

Definition getGroups (cat type : string) : answer (list string) :=
  if truthy cat && truthy type
  then match get_opt (Gives (get tree cat)) type with
       | Gives Undefined => Gives []
       | Gives v => Gives (Object_keys_of v)
       | Of_builtin => Of_builtin
       end
  else Gives [].

(** The third look-up returns what it finds, whatever that is. *)
Definition getExercises (cat type group : string) : answer value :=
  if truthy cat && truthy type && truthy group
  then match get_opt (get_opt (Gives (get tree cat)) type) group with
       | Gives Undefined => Gives (Names [])
       | Gives v => Gives v
       | Of_builtin => Of_builtin
       end
  else Gives (Names []).

End Prototype.

(** ** Data model *)

(** One row of a day's exercise list. *)
Record Exercise : Type := mkExercise {
  category : string;
  type : string;
  group : string;
  name : string;
  weight : field;
  sets : field;
  reps : field;
  duration : field
}.

(** One [key: value] of an object literal spread over an exercise. *)
Inductive ExerciseKey : Type :=
  | Category (s : string)
  | Type_ (s : string)
  | Group (s : string)
  | Name (s : string)
  | Weight (f : field)
  | Sets (f : field)
  | Reps (f : field)
  | Duration (f : field).

Definition setExerciseKey (e : Exercise) (k : ExerciseKey) : Exercise :=
  match k with
  | Category s => mkExercise s (type e) (group e) (name e) (weight e) (sets e) (reps e) (duration e)
  | Type_ s => mkExercise (category e) s (group e) (name e) (weight e) (sets e) (reps e) (duration e)
  | Group s => mkExercise (category e) (type e) s (name e) (weight e) (sets e) (reps e) (duration e)
  | Name s => mkExercise (category e) (type e) (group e) s (weight e) (sets e) (reps e) (duration e)
  | Weight f => mkExercise (category e) (type e) (group e) (name e) f (sets e) (reps e) (duration e)
  | Sets f => mkExercise (category e) (type e) (group e) (name e) (weight e) f (reps e) (duration e)
  | Reps f => mkExercise (category e) (type e) (group e) (name e) (weight e) (sets e) f (duration e)
  | Duration f => mkExercise (category e) (type e) (group e) (name e) (weight e) (sets e) (reps e) f
  end.

(** [{ ...e, ...partial }]. *)
Definition spreadExercise (e : Exercise) (partial : list ExerciseKey) : Exercise :=
  fold_left setExerciseKey partial e.

Module Day.
Record t : Type := mk {
  date : string;
  calories : field;
  protein : field;
  carbs : field;
  fat : field;
  exercises : list Exercise
}.
End Day.

(** One [key: value] of an object literal spread over a day. *)
Inductive DayKey : Type :=
  | Date (s : string)
  | Calories (f : field)
  | Protein (f : field)
  | Carbs (f : field)
  | Fat (f : field)
  | Exercises (exs : list Exercise).

Definition setDayKey (d : Day.t) (k : DayKey) : Day.t :=
  match k with
  | Date s => Day.mk s (Day.calories d) (Day.protein d) (Day.carbs d) (Day.fat d) (Day.exercises d)
  | Calories f => Day.mk (Day.date d) f (Day.protein d) (Day.carbs d) (Day.fat d) (Day.exercises d)
  | Protein f => Day.mk (Day.date d) (Day.calories d) f (Day.carbs d) (Day.fat d) (Day.exercises d)
  | Carbs f => Day.mk (Day.date d) (Day.calories d) (Day.protein d) f (Day.fat d) (Day.exercises d)
  | Fat f => Day.mk (Day.date d) (Day.calories d) (Day.protein d) (Day.carbs d) f (Day.exercises d)
  | Exercises exs => Day.mk (Day.date d) (Day.calories d) (Day.protein d) (Day.carbs d) (Day.fat d) exs
  end.

(** [{ ...d, ...partial }]. *)
Definition spreadDay (d : Day.t) (partial : list DayKey) : Day.t :=
  fold_left setDayKey partial d.

(** [emptyDay (dateStr)]: [dateStr || todayISO ()] and nothing entered. *)
Definition emptyDay (today dateStr : string) : Day.t :=
  {| Day.date := if truthy dateStr then dateStr else today;
     Day.calories := Empty;
     Day.protein := Empty;
     Day.carbs := Empty;
     Day.fat := Empty;
     Day.exercises := [] |}.

Record AppState : Type := mkAppState {
  targets : Targets.t;
  days : list Day.t
}.

Definition defaultState (today : string) : AppState :=
  {| targets := defaultTargets; days := [emptyDay today today] |}.

(** ** Array methods *)

Fixpoint filter_from {A : Type} (keep : A → nat → bool) (i : nat) (l : list A) : list A :=
  match l with
  | [] => []
  | x :: l' =>
      if keep x i then x :: filter_from keep (S i) l' else filter_from keep (S i) l'
  end.

(** [l.filter ((x, i) => keep (x, i))]. *)
Definition Array_filter {A : Type} (keep : A → nat → bool) (l : list A) : list A :=
  filter_from keep 0 l.

(** [l.splice (start, deleteCount, ...items)] on a copy of [l], for the
    non-negative [start] and [deleteCount] of the source: the part before
    [start], the items, and what is left after the deleted elements; a
    [start] past the end appends. *)
Definition Array_splice {A : Type} (start deleteCount : nat) (items l : list A) : list A :=
  take start l ++ items ++ drop (start + deleteCount) l.

(** ** State updaters

    Each is the callback its source function hands to [setState], with
    [activeIdx] (a separate piece of React state) as an argument. *)

(** [days[activeIdx] = { ...days[activeIdx], ...partial }] on a copy. *)
Definition setActiveDay (activeIdx : nat) (partial : list DayKey) (prev : AppState) : option AppState :=
  d ← days prev !! activeIdx;
  Some {| targets := targets prev;
          days := <[activeIdx := spreadDay d partial]> (days prev) |}.

Definition addNewDay (today : string) (prev : AppState) : AppState :=
  let nextDate := today in
  {| targets := targets prev; days := emptyDay today nextDate :: days prev |}.

Definition deleteDay (today : string) (idx : nat) (prev : AppState) : AppState :=
  let days' := Array_filter (λ _ i, negb (i =? idx)%nat) (days prev) in
  {| targets := targets prev;
     days := if (0 <? length days')%nat then days' else [emptyDay today today] |}.

Definition updateExercise (activeIdx exIdx : nat) (partial : list ExerciseKey) (prev : AppState) : option AppState :=
  d ← days prev !! activeIdx;
  ex ← Day.exercises d !! exIdx;
  let exs := <[exIdx := spreadExercise ex partial]> (Day.exercises d) in
  Some {| targets := targets prev;
          days := <[activeIdx := setDayKey d (Exercises exs)]> (days prev) |}.

Definition removeExercise (activeIdx exIdx : nat) (prev : AppState) : option AppState :=
  d ← days prev !! activeIdx;
  let exs := Array_filter (λ _ i, negb (i =? exIdx)%nat) (Day.exercises d) in
  Some {| targets := targets prev;
          days := <[activeIdx := setDayKey d (Exercises exs)]> (days prev) |}.

(** Remove the current row and insert one row per exercise name. *)
Definition replaceExerciseWithAll (activeIdx exIdx : nat) (cat type group : string) (names : list string) (prev : AppState) : option AppState :=
  d ← days prev !! activeIdx;
  let exs :=
    Array_splice exIdx 1
      (map (λ n, mkExercise cat type group n Empty Empty Empty Empty) names)
      (Day.exercises d) in
  Some {| targets := targets prev;
          days := <[activeIdx := setDayKey d (Exercises exs)]> (days prev) |}.

(** [{ ...prev.targets, ...m, goalWeight }]; a [null] from the calculator
    skips the update. *)
Definition recalcMacros (goalWeight calories : number) (prev : AppState) : AppState :=
  match computeMacros goalWeight calories with
  | None => prev
  | Some m =>
      {| targets :=
           {| Targets.calories := inject_Z (Macros.calories m);
              Targets.protein := inject_Z (Macros.protein m);
              Targets.carbs := inject_Z (Macros.carbs m);
              Targets.fat := inject_Z (Macros.fat m);
              Targets.goalWeight := goalWeight |};
         days := days prev |}
  end.

(** ** The component: its state and its event handlers *)

(** The three pieces of React state of [App]. *)
Record UI : Type := mkUI {
  state : AppState;
  activeIdx : nat;
  deleteConfirmIdx : option nat
}.

Definition initialUI (today : string) : UI :=
  {| state := defaultState today; activeIdx := 0; deleteConfirmIdx := None |}.

(** [state.days[activeIdx] || emptyDay (todayISO ())]. *)
Definition activeDay (today : string) (ui : UI) : Day.t :=
  default (emptyDay today today) (days (state ui) !! activeIdx ui).

Definition blankExercise : Exercise :=
  mkExercise "" "" "" "" Empty Empty Empty Empty.

Definition isCardio (ex : Exercise) : bool := String.eqb (category ex) "Cardio".

(** [clamp (Number (e.target.value) || 0, 0, max)]: what a number input
    stores; [v] is the text of the input read through [Number]. *)
Definition entered (v : field) (max : number) : field :=
  Num (clamp (or0 (Number v)) 0 max).

(** The category select of row [i], whose exercise is [ex]. *)
Definition onCategoryChange (activeIdx i : nat) (newCat : string) (prev : AppState) : option AppState :=
  if String.eqb newCat "Cardio"
  then updateExercise activeIdx i
         [Category newCat; Type_ ""; Group "-"; Name "";
          Weight Empty; Sets Empty; Reps Empty] prev
  else updateExercise activeIdx i
         [Category newCat; Type_ ""; Group ""; Name ""] prev.

(** The workout-type select of row [i]. *)
Definition onTypeChange (activeIdx i : nat) (ex : Exercise) (v : string) (prev : AppState) : option AppState :=
  if isCardio ex
  then updateExercise activeIdx i [Type_ v; Group "-"; Name ""] prev
  else updateExercise activeIdx i [Type_ v; Group ""; Name ""] prev.

(** The muscle-group select of row [i]. *)
Definition onGroupChange (activeIdx i : nat) (v : string) (prev : AppState) : option AppState :=
  updateExercise activeIdx i [Group v; Name ""] prev.

(** The exercise-name select of row [i]: the value ["__ALL__"] (the option
    "All the above") expands the row, any other value names it.  [names] is
    computed at render time from the row itself. *)
Definition onNameChange (activeIdx i : nat) (ex : Exercise) (v : string) (prev : AppState) : option AppState :=
  let names := getExercises (category ex) (type ex) (group ex) in
  if String.eqb v "__ALL__"
  then replaceExerciseWithAll activeIdx i (category ex) (type ex)
         (if isCardio ex then "-" else group ex) names prev
  else updateExercise activeIdx i [Name v] prev.

Inductive event : Type :=
  | ClickNewDay
  | ClickDay (i : nat)
  | ClickTrash (i : nat)
  | ClickConfirm (i : nat)
  | ClickCancel (i : nat)
  | ChangeGoalWeight (v : field)
  | ChangeTargetCalories (v : field)
  | ChangeDate (v : string)
  | ChangeCalories (v : field)
  | ChangeProtein (v : field)
  | ChangeCarbs (v : field)
  | ChangeFat (v : field)
  | ClickAddExercise
  | ChangeCategory (i : nat) (v : string)
  | ChangeType (i : nat) (v : string)
  | ChangeGroup (i : nat) (v : string)
  | ChangeName (i : nat) (v : string)
  | ChangeWeight (i : nat) (v : field)
  | ChangeSets (i : nat) (v : field)
  | ChangeReps (i : nat) (v : field)
  | ChangeDuration (i : nat) (v : field)
  | ClickRemove (i : nat).

(** The state with [s] in place of the application state. *)
Definition setState (ui : UI) (s : AppState) : UI :=
  {| state := s; activeIdx := activeIdx ui; deleteConfirmIdx := deleteConfirmIdx ui |}.

(** One event on the rendered page.  A control of a list row exists only
    for a row that is rendered, the confirm and cancel buttons only on the
    row armed for deletion, the weight, sets and reps inputs only outside
    Cardio; an event on a control that is not there has no handler
    ([None]). *)
Definition step (today : string) (ui : UI) (ev : event) : option UI :=
  let st := state ui in
  let a := activeIdx ui in
  let row (i : nat) := Day.exercises (activeDay today ui) !! i in
  match ev with
  | ClickNewDay =>
      Some {| state := addNewDay today st; activeIdx := 0;
              deleteConfirmIdx := deleteConfirmIdx ui |}
  | ClickDay i =>
      _ ← days st !! i;
      Some {| state := st; activeIdx := i; deleteConfirmIdx := deleteConfirmIdx ui |}
  | ClickTrash i =>
      _ ← days st !! i;
      if bool_decide (deleteConfirmIdx ui = Some i) then None
      else Some {| state := st; activeIdx := a; deleteConfirmIdx := Some i |}
  | ClickConfirm i =>
      _ ← days st !! i;
      if bool_decide (deleteConfirmIdx ui = Some i)
      then Some {| state := deleteDay today i st; activeIdx := Nat.max 0 (a - 1);
                   deleteConfirmIdx := None |}
      else None
  | ClickCancel i =>
      _ ← days st !! i;
      if bool_decide (deleteConfirmIdx ui = Some i)
      then Some {| state := st; activeIdx := a; deleteConfirmIdx := None |}
      else None
  | ChangeGoalWeight v =>
      Some (setState ui (recalcMacros (or0 (Number v)) (Targets.calories (targets st)) st))
  | ChangeTargetCalories v =>
      Some (setState ui (recalcMacros (Targets.goalWeight (targets st)) (or0 (Number v)) st))
  | ChangeDate v => setState ui <$> setActiveDay a [Date v] st
  | ChangeCalories v => setState ui <$> setActiveDay a [Calories (entered v 100000)] st
  | ChangeProtein v => setState ui <$> setActiveDay a [Protein (entered v 10000)] st
  | ChangeCarbs v => setState ui <$> setActiveDay a [Carbs (entered v 10000)] st
  | ChangeFat v => setState ui <$> setActiveDay a [Fat (entered v 10000)] st
  | ClickAddExercise =>
      setState ui <$>
        setActiveDay a [Exercises (Day.exercises (activeDay today ui) ++ [blankExercise])] st
  | ChangeCategory i v =>
      _ ← row i; setState ui <$> onCategoryChange a i v st
  | ChangeType i v =>
      ex ← row i; setState ui <$> onTypeChange a i ex v st
  | ChangeGroup i v =>
      _ ← row i; setState ui <$> onGroupChange a i v st
  | ChangeName i v =>
      ex ← row i; setState ui <$> onNameChange a i ex v st
  | ChangeWeight i v =>
      ex ← row i;
      if isCardio ex then None
      else setState ui <$> updateExercise a i [Weight (entered v 10000)] st
  | ChangeSets i v =>
      ex ← row i;
      if isCardio ex then None
      else setState ui <$> updateExercise a i [Sets (entered v 1000)] st
  | ChangeReps i v =>
      ex ← row i;
      if isCardio ex then None
      else setState ui <$> updateExercise a i [Reps (entered v 10000)] st
  | ChangeDuration i v =>
      _ ← row i; setState ui <$> updateExercise a i [Duration (entered v 10000)] st
  | ClickRemove i =>
      _ ← row i; setState ui <$> removeExercise a i st
  end.

(** A run of the page: the events handled one after the other. *)
Fixpoint run (today : string) (ui : UI) (evs : list event) : option UI :=
  match evs with
  | [] => Some ui
  | ev :: evs' => ui' ← step today ui ev; run today ui' evs'
  end.

(** Whether the control an event comes from is on the page: the rows of
    the day list and of the exercise list that exist, the buttons the
    two-step delete shows, the inputs Cardio hides. *)
Definition rendered (today : string) (ui : UI) (ev : event) : bool :=
  let has_day (i : nat) := bool_decide (i < length (days (state ui)))%nat in
  let armed (i : nat) := bool_decide (deleteConfirmIdx ui = Some i) in
  let row (i : nat) := Day.exercises (activeDay today ui) !! i in
  match ev with
  | ClickDay i => has_day i
  | ClickTrash i => has_day i && negb (armed i)
  | ClickConfirm i | ClickCancel i => has_day i && armed i
  | ChangeCategory i _ | ChangeType i _ | ChangeGroup i _ | ChangeName i _
  | ChangeDuration i _ | ClickRemove i =>
      bool_decide (is_Some (row i))
  | ChangeWeight i _ | ChangeSets i _ | ChangeReps i _ =>
      from_option (λ ex, negb (isCardio ex)) false (row i)
  | _ => true
  end.

(** ** CSV export *)

Definition quote : ascii := ascii_of_nat 34.

Definition newline : string := String (ascii_of_nat 10) EmptyString.

(** [s.replaceAll (quote, quote quote)]. *)
Fixpoint replaceAll_quote (s : string) : string :=
  match s with
  | EmptyString => EmptyString
  | String c s' =>
      if Ascii.eqb c quote
      then String quote (String quote (replaceAll_quote s'))
      else String c (replaceAll_quote s')
  end.

(** One cell: the text between quotes, its own quotes doubled. *)
Definition csvCell (v : string) : string :=
  String quote (replaceAll_quote v ++ String quote EmptyString).

(** [s || ''] on a string. *)
Definition or_empty (s : string) : string := if truthy s then s else "".

Definition headers : list string :=
  ["date"; "calories"; "protein"; "carbs"; "fat";
   "exercises(c/t/g/name/wt/sets/reps/dur)"].

Section CSV.

(** [String (n)] on a number: the language's number-to-string conversion,
    which the export takes from the runtime. *)
Variable String_number : number → string.

(** [${f || 0}], and [String (f || 0)] in a row. *)
Definition numericCell (f : field) : string := String_number (field_or0 f).

(** The eight parts of the template literal that packs an exercise. *)
Definition exerciseParts (e : Exercise) : list string :=
  [ or_empty (category e); or_empty (type e); or_empty (group e); or_empty (name e);
    numericCell (weight e); numericCell (sets e); numericCell (reps e);
    numericCell (duration e) ].

Definition packExercise (e : Exercise) : string :=
  String.concat "/" (exerciseParts e).

(** The array built for a day, each value through [String]. *)
Definition rowValues (d : Day.t) : list string :=
  let ex := String.concat " | " (map packExercise (Day.exercises d)) in
  [ Day.date d;
    numericCell (Day.calories d);
    numericCell (Day.protein d);
    numericCell (Day.carbs d);
    numericCell (Day.fat d);
    ex ].

Definition csvRow (d : Day.t) : string :=
  String.concat "," (map csvCell (rowValues d)).

(** The text handed to the download. *)
Definition exportCSV (st : AppState) : string :=
  let rows := String.concat newline (map csvRow (days st)) in
  String.concat newline [String.concat "," headers; rows].

End CSV.

(** A number-to-string conversion to run the export with: the sign, the
    integer part and the decimal places, at most twenty of them.  On a
    number with a short terminating expansion these are the characters
    [String (n)] gives. *)
Fixpoint decimalPlaces (fuel : nat) (r den : Z) : string :=
  match fuel with
  | O => EmptyString
  | S fuel' =>
      if (r =? 0)%Z then EmptyString
      else String (ascii_of_nat (48 + Z.to_nat (r * 10 / den)))
             (decimalPlaces fuel' (r * 10 mod den) den)
  end.

Definition decimalString (n : number) : string :=
  let a := Z.abs (Qnum n) in
  let den := Zpos (Qden n) in
  let whole := NilZero.string_of_uint (N.to_uint (Z.to_N (a / den))) in
  let places := decimalPlaces 20 (a mod den) den in
  ((if (Qnum n <? 0)%Z then "-" else "")
   ++ whole ++ (if (a mod den =? 0)%Z then "" else "." ++ places))%string.

(** ** JSON import

    The handler works on whatever [JSON.parse] returns, so this part of the
    state is kept as parsed values. *)

Module JsonImport.

#[local] Unset Elimination Schemes.
Inductive json : Type :=
  | JNull
  | JBool (b : bool)
  | JNumber (n : number)
  | JString (s : string)
  | JArray (items : list json)
  | JObject (members : object json).
#[local] Set Elimination Schemes.

(** A value or [undefined]. *)
Definition value : Type := option json.

Definition truthy_json (v : json) : bool :=
  match v with
  | JNull => false
  | JBool b => b
  | JNumber n => negb (falsy n)
  | JString s => truthy s
  | JArray _ => true
  | JObject _ => true
  end.

Definition truthy_value (v : value) : bool :=
  match v with
  | Some j => truthy_json j
  | None => false
  end.

(** [v?.k] for a key other than [length] or an index: only an object has
    such a member. *)
Definition member (v : value) (k : string) : value :=
  match v with
  | Some (JObject o) => prop o k
  | _ => None
  end.

(** [v?.length]: arrays and strings have one, an object may have a member
    of that name. *)
Definition length_of (v : value) : value :=
  match v with
  | Some (JArray items) => Some (JNumber (inject_Z (Z.of_nat (length items))))
  | Some (JString s) => Some (JNumber (inject_Z (Z.of_nat (String.length s))))
  | Some (JObject o) => prop o "length"
  | _ => None
  end.

Definition index_key (i : nat) : string := NilZero.string_of_uint (Nat.to_uint i).

Fixpoint chars (s : string) : list json :=
  match s with
  | EmptyString => []
  | String c s' => JString (String c EmptyString) :: chars s'
  end.

(** The own enumerable properties a spread [...v] copies. *)
Definition spread_entries (v : json) : list (string * json) :=
  match v with
  | JObject o => o
  | JArray items => imap (λ i x, (index_key i, x)) items
  | JString s => imap (λ i x, (index_key i, x)) (chars s)
  | _ => []
  end.

(** [o[k] = v] on an object literal under construction. *)
Fixpoint assign (o : object json) (k : string) (v : json) : object json :=
  match o with
  | [] => [(k, v)]
  | (k', v') :: o' =>
      if String.eqb k k' then (k', v) :: o' else (k', v') :: assign o' k v
  end.

(** [{ ...base, ...over }]. *)
Definition spread (base : object json) (over : list (string * json)) : object json :=
  fold_left (λ o kv, assign o (fst kv) (snd kv)) over base.

Definition defaultTargets : object json :=
  [ ("calories", JNumber 1800); ("protein", JNumber 130); ("carbs", JNumber 160);
    ("fat", JNumber 60); ("goalWeight", JNumber 150) ].

(** The members of [parsed.targets || {}], which the import spreads over
    the default targets. *)
Definition parsed_targets (p : json) : list (string * json) :=
  match member (Some p) "targets" with
  | Some t => if truthy_json t then spread_entries t else []
  | None => []
  end.

(** The application state as the import leaves it. *)
Record state : Type := mkState {
  targets : object json;
  days : json
}.

(** What one run of the handler did. *)
Record outcome : Type := mkOutcome {
  state_after : state;
  activeIdx_after : nat;
  alerts : list string
}.

(** The [reader.onload] callback.  [parsed] is the result of
    [JSON.parse (String (reader.result))]: a value, or [None] when it
    throws. *)
Definition onload (parsed : option json) (prev : state) (activeIdx : nat) : outcome :=
  let unchanged := {| state_after := prev; activeIdx_after := activeIdx; alerts := [] |} in
  match parsed with
  | Some p =>
      match member (Some p) "days" with
      | Some parsed_days =>
          if truthy_value (length_of (Some parsed_days))
          then
            {| state_after :=
                 {| targets := spread defaultTargets (parsed_targets p);
                    days := parsed_days |};
               activeIdx_after := 0;
               alerts := [] |}
          else unchanged
      | None => unchanged
      end
  | None =>
      {| state_after := prev; activeIdx_after := activeIdx;
         alerts := ["Invalid JSON file"] |}
  end.

(** [importJSON]: nothing happens without a selected file. *)
Definition importJSON (file : option (option json)) (prev : state) (activeIdx : nat) : outcome :=
  match file with
  | None => {| state_after := prev; activeIdx_after := activeIdx; alerts := [] |}
  | Some parsed => onload parsed prev activeIdx
  end.

End JsonImport.

(** ** What the specification says of a computed target (data model, §3)

    The invariant of a [MacroTargets] record as the specification words it,
    read generously: "up to rounding" allows half a gram either way, so
    4.5 kcal on the fat and 2 kcal on the carbs, and the clamp excuses a
    carbs figure of zero. *)
Definition spec_invariant (goalWeight calories : number) (m : Macros.t) : Prop :=
  let protein := inject_Z (Macros.protein m) in
  let fat := inject_Z (Macros.fat m) in
  let carbs := inject_Z (Macros.carbs m) in
  protein == goalWeight
  ∧ Qabs (fat * 9 - 0.25 * calories) <= 9 # 2
  ∧ (carbs == 0 ∨ Qabs (carbs * 4 - (calories - protein * 4 - fat * 9)) <= 2)
  ∧ 0 <= carbs.

(** ** The active index points into the day list *)

Definition well_indexed (ui : UI) : Prop :=
  (activeIdx ui < length (days (state ui)))%nat.

(** ** What it means to expand row [i] to all the names of its group *)

(** [exs'] is [exs] with the row [ex] at [i] replaced by one row per name
    of its group, each with the category, type and group of [ex] and no
    weight, sets, reps or duration; the rows before keep their places and
    the rows after move by the number of names less one. *)
Definition expanded_at (i : nat) (ex : Exercise) (exs exs' : list Exercise) : Prop :=
  let names := getExercises (category ex) (type ex) (group ex) in
  let row n := mkExercise (category ex) (type ex) (group ex) n Empty Empty Empty Empty in
  exs' = take i exs ++ map row names ++ drop (S i) exs
  ∧ (length exs' + 1 = length exs + length names)%nat
  ∧ (∀ j, (j < i)%nat → exs' !! j = exs !! j)
  ∧ (∀ k n, names !! k = Some n → exs' !! (i + k)%nat = Some (row n))
  ∧ (∀ j, (i < j)%nat → exs' !! (j + length names - 1)%nat = exs !! j).

(** ** What it means to touch only the exercises of the active day *)

Definition same_but_exercises (d d' : Day.t) : Prop :=
  Day.date d' = Day.date d
  ∧ Day.calories d' = Day.calories d
  ∧ Day.protein d' = Day.protein d
  ∧ Day.carbs d' = Day.carbs d
  ∧ Day.fat d' = Day.fat d.

(** From [s] to [s'] the targets, the number of days and every day but the
    one at [activeIdx] stay as they are, and that day keeps every field but
    its exercises. *)
Definition only_active_exercises (activeIdx : nat) (s s' : AppState) : Prop :=
  targets s' = targets s
  ∧ length (days s') = length (days s)
  ∧ (∀ j, j ≠ activeIdx → days s' !! j = days s !! j)
  ∧ ∃ d d', days s !! activeIdx = Some d
            ∧ days s' !! activeIdx = Some d'
            ∧ same_but_exercises d d'.

(** ** Sample data to run the definitions on *)

Definition sampleDay : Day.t :=
  {| Day.date := "2025-03-01";
     Day.calories := Num 2000;
     Day.protein := Num 150;
     Day.carbs := Empty;
     Day.fat := Num 60;
     Day.exercises :=
       [ mkExercise "Strength" "Push" "Chest" "Flat bench press"
           (Num 135) (Num 3) (Num 8) Empty;
         mkExercise "Cardio" "LISS" "-" "" Empty Empty Empty (Num 30);
         mkExercise "Strength" "Pull" "Bicep" "EZ bar curl"
           (Num 50) (Num 3) (Num 12) Empty ] |}.

Definition sampleState : AppState :=
  {| targets := defaultTargets;
     days := [emptyDay "2025-03-02" ""; sampleDay] |}.

Definition sampleUI : UI :=
  {| state := sampleState; activeIdx := 1; deleteConfirmIdx := None |}.

(** ** Loading from storage

    The effect that runs once when the page mounts.  Unlike the import it
    rebuilds every stored day, so it reads the members of each. *)

Module Storage.
Import JsonImport.

(** [d.k] on a stored day, for the member names the loader reads: reading
    a member of [null] throws ([None]), and only an object has one. *)
Definition read (d : json) (k : string) : option value :=
  match d with
  | JNull => None
  | JObject o => Some (prop o k)
  | _ => Some None
  end.

(** [v || todayISO ()]. *)
Definition or_today (today : string) (v : value) : json :=
  match v with
  | Some j => if truthy_json j then j else JString today
  | None => JString today
  end.

(** [v ?? '']. *)
Definition or_blank (v : value) : json :=
  match v with
  | Some JNull | None => JString ""
  | Some j => j
  end.

(** [Array.isArray (v) ? v : []]. *)
Definition array_or_empty (v : value) : json :=
  match v with
  | Some (JArray items) => JArray items
  | _ => JArray []
  end.

(** The callback of [parsed.days.map]: the stored day with its six members
    defaulted; [None] when it throws. *)
Definition loadDay (today : string) (d : json) : option json :=
  date ← read d "date";
  calories ← read d "calories";
  protein ← read d "protein";
  carbs ← read d "carbs";
  fat ← read d "fat";
  exercises ← read d "exercises";
  Some (JObject
          [ ("date", or_today today date);
            ("calories", or_blank calories);
            ("protein", or_blank protein);
            ("carbs", or_blank carbs);
            ("fat", or_blank fat);
            ("exercises", array_or_empty exercises) ]).

(** [items.map (f)] for a callback that may throw. *)
Fixpoint map_throwing (f : json → option json) (items : list json) : option (list json) :=
  match items with
  | [] => Some []
  | x :: items' =>
      y ← f x; ys ← map_throwing f items'; Some (y :: ys)
  end.

(** [parsed.days.map (...)]: only an array has a [map] to call. *)
Definition loadDays (today : string) (parsed_days : json) : option json :=
  match parsed_days with
  | JArray items => JArray <$> map_throwing (loadDay today) items
  | _ => None
  end.

(** What the effect did: it set the state (and made day 0 active), it did
    nothing, or it caught an exception and logged it. *)
Inductive result : Type :=
  | Loaded (s : state)
  | Skipped
  | Failed.

(** The body of the effect.  [stored] is the item read from local storage,
    parsed: [None] when there is no item or it is the empty string,
    [Some None] when [JSON.parse] throws. *)
Definition load (today : string) (stored : option (option json)) : result :=
  match stored with
  | None => Skipped
  | Some None => Failed
  | Some (Some parsed) =>
      let parsed_days :=
        if truthy_json parsed then member (Some parsed) "days" else None in
      if truthy_value parsed_days && truthy_value (length_of parsed_days)
      then
        match parsed_days ≫= loadDays today with
        | Some loaded_days =>
            Loaded {| targets := spread defaultTargets (parsed_targets parsed);
                      days := loaded_days |}
        | None => Failed
        end
      else Skipped
  end.

End Storage.

(* ================================================================== *)
(** * Part II: properties                                              *)
(* ================================================================== *)

(** ** Macro calculator *)

Lemma falsy_spec (n : number) : falsy n = true ↔ n == 0.
Proof. unfold falsy. apply Qeq_bool_iff. Qed.

Lemma falsy_false (n : number) : ¬ n == 0 → falsy n = false.
Proof.
  intros Hn. destruct (falsy n) eqn:E; [|reflexivity].
  exfalso. apply Hn. now apply falsy_spec.
Qed.

(** The rounded value is within half a unit, the upper half included. *)
Lemma Math_round_bounds (x : number) :
  inject_Z (Math_round x) <= x + (1 # 2) ∧ x - (1 # 2) < inject_Z (Math_round x).
Proof.
  unfold Math_round. split.
  - pose proof (Qfloor_le (x + 0.5)) as H.
    generalize dependent (inject_Z (Qfloor (x + 0.5))). intros q H. lra.
  - pose proof (Qlt_floor (x + 0.5)) as H.
    rewrite inject_Z_plus in H. change (inject_Z 1) with 1 in H.
    generalize dependent (inject_Z (Qfloor (x + 0.5))). intros q H. lra.
Qed.

Lemma computeMacros_Some (goalWeight calories : number) (m : Macros.t) :
  computeMacros goalWeight calories = Some m →
  ¬ goalWeight == 0 ∧ ¬ calories == 0
  ∧ m = {| Macros.calories := Math_round calories;
           Macros.protein := Math_round goalWeight;
           Macros.fat := Math_round (calories * 0.25 / 9);
           Macros.carbs :=
             Z.max 0 (Math_round ((calories - (goalWeight * 4 + calories * 0.25)) / 4)) |}.
Proof.
  unfold computeMacros.
  destruct (falsy goalWeight) eqn:Eg; [discriminate|].
  destruct (falsy calories) eqn:Ec; [discriminate|]. cbn [orb].
  intros [= <-]. repeat split.
  - intros H. apply falsy_spec in H. congruence.
  - intros H. apply falsy_spec in H. congruence.
Qed.

(** The source's own console tests of the calculator, in exact
    arithmetic. *)
Example computeMacros_test2 :
  computeMacros 120 1600 = Some (Macros.mk 1600 120 44 180).
Proof. reflexivity. Qed.

Example computeMacros_test4 :
  computeMacros 200 1000 = Some (Macros.mk 1000 200 28 0).
Proof. reflexivity. Qed.

Example computeMacros_test5 :
  computeMacros 185 2200 = Some (Macros.mk 2200 185 61 228).
Proof. reflexivity. Qed.

(** The two embeddings of the calculator agree on every whole goal weight
    from 0 to 400 lb in steps of 10 and every whole calorie count from 0 to
    5000 kcal in steps of 50. *)
Example binary64_agrees_on_grid :
  forallb (λ g, forallb (agrees g) (grid 0 50 101)) (grid 0 10 41) = true.
Proof. vm_compute. reflexivity. Qed.

(** The source's console tests, in double precision. *)
Example computeMacros_tests_binary64 :
  Binary64.computeMacros (Binary64.of_Z 120) (Binary64.of_Z 1600)
  = Some (Binary64.of_macros (Macros.mk 1600 120 44 180))
  ∧ Binary64.computeMacros (Binary64.of_Z 200) (Binary64.of_Z 1000)
    = Some (Binary64.of_macros (Macros.mk 1000 200 28 0))
  ∧ Binary64.computeMacros (Binary64.of_Z 185) (Binary64.of_Z 2200)
    = Some (Binary64.of_macros (Macros.mk 2200 185 61 228)).
Proof. repeat split; vm_compute; reflexivity. Qed.

(** *** Doubles that hold whole numbers *)

Section Binary64Facts.
Import Binary64.
Local Open Scope Z_scope.

Lemma digits2_pos_iter_xO (p k : positive) :
  digits2_pos (Pos.iter xO p k) = (digits2_pos p + k)%positive.
Proof.
  revert p. induction k using Pos.peano_ind; intros p.
  - cbn. lia.
  - rewrite Pos.iter_succ. cbn [digits2_pos]. rewrite IHk. lia.
Qed.

Lemma Zpos_iter_xO (p k : positive) :
  Zpos (Pos.iter xO p k) = Zpos p * 2 ^ Zpos k.
Proof.
  revert p. induction k using Pos.peano_ind; intros p.
  - cbn. lia.
  - rewrite Pos.iter_succ, Pos2Z.inj_succ, Z.pow_succ_r by lia.
    rewrite Pos2Z.inj_xO, IHk. lia.
Qed.

Lemma digits2_pos_lower (p : positive) :
  2 ^ (Zpos (digits2_pos p) - 1) <= Zpos p.
Proof.
  induction p as [p IH|p IH|]; cbn [digits2_pos].
  - replace (Zpos (Pos.succ (digits2_pos p)) - 1)
      with (Z.succ (Zpos (digits2_pos p) - 1)) by lia.
    rewrite Z.pow_succ_r by lia. lia.
  - replace (Zpos (Pos.succ (digits2_pos p)) - 1)
      with (Z.succ (Zpos (digits2_pos p) - 1)) by lia.
    rewrite Z.pow_succ_r by lia. lia.
  - cbn. lia.
Qed.

Lemma digits2_pos_small (p : positive) :
  Zpos p < 2 ^ 53 → Zpos (digits2_pos p) <= 53.
Proof.
  intros H.
  destruct (Z.le_gt_cases (Zpos (digits2_pos p)) 53) as [Hle|Hgt]; [exact Hle|].
  exfalso. pose proof (digits2_pos_lower p) as Hl.
  assert (2 ^ 53 <= 2 ^ (Zpos (digits2_pos p) - 1)) by (apply Z.pow_le_mono_r; lia).
  lia.
Qed.

(** The double of a whole number below 2^53: the number itself as the
    mantissa, shifted to 53 bits. *)
Lemma binary_round_small (s : bool) (p : positive) :
  Zpos (digits2_pos p) <= 53 →
  binary_round prec emax s p 0
  = match Zpos (digits2_pos p) - 53 with
    | Zneg k => S754_finite s (Pos.iter xO p k) (Zneg k)
    | _ => S754_finite s p 0
    end.
Proof.
  intros Hd. unfold binary_round.
  assert (fexp prec emax (Zpos (digits2_pos p) + 0) = Zpos (digits2_pos p) - 53) as ->.
  { unfold fexp, emin, prec, emax. lia. }
  unfold shl_align. rewrite Z.sub_0_r.
  destruct (Zpos (digits2_pos p) - 53) as [|k|k] eqn:E; try lia.
  - unfold binary_round_aux, shr_fexp. cbn [Zdigits2].
    assert (fexp prec emax (Zpos (digits2_pos p) + 0) - 0 = 0) as ->.
    { unfold fexp, emin, prec, emax. lia. }
    cbn [shr shr_record_of_loc shr_m loc_of_shr_record round_nearest_even Zdigits2].
    assert (fexp prec emax (Zpos (digits2_pos p) + 0) - 0 = 0) as ->.
    { unfold fexp, emin, prec, emax. lia. }
    cbn. reflexivity.
  - unfold binary_round_aux, shr_fexp. cbn [Zdigits2].
    rewrite digits2_pos_iter_xO.
    assert (fexp prec emax (Zpos (digits2_pos p + k) + Zneg k) - Zneg k = 0) as ->.
    { unfold fexp, emin, prec, emax. lia. }
    cbn [shr shr_record_of_loc shr_m loc_of_shr_record round_nearest_even Zdigits2].
    rewrite digits2_pos_iter_xO.
    assert (fexp prec emax (Zpos (digits2_pos p + k) + Zneg k) - Zneg k = 0) as ->.
    { unfold fexp, emin, prec, emax. lia. }
    cbn [shr shr_m].
    assert ((Zneg k <=? emax - prec) = true) as ->
      by (apply Z.leb_le; unfold emax, prec; lia).
    reflexivity.
Qed.

Lemma Math_round_binary_round (s : bool) (p : positive) :
  Zpos p < 2 ^ 53 →
  Math_round (binary_round prec emax s p 0) = binary_round prec emax s p 0.
Proof.
  intros Hp. pose proof (digits2_pos_small p Hp) as Hd.
  rewrite (binary_round_small s p Hd).
  destruct (Zpos (digits2_pos p) - 53) as [|k|k] eqn:E; try reflexivity.
  unfold Math_round. change (0 <=? Zneg k) with false. cbv iota.
  change (- Zneg k) with (Zpos k).
  assert ((cond_Zopp s (Zpos (Pos.iter xO p k)) + 2 ^ (Zpos k - 1)) / 2 ^ Zpos k
          = cond_Zopp s (Zpos p)) as ->.
  { rewrite Zpos_iter_xO.
    assert (2 ^ Zpos k = 2 * 2 ^ (Zpos k - 1)) as Hk.
    { rewrite <- Z.pow_succ_r by lia. f_equal. lia. }
    assert (0 < 2 ^ (Zpos k - 1)) by (apply Z.pow_pos_nonneg; lia).
    destruct s; cbn [cond_Zopp].
    - rewrite <- Z.mul_opp_l, Z.div_add_l by lia.
      rewrite Z.div_small by lia. lia.
    - rewrite Z.div_add_l by lia. rewrite Z.div_small by lia. lia. }
  destruct s; cbn [cond_Zopp]; [change (- Zpos p) with (Zneg p)|];
    cbn [binary_normalize]; rewrite (binary_round_small _ p Hd), E; reflexivity.
Qed.

(** [Math.round] gives back a whole number below 2^53 in magnitude. *)
Lemma Math_round_of_Z (z : Z) :
  Z.abs z < 2 ^ 53 → Math_round (of_Z z) = of_Z z.
Proof.
  intros Hz. unfold of_Z. destruct z as [|p|p]; cbn [binary_normalize].
  - reflexivity.
  - apply Math_round_binary_round. lia.
  - apply Math_round_binary_round. lia.
Qed.

(** [Math.max (0, y)]: NaN for NaN, zero for what is below zero, [y] for
    what is above; never below zero. *)
Lemma Math_max_zero (y : number) :
  (Math_max (of_Z 0) y = S754_nan ↔ y = S754_nan)
  ∧ SFltb (Math_max (of_Z 0) y) (of_Z 0) = false
  ∧ (y ≠ S754_nan → SFleb (of_Z 0) (Math_max (of_Z 0) y) = true)
  ∧ (SFltb y (of_Z 0) = true → Math_max (of_Z 0) y = S754_zero false)
  ∧ (SFltb (of_Z 0) y = true → Math_max (of_Z 0) y = y).
Proof.
  change (of_Z 0) with (S754_zero false).
  destruct y as [[|]|[|]| |[|] m e]; cbn; repeat split;
    intros; try reflexivity; try discriminate; try congruence.
Qed.

(** With an infinite calorie count the carbs are NaN: the fat calories
    are infinite too, and the difference of the two has no value. *)
Lemma carbs_of_infinite_calories (g : number) (s : bool) :
  Math_max (of_Z 0)
    (Math_round
       (div (sub (S754_infinity s)
               (add (mul g (of_Z 4)) (mul (S754_infinity s) (div (of_Z 1) (of_Z 4)))))
          (of_Z 4)))
  = S754_nan.
Proof.
  assert (div (of_Z 1) (of_Z 4) = S754_finite false 4503599627370496 (-54)) as ->
    by (vm_compute; reflexivity).
  generalize (mul g (of_Z 4)). intros x.
  destruct x as [[|]|[|]| |[|] m e], s; reflexivity.
Qed.

(** Equal finite doubles have the difference plus zero. *)
Lemma sub_diag (s : bool) (m : positive) (e : Z) :
  sub (S754_finite s m e) (S754_finite s m e) = S754_zero false.
Proof.
  unfold sub. cbn [SFsub]. cbv zeta. now rewrite Z.sub_diag.
Qed.

(** [x === 0]: the two zeros. *)
Lemma strictly_zero (x : number) :
  SFeqb x (of_Z 0) = true ↔ x = S754_zero false ∨ x = S754_zero true.
Proof.
  change (of_Z 0) with (S754_zero false).
  destruct x as [[|]|[|]| |[|] m e]; cbn; split;
    intros H; try discriminate; auto; destruct H as [H|H]; discriminate.
Qed.

(** *** A difference is zero only between equal doubles *)

Lemma shr_1_m (r : shr_record) : 0 <= shr_m r → shr_m (shr_1 r) = shr_m r / 2.
Proof.
  destruct r as [m rr ss]. cbn [shr_m]. intros Hm.
  destruct m as [|[p|p|]|p]; cbn [shr_1 shr_m].
  - reflexivity.
  - apply (Z.div_unique _ _ _ 1); lia.
  - apply (Z.div_unique _ _ _ 0); lia.
  - reflexivity.
  - lia.
Qed.

Lemma iter_pos_shr_1_m (n : positive) (r : shr_record) :
  0 <= shr_m r → shr_m (SpecFloat.iter_pos shr_1 n r) = shr_m r / 2 ^ Zpos n.
Proof.
  revert r. induction n as [n IH|n IH|]; intros r Hr; cbn [SpecFloat.iter_pos].
  - pose proof (shr_1_m r Hr) as H1.
    assert (0 <= shr_m (shr_1 r)) as Hr1 by (rewrite H1; apply Z.div_pos; lia).
    pose proof (IH _ Hr1) as H2.
    assert (0 <= shr_m (SpecFloat.iter_pos shr_1 n (shr_1 r))) as Hr2
      by (rewrite H2; apply Z.div_pos; [lia|apply Z.pow_pos_nonneg; lia]).
    rewrite (IH _ Hr2), H2, H1.
    rewrite !Z.div_div by (try apply Z.pow_pos_nonneg; lia).
    f_equal. replace 2 with (2 ^ 1) at 1 by reflexivity.
    rewrite <- !Z.pow_add_r by lia. f_equal. lia.
  - pose proof (IH _ Hr) as H2.
    assert (0 <= shr_m (SpecFloat.iter_pos shr_1 n r)) as Hr2
      by (rewrite H2; apply Z.div_pos; [lia|apply Z.pow_pos_nonneg; lia]).
    rewrite (IH _ Hr2), H2.
    rewrite !Z.div_div by (try apply Z.pow_pos_nonneg; lia).
    f_equal. rewrite <- Z.pow_add_r by lia. f_equal. lia.
  - rewrite (shr_1_m r Hr). reflexivity.
Qed.

Lemma shr_record_of_loc_m (m : Z) (l : location) : shr_m (shr_record_of_loc m l) = m.
Proof. destruct l as [|[]]; reflexivity. Qed.

(** Shifting a mantissa to its place never loses all of it, from the
    smallest exponent on. *)
Lemma shr_fexp_pos (m : positive) (e : Z) (l : location) :
  emin prec emax <= e →
  0 < shr_m (fst (shr_fexp prec emax (Zpos m) e l))
  ∧ emin prec emax <= snd (shr_fexp prec emax (Zpos m) e l).
Proof.
  intros He. unfold shr_fexp, shr. cbn [Zdigits2].
  pose proof (digits2_pos_lower m) as Hd.
  destruct (fexp prec emax (Zpos (digits2_pos m) + e) - e) as [|k|k] eqn:Ek;
    cbn [fst snd]; rewrite ?shr_record_of_loc_m; try (split; lia).
  rewrite iter_pos_shr_1_m by (rewrite shr_record_of_loc_m; lia).
  rewrite shr_record_of_loc_m.
  assert (Zpos k <= Zpos (digits2_pos m) - 1) as Hk.
  { unfold fexp, emin, prec, emax in *. lia. }
  split; [|lia].
  apply Z.div_str_pos. split; [apply Z.pow_pos_nonneg; lia|].
  transitivity (2 ^ (Zpos (digits2_pos m) - 1)); [|exact Hd].
  apply Z.pow_le_mono_r; lia.
Qed.

Lemma round_nearest_even_pos (m : Z) (l : location) :
  0 < m → 0 < round_nearest_even m l.
Proof.
  intros Hm. destruct l as [|[]]; cbn [round_nearest_even]; try lia.
  destruct (Z.even m); lia.
Qed.

(** Rounding a mantissa that is not zero, from the smallest exponent on,
    gives a finite number or an infinity: never zero. *)
Lemma binary_round_aux_class (s : bool) (m : positive) (e : Z) (l : location) :
  emin prec emax <= e →
  (∃ m' e', binary_round_aux prec emax s (Zpos m) e l = S754_finite s m' e')
  ∨ binary_round_aux prec emax s (Zpos m) e l = S754_infinity s.
Proof.
  intros He. unfold binary_round_aux.
  destruct (shr_fexp_pos m e l He) as [Hm1 He1].
  destruct (shr_fexp prec emax (Zpos m) e l) as [mrs' e'] eqn:E1. cbn [fst snd] in *.
  pose proof (round_nearest_even_pos (shr_m mrs') (loc_of_shr_record mrs') Hm1) as Hr.
  destruct (round_nearest_even (shr_m mrs') (loc_of_shr_record mrs')) as [|q|q] eqn:Eq;
    try lia.
  destruct (shr_fexp_pos q e' loc_Exact He1) as [Hm2 He2].
  destruct (shr_fexp prec emax (Zpos q) e' loc_Exact) as [mrs'' e''] eqn:E2.
  cbn [fst snd] in *.
  destruct (shr_m mrs'') as [|q'|q']; try lia.
  destruct (e'' <=? emax - prec); eauto.
Qed.

Lemma binary_round_class (s : bool) (p : positive) (e : Z) :
  emin prec emax <= e →
  (∃ m' e', binary_round prec emax s p e = S754_finite s m' e')
  ∨ binary_round prec emax s p e = S754_infinity s.
Proof.
  intros He. unfold binary_round, shl_align.
  destruct (fexp prec emax (Zpos (digits2_pos p) + e) - e) as [|k|k] eqn:Ek;
    apply binary_round_aux_class; unfold fexp, emin, prec, emax in *; lia.
Qed.

Lemma shl_align_m (m : positive) (e e' : Z) :
  e' <= e → Zpos (fst (shl_align m e e')) = Zpos m * 2 ^ (e - e').
Proof.
  intros H. unfold shl_align.
  destruct (e' - e) as [|k|k] eqn:Ek; cbn [fst]; try lia.
  - replace (e - e') with 0 by lia. lia.
  - rewrite Zpos_iter_xO. f_equal. f_equal. lia.
Qed.

Lemma canonical_exponent (m : positive) (e : Z) :
  bounded prec emax m e = true →
  emin prec emax <= e ∧ e = fexp prec emax (Zpos (digits2_pos m) + e).
Proof.
  unfold bounded, canonical_mantissa. intros H.
  apply andb_true_iff in H as [H _]. apply Z.eqb_eq in H.
  split; [|now symmetry]. rewrite <- H. unfold fexp. lia.
Qed.

Lemma digits2_pos_mul_pow (m : positive) (k : Z) (m' : positive) :
  0 <= k → Zpos m' = Zpos m * 2 ^ k →
  Zpos (digits2_pos m') = Zpos (digits2_pos m) + k.
Proof.
  intros Hk H. destruct k as [|k|k]; try lia.
  - assert (m' = m) by lia. subst. lia.
  - assert (m' = Pos.iter xO m k) as ->.
    { apply Pos2Z.inj. rewrite Zpos_iter_xO. exact H. }
    rewrite digits2_pos_iter_xO. lia.
Qed.

(** Two doubles with the same value are the same double. *)
Lemma canonical_unique (mx my : positive) (ex ey : Z) :
  bounded prec emax mx ex = true → bounded prec emax my ey = true →
  ex <= ey → Zpos mx = Zpos my * 2 ^ (ey - ex) →
  mx = my ∧ ex = ey.
Proof.
  intros Hx Hy Hle H.
  destruct (canonical_exponent mx ex Hx) as [_ Ex].
  destruct (canonical_exponent my ey Hy) as [_ Ey].
  pose proof (digits2_pos_mul_pow my (ey - ex) mx ltac:(lia) H) as Hd.
  assert (ex = ey) as <-.
  { rewrite Ex at 1. rewrite Ey at 1. f_equal. lia. }
  split; [|reflexivity]. rewrite Z.sub_diag in H. lia.
Qed.

Lemma sub_zero_iff (sx sy : bool) (mx my : positive) (ex ey : Z) :
  bounded prec emax mx ex = true → bounded prec emax my ey = true →
  SFeqb (sub (S754_finite sx mx ex) (S754_finite sy my ey)) (of_Z 0) = true
  ↔ S754_finite sx mx ex = S754_finite sy my ey.
Proof.
  intros Hx Hy. split; [|intros [= -> -> ->]; now rewrite sub_diag].
  destruct (canonical_exponent mx ex Hx) as [Hex _].
  destruct (canonical_exponent my ey Hy) as [Hey _].
  unfold sub. cbn [SFsub]. cbv zeta.
  set (ez := Z.min ex ey).
  assert (emin prec emax <= ez) as Hez by (subst ez; lia).
  pose proof (shl_align_m mx ex ez ltac:(subst ez; lia)) as HX.
  pose proof (shl_align_m my ey ez ltac:(subst ez; lia)) as HY.
  set (X := fst (shl_align mx ex ez)) in *.
  set (Y := fst (shl_align my ey ez)) in *.
  destruct (cond_Zopp sx (Zpos X) - cond_Zopp sy (Zpos Y)) as [|d|d] eqn:Ed;
    cbn [binary_normalize].
  - intros _.
    assert (sx = sy ∧ Zpos X = Zpos Y) as [-> HXY]
      by (destruct sx, sy; cbn [cond_Zopp] in Ed; split; (reflexivity || lia)).
    rewrite HX, HY in HXY.
    destruct (Z.le_gt_cases ex ey) as [Hle|Hgt].
    + replace ez with ex in HXY by (subst ez; lia).
      rewrite Z.sub_diag, Z.mul_1_r in HXY.
      destruct (canonical_unique mx my ex ey Hx Hy Hle HXY) as [-> ->]. reflexivity.
    + replace ez with ey in HXY by (subst ez; lia).
      rewrite Z.sub_diag, Z.mul_1_r in HXY. symmetry in HXY.
      destruct (canonical_unique my mx ey ex Hy Hx ltac:(lia) HXY) as [-> ->].
      reflexivity.
  - destruct (binary_round_class false d ez Hez) as [(m' & e' & ->)| ->];
      intros H; discriminate H.
  - destruct (binary_round_class true d ez Hez) as [(m' & e' & ->)| ->];
      intros H; discriminate H.
Qed.

Lemma SFeqb_finite (sx sy : bool) (mx my : positive) (ex ey : Z) :
  SFeqb (S754_finite sx mx ex) (S754_finite sy my ey) = true
  ↔ S754_finite sx mx ex = S754_finite sy my ey.
Proof.
  unfold SFeqb. cbn [SFcompare]. split.
  - destruct sx, sy; try discriminate;
      destruct (Z.compare_spec ex ey) as [->| |]; try discriminate;
      rewrite Pos.compare_cont_spec; cbn [Pos.switch_Eq];
      destruct (Pos.compare_spec mx my) as [->| |]; try discriminate; reflexivity.
  - intros [= -> -> ->]. destruct sy; rewrite Z.compare_refl, Pos.compare_cont_refl;
      reflexivity.
Qed.

(** The difference of a zero or a finite double and any double is zero
    exactly when the two are equal. *)
Lemma sub_zero_iff_equal (x y : number) :
  finite x = true → valid y = true →
  SFeqb (sub x y) (of_Z 0) = true ↔ SFeqb x y = true.
Proof.
  destruct x as [sx| | |sx mx ex], y as [sy|sy| |sy my ey]; cbn [finite valid valid_binary];
    try discriminate; intros Hx Hy.
  - destruct sx, sy; split; reflexivity.
  - destruct sy; split; intros H; discriminate H.
  - split; intros H; discriminate H.
  - split; intros H; [|destruct sy; discriminate H].
    unfold sub in H. cbn [SFsub] in H. apply strictly_zero in H as [H|H]; discriminate H.
  - split; intros H; [|destruct sx; discriminate H].
    unfold sub in H. cbn [SFsub] in H. apply strictly_zero in H as [H|H]; discriminate H.
  - destruct sx, sy; split; intros H; discriminate H.
  - destruct sx; split; intros H; discriminate H.
  - rewrite SFeqb_finite. now apply sub_zero_iff.
Qed.

Lemma computeMacros64_Some (goalWeight calories : number) (m : Macros64) :
  computeMacros goalWeight calories = Some m →
  falsy goalWeight = false ∧ falsy calories = false
  ∧ m = {| calories := Math_round calories;
           protein := Math_round goalWeight;
           fat := Math_round (div (mul calories (div (of_Z 1) (of_Z 4))) (of_Z 9));
           carbs :=
             Math_max (of_Z 0)
               (Math_round
                  (div (sub calories
                          (add (mul goalWeight (of_Z 4))
                             (mul calories (div (of_Z 1) (of_Z 4)))))
                     (of_Z 4))) |}.
Proof.
  unfold computeMacros.
  destruct (falsy goalWeight); [discriminate|].
  destruct (falsy calories); [discriminate|]. cbn [orb].
  intros [= <-]. repeat split.
Qed.

End Binary64Facts.

(** The two embeddings of the calculator agree on every whole goal weight
    and calorie count of the grid. *)
Lemma agrees_on_grid (g c : Z) :
  g ∈ grid 0 10 41 → c ∈ grid 0 50 101 → agrees g c = true.
Proof.
  intros Hg Hc. apply list_elem_of_In in Hg, Hc.
  pose proof binary64_agrees_on_grid as H.
  rewrite forallb_forall in H. specialize (H g Hg).
  rewrite forallb_forall in H. exact (H c Hc).
Qed.

(** C1, as the specification states it, fails, however its formula for the
    carbs is read.  From left to right in doubles,
    [(calories - 4 * goalWeight - 0.25 * calories) / 4] gives 178 g for a
    goal weight of 153.9 lb and 1772.8 kcal, where the calculator, which
    subtracts the sum of the protein and fat calories, gives 179 g.  In
    exact arithmetic the formula gives 284 g for the doubles 100.1 and
    2051.2, where the calculator gives 285 g. *)
Lemma claimed_carbs_differ :
  Binary64.carbs
    <$> Binary64.computeMacros (Binary64.decimal 1539 10) (Binary64.decimal 17728 10)
  = Some (Binary64.of_Z 179)
  ∧ Binary64.claimed_carbs (Binary64.decimal 1539 10) (Binary64.decimal 17728 10)
    = Binary64.of_Z 178
  ∧ Binary64.carbs
      <$> Binary64.computeMacros (Binary64.decimal 1001 10) (Binary64.decimal 20512 10)
    = Some (Binary64.of_Z 285)
  ∧ Macros.carbs
      <$> computeMacros (Binary64.to_Q (Binary64.decimal 1001 10))
            (Binary64.to_Q (Binary64.decimal 20512 10))
    = Some 284%Z.
Proof. repeat split; vm_compute; reflexivity. Qed.

(** C1, amended.  For a goal weight and a calorie count that are both
    truthy (neither zero nor NaN) the calculator returns the record whose
    calories are the rounded calories, whose protein is the rounded goal
    weight, whose fat is the rounded [calories * 0.25 / 9] and whose carbs
    are the rounded [(calories - (goalWeight * 4 + calories * 0.25)) / 4],
    not below zero, every operation being the double-precision one, in
    this order: each from the unrounded inputs, [Math.round] applied to the
    four outputs only.  For 150 lb and 1800 kcal that is 1800 kcal, 150 g
    protein, 50 g fat, 188 g carbs; and on every whole goal weight from 0
    to 400 lb in steps of 10 and every whole calorie count from 0 to 5000
    kcal in steps of 50 it is what the formula gives in exact
    arithmetic. *)
Theorem computeMacros_rounds_outputs_only :
  (∀ goalWeight calories : Binary64.number,
     Binary64.falsy goalWeight = false → Binary64.falsy calories = false →
     Binary64.computeMacros goalWeight calories =
       Some {| Binary64.calories := Binary64.Math_round calories;
               Binary64.protein := Binary64.Math_round goalWeight;
               Binary64.fat :=
                 Binary64.Math_round
                   (Binary64.div
                      (Binary64.mul calories (Binary64.decimal 25 100))
                      (Binary64.of_Z 9));
               Binary64.carbs :=
                 Binary64.Math_max (Binary64.of_Z 0)
                   (Binary64.Math_round
                      (Binary64.div
                         (Binary64.sub calories
                            (Binary64.add
                               (Binary64.mul goalWeight (Binary64.of_Z 4))
                               (Binary64.mul calories (Binary64.decimal 25 100))))
                         (Binary64.of_Z 4))) |})
  ∧ Binary64.computeMacros (Binary64.of_Z 150) (Binary64.of_Z 1800)
    = Some (Binary64.of_macros (Macros.mk 1800 150 50 188))
  ∧ (∀ g c : Z,
       g ∈ grid 0 10 41 → c ∈ grid 0 50 101 →
       Binary64.same_macros
         (Binary64.computeMacros (Binary64.of_Z g) (Binary64.of_Z c))
         (Binary64.of_macros <$> computeMacros (inject_Z g) (inject_Z c))
       = true).
Proof.
  split; [|split; [vm_compute; reflexivity|exact agrees_on_grid]].
  intros goalWeight calories Hg Hc. unfold Binary64.computeMacros.
  rewrite Hg, Hc. cbn [orb].
  assert (Binary64.decimal 25 100 = Binary64.div (Binary64.of_Z 1) (Binary64.of_Z 4))
    as -> by (vm_compute; reflexivity).
  reflexivity.
Qed.

Lemma computeMacros_rounds_outputs_only_witness :
  Binary64.computeMacros (Binary64.decimal 1539 10) (Binary64.decimal 17728 10)
  = Some {| Binary64.calories := Binary64.of_Z 1773;
            Binary64.protein := Binary64.of_Z 154;
            Binary64.fat := Binary64.of_Z 49;
            Binary64.carbs := Binary64.of_Z 179 |}.
Proof.
  rewrite (proj1 computeMacros_rounds_outputs_only
             (Binary64.decimal 1539 10) (Binary64.decimal 17728 10));
    vm_compute; reflexivity.
Defined.

(** C2.  When the goal weight or the calorie count is zero the calculator
    returns [null], an answer with no field in it; so it does for a goal
    weight of 0 and 1600 kcal.  Zero is the one falsy rational; among the
    doubles the falsy ones are the two zeros and NaN, and the calculator
    returns [null] for each of them too. *)
Theorem computeMacros_null_on_zero :
  (∀ goalWeight calories : number,
     goalWeight == 0 ∨ calories == 0 → computeMacros goalWeight calories = None)
  ∧ computeMacros 0 1600 = None
  ∧ (∀ goalWeight calories : Binary64.number,
       Binary64.falsy goalWeight = true ∨ Binary64.falsy calories = true →
       Binary64.computeMacros goalWeight calories = None)
  ∧ (∀ x : Binary64.number,
       Binary64.falsy x = true ↔
       x = S754_zero false ∨ x = S754_zero true ∨ x = S754_nan)
  ∧ Binary64.computeMacros (Binary64.of_Z 0) (Binary64.of_Z 1600) = None.
Proof.
  split; [|split; [reflexivity|]].
  { intros goalWeight calories H. unfold computeMacros.
    destruct H as [H|H]; apply falsy_spec in H; rewrite H.
    - reflexivity.
    - now rewrite orb_true_r. }
  split; [|split; [|reflexivity]].
  - intros goalWeight calories [H|H]; unfold Binary64.computeMacros; rewrite H.
    + reflexivity.
    + now rewrite orb_true_r.
  - intros x. split.
    + destruct x as [[|]|?| |? ? ?]; cbn; try discriminate; auto.
    + intros [->|[->| ->]]; reflexivity.
Qed.

Lemma computeMacros_null_on_zero_witness :
  computeMacros 1800 (0 # 7) = None.
Proof.
  apply (proj1 computeMacros_null_on_zero 1800 (0 # 7)). right. reflexivity.
Defined.

(** C3, as the specification states it, fails: for 120 lb and 1600 kcal the
    calculator gives 44 g fat and 180 g carbs (so its own console test
    says, and so it does in doubles), while the carbs left once the rounded
    fat is paid for (1600 - 480 - 396 = 724 kcal) would be 181 g; 180 g are
    4 kcal short of that, more than rounding explains. *)
Lemma spec_invariant_fails_120_1600 :
  Binary64.computeMacros (Binary64.of_Z 120) (Binary64.of_Z 1600)
  = Some (Binary64.of_macros (Macros.mk 1600 120 44 180))
  ∧ (180 * 4 = 720 ∧ 1600 - 120 * 4 - 44 * 9 = 724)%Z
  ∧ ¬ spec_invariant 120 1600 (Macros.mk 1600 120 44 180).
Proof.
  split; [vm_compute; reflexivity|]. split; [split; reflexivity|].
  unfold spec_invariant. cbn [Macros.protein Macros.fat Macros.carbs].
  intros (_ & _ & [H|H] & _).
  - discriminate H.
  - vm_compute in H. now apply H.
Qed.

(** C3, amended.  Every record the calculator produces has protein equal to
    the rounded goal weight, which is the goal weight itself when that is a
    whole number; fat equal to the rounded [calories * 0.25 / 9]; carbs
    equal to the rounded [(calories - (goalWeight * 4 + calories * 0.25)) / 4]
    or to zero when that is below zero: the carb calories come from the
    unrounded protein and fat calories, not from the rounded fat grams.
    The carbs are never below zero; they are NaN when the calorie count is
    infinite, and not otherwise unless the rounded quotient is.  All of it
    in double-precision arithmetic. *)
Theorem computeMacros_invariant
    (goalWeight calories : Binary64.number) (m : Binary64.Macros64) :
  Binary64.computeMacros goalWeight calories = Some m →
  let carbGrams :=
    Binary64.div
      (Binary64.sub calories
         (Binary64.add (Binary64.mul goalWeight (Binary64.of_Z 4))
            (Binary64.mul calories (Binary64.decimal 25 100))))
      (Binary64.of_Z 4) in
  Binary64.protein m = Binary64.Math_round goalWeight
  ∧ (∀ z, (Z.abs z < 2 ^ 53)%Z → goalWeight = Binary64.of_Z z →
          Binary64.protein m = goalWeight)
  ∧ Binary64.fat m
    = Binary64.Math_round
        (Binary64.div (Binary64.mul calories (Binary64.decimal 25 100))
           (Binary64.of_Z 9))
  ∧ Binary64.carbs m
    = Binary64.Math_max (Binary64.of_Z 0) (Binary64.Math_round carbGrams)
  ∧ (SFltb (Binary64.Math_round carbGrams) (Binary64.of_Z 0) = true →
     Binary64.carbs m = Binary64.of_Z 0)
  ∧ (SFltb (Binary64.of_Z 0) (Binary64.Math_round carbGrams) = true →
     Binary64.carbs m = Binary64.Math_round carbGrams)
  ∧ SFltb (Binary64.carbs m) (Binary64.of_Z 0) = false
  ∧ (Binary64.carbs m = S754_nan ↔ Binary64.Math_round carbGrams = S754_nan)
  ∧ (Binary64.carbs m ≠ S754_nan →
     SFleb (Binary64.of_Z 0) (Binary64.carbs m) = true)
  ∧ (∀ s, calories = S754_infinity s → Binary64.carbs m = S754_nan).
Proof.
  intros H carbGrams. apply computeMacros64_Some in H as (_ & _ & ->).
  assert (Binary64.decimal 25 100 = Binary64.div (Binary64.of_Z 1) (Binary64.of_Z 4))
    as Hq by (vm_compute; reflexivity).
  subst carbGrams. rewrite Hq.
  cbn [Binary64.protein Binary64.fat Binary64.carbs].
  set (y := Binary64.Math_round
              (Binary64.div
                 (Binary64.sub calories
                    (Binary64.add (Binary64.mul goalWeight (Binary64.of_Z 4))
                       (Binary64.mul calories
                          (Binary64.div (Binary64.of_Z 1) (Binary64.of_Z 4)))))
                 (Binary64.of_Z 4))).
  destruct (Math_max_zero y) as (Hnan & Hlt & Hle & Hneg & Hpos).
  split; [reflexivity|].
  split; [intros z Hz ->; now apply Math_round_of_Z|].
  split; [reflexivity|]. split; [reflexivity|].
  split; [exact Hneg|]. split; [exact Hpos|]. split; [exact Hlt|].
  split; [exact Hnan|].
  split; [intros Hn; apply Hle; intros Hy; apply Hn; now apply Hnan|].
  intros s ->. subst y. apply carbs_of_infinite_calories.
Qed.

Lemma computeMacros_invariant_witness :
  Binary64.protein (Binary64.of_macros (Macros.mk 1600 120 44 180))
  = Binary64.Math_round (Binary64.of_Z 120)
  ∧ SFltb (Binary64.carbs (Binary64.of_macros (Macros.mk 1600 120 44 180)))
      (Binary64.of_Z 0) = false.
Proof.
  pose proof (computeMacros_invariant (Binary64.of_Z 120) (Binary64.of_Z 1600)
                (Binary64.of_macros (Macros.mk 1600 120 44 180))) as H.
  cbv zeta in H.
  destruct H as (H1 & _ & _ & _ & _ & _ & H7 & _); [vm_compute; reflexivity|].
  split; [exact H1|exact H7].
Defined.

(** ** Exercise catalogue *)

(** No key of the tree is the empty string, at any level. *)
Lemma tree_no_empty_category : prop EXERCISE_TREE "" = None.
Proof. reflexivity. Qed.

Lemma tree_no_empty_type (cat : string) :
  prop_opt (prop EXERCISE_TREE cat) "" = None.
Proof.
  unfold EXERCISE_TREE. cbn [prop prop_opt].
  repeat (destruct (String.eqb cat _); [reflexivity|]). reflexivity.
Qed.

Lemma tree_no_empty_group (cat type : string) :
  prop_opt (prop_opt (prop EXERCISE_TREE cat) type) "" = None.
Proof.
  unfold EXERCISE_TREE. cbn [prop prop_opt].
  repeat (destruct (String.eqb cat _);
          [cbn [prop prop_opt];
           repeat (destruct (String.eqb type _); [reflexivity|]); reflexivity|]).
  reflexivity.
Qed.

Lemma truthy_false (s : string) : truthy s = false → s = "".
Proof.
  unfold truthy. intros H. apply negb_false_iff in H. now apply String.eqb_eq.
Qed.

Lemma getTypes_lookup (cat : string) :
  getTypes cat =
    match prop EXERCISE_TREE cat with
    | Some types => Object_keys types
    | None => []
    end.
Proof.
  unfold getTypes. destruct (truthy cat) eqn:E; [reflexivity|].
  apply truthy_false in E as ->. reflexivity.
Qed.

Lemma getGroups_lookup (cat type : string) :
  getGroups cat type =
    match prop_opt (prop EXERCISE_TREE cat) type with
    | Some groups => Object_keys groups
    | None => []
    end.
Proof.
  unfold getGroups.
  destruct (truthy cat) eqn:Ec; [|apply truthy_false in Ec as ->; reflexivity].
  destruct (truthy type) eqn:Et; [reflexivity|].
  apply truthy_false in Et as ->. now rewrite tree_no_empty_type.
Qed.

Lemma getExercises_lookup (cat type group : string) :
  getExercises cat type group =
    match prop_opt (prop_opt (prop EXERCISE_TREE cat) type) group with
    | Some names => names
    | None => []
    end.
Proof.
  unfold getExercises.
  destruct (truthy cat) eqn:Ec; [|apply truthy_false in Ec as ->; reflexivity].
  destruct (truthy type) eqn:Et;
    [|apply truthy_false in Et as ->; now rewrite tree_no_empty_type].
  destruct (truthy group) eqn:Eg; [reflexivity|].
  apply truthy_false in Eg as ->. now rewrite tree_no_empty_group.
Qed.

(** Read through own keys only, the three catalogue look-ups are
    functions on all strings: each gives what the tree holds under the
    keys, in the order the tree lists it, and the empty sequence when a key
    is not in the tree or is the empty string of an unselected control.
    The concrete equations spell the tree out. *)
Theorem catalog_lookups_total :
  (∀ cat,
     getTypes cat = from_option Object_keys [] (prop EXERCISE_TREE cat))
  ∧ (∀ cat type,
       getGroups cat type =
         from_option Object_keys [] (prop_opt (prop EXERCISE_TREE cat) type))
  ∧ (∀ cat type group,
       getExercises cat type group =
         default [] (prop_opt (prop_opt (prop EXERCISE_TREE cat) type) group))
  ∧ (∀ cat type group,
       getTypes "" = []
       ∧ getGroups "" type = [] ∧ getGroups cat "" = []
       ∧ getExercises "" type group = [] ∧ getExercises cat "" group = []
       ∧ getExercises cat type "" = [])
  ∧ (Object_keys EXERCISE_TREE = ["Cardio"; "Strength"]
     ∧ getTypes "Cardio" = ["LISS"; "HIIT"]
     ∧ getTypes "Strength" = ["Pull"; "Push"; "Legs"]
     ∧ getGroups "Cardio" "LISS" = ["-"]
     ∧ getGroups "Cardio" "HIIT" = ["-"]
     ∧ getGroups "Strength" "Pull" = ["Back"; "Bicep"]
     ∧ getGroups "Strength" "Push" = ["Chest"; "Shoulders"; "Triceps"]
     ∧ getGroups "Strength" "Legs" = ["Legs + Glutes + Calves"]
     ∧ getExercises "Cardio" "LISS" "-" = ["Treadmill"; "Stair Master"; "Elliptical"]
     ∧ getExercises "Cardio" "HIIT" "-" = ["Treadmill"; "Stair Master"; "Elliptical"]
     ∧ length (getExercises "Strength" "Pull" "Back") = 4%nat
     ∧ getExercises "Strength" "Pull" "Bicep"
       = ["EZ bar curl"; "Dumbbell hammer curl"; "Cable rope curl"]
     ∧ getTypes "Yoga" = []
     ∧ getGroups "Cardio" "Pull" = []
     ∧ getExercises "Strength" "Pull" "-" = []).
Proof.
  split; [intros cat; rewrite getTypes_lookup; now destruct (prop _ _)|].
  split; [intros cat type; rewrite getGroups_lookup; now destruct (prop_opt _ _)|].
  split; [intros cat type group; rewrite getExercises_lookup;
          now destruct (prop_opt _ _)|].
  split.
  - intros cat type group. rewrite !getGroups_lookup, !getExercises_lookup.
    rewrite tree_no_empty_type, tree_no_empty_group. repeat split; reflexivity.
  - repeat split; reflexivity.
Qed.

(** *** The look-ups as the language reads properties *)

Section PrototypeFacts.

Lemma prop_map_values {A B : Type} (f : A → B) (o : object A) (k : string) :
  prop (map (λ kv, (kv.1, f kv.2)) o) k = f <$> prop o k.
Proof.
  induction o as [|[k' v] o IH]; [reflexivity|].
  cbn [map prop fst snd]. destruct (String.eqb k k'); [reflexivity|exact IH].
Qed.

Lemma Object_keys_map_values {A B : Type} (f : A → B) (o : object A) :
  Object_keys (map (λ kv, (kv.1, f kv.2)) o) = Object_keys o.
Proof.
  unfold Object_keys. rewrite map_map. apply map_ext. now intros [k v].
Qed.

(** A read in the tree: the own key, else the inherited member. *)
Lemma get_tree (cat : string) :
  Prototype.get Prototype.tree cat
  = match prop EXERCISE_TREE cat with
    | Some types => Prototype.types_node types
    | None =>
        if Prototype.inherited cat then Prototype.Builtin cat
        else Prototype.Undefined
    end.
Proof.
  unfold Prototype.get, Prototype.tree.
  rewrite (prop_map_values Prototype.types_node). now destruct (prop EXERCISE_TREE cat).
Qed.

Lemma get_types (types : object (object (list string))) (type : string) :
  Prototype.get (map (λ t, (t.1, Prototype.groups_node t.2)) types) type
  = match prop types type with
    | Some groups => Prototype.groups_node groups
    | None =>
        if Prototype.inherited type then Prototype.Builtin type
        else Prototype.Undefined
    end.
Proof.
  unfold Prototype.get.
  rewrite (prop_map_values Prototype.groups_node). now destruct (prop types type).
Qed.

Lemma get_groups (groups : object (list string)) (group : string) :
  Prototype.get (map (λ g, (g.1, Prototype.Names g.2)) groups) group
  = match prop groups group with
    | Some names => Prototype.Names names
    | None =>
        if Prototype.inherited group then Prototype.Builtin group
        else Prototype.Undefined
    end.
Proof.
  unfold Prototype.get.
  rewrite (prop_map_values Prototype.Names). now destruct (prop groups group).
Qed.

(** C7.  The first look-up is a function on all strings and gives the
    empty sequence for every key the tree does not hold.  The other two do
    what the specification says on every key that is not the name of a
    member of [Object.prototype]: the tree's sequences in insertion order
    for the keys it holds, the empty sequence for the others and for the
    empty string.  On such a name they find the member every object
    inherits: the third look-up on "Cardio", "LISS", "constructor" returns
    the function [Object], not a sequence, where reading own keys only
    gives the empty sequence; and the second on "constructor", "name" is
    decided by a property of that function. *)
Theorem lookups_find_inherited_members :
  (∀ cat, Prototype.getTypes cat = Prototype.Gives (getTypes cat))
  ∧ (∀ cat type,
       Prototype.inherited cat = false →
       Prototype.getGroups cat type = Prototype.Gives (getGroups cat type))
  ∧ (∀ cat type group,
       Prototype.inherited cat = false → Prototype.inherited type = false →
       Prototype.inherited group = false →
       Prototype.getExercises cat type group
       = Prototype.Gives (Prototype.Names (getExercises cat type group)))
  ∧ Prototype.getExercises "Cardio" "LISS" "constructor"
    = Prototype.Gives (Prototype.Builtin "constructor")
  ∧ getExercises "Cardio" "LISS" "constructor" = []
  ∧ Prototype.getGroups "constructor" "name" = Prototype.Of_builtin
  ∧ getGroups "constructor" "name" = []
  ∧ (∀ k, Prototype.inherited k = true ↔ k ∈ Prototype.Object_prototype_names)
  ∧ (∀ k, k ∈ Prototype.Object_prototype_names → prop EXERCISE_TREE k = None).
Proof.
  split.
  { intros cat. unfold Prototype.getTypes. rewrite get_tree, getTypes_lookup.
    destruct (truthy cat) eqn:Ec.
    - destruct (prop EXERCISE_TREE cat) as [types|].
      + unfold Prototype.types_node. cbn [Prototype.Object_keys_of].
        now rewrite (Object_keys_map_values Prototype.groups_node).
      + now destruct (Prototype.inherited cat).
    - apply truthy_false in Ec as ->. reflexivity. }
  split.
  { intros cat type Hc. unfold Prototype.getGroups.
    rewrite get_tree, getGroups_lookup, Hc.
    destruct (truthy cat) eqn:Ec; cbn [andb].
    - destruct (truthy type) eqn:Et.
      + destruct (prop EXERCISE_TREE cat) as [types|];
          cbn [Prototype.get_opt prop_opt]; [|reflexivity].
        unfold Prototype.types_node at 1. cbn [Prototype.get_opt].
        rewrite get_types. destruct (prop types type) as [groups|].
        * unfold Prototype.groups_node. cbn [Prototype.Object_keys_of].
          now rewrite (Object_keys_map_values Prototype.Names).
        * now destruct (Prototype.inherited type).
      + apply truthy_false in Et as ->. now rewrite tree_no_empty_type.
    - apply truthy_false in Ec as ->. reflexivity. }
  split.
  { intros cat type group Hc Ht Hg. unfold Prototype.getExercises.
    rewrite get_tree, getExercises_lookup, Hc.
    destruct (truthy cat) eqn:Ec; cbn [andb];
      [|apply truthy_false in Ec as ->; reflexivity].
    destruct (truthy type) eqn:Et; cbn [andb];
      [|apply truthy_false in Et as ->; now rewrite tree_no_empty_type].
    destruct (truthy group) eqn:Eg;
      [|apply truthy_false in Eg as ->; now rewrite tree_no_empty_group].
    destruct (prop EXERCISE_TREE cat) as [types|];
      cbn [Prototype.get_opt prop_opt]; [|reflexivity].
    unfold Prototype.types_node at 1. cbn [Prototype.get_opt].
    rewrite get_types, Ht.
    destruct (prop types type) as [groups|]; cbn [Prototype.get_opt prop_opt];
      [|reflexivity].
    unfold Prototype.groups_node at 1. cbn [Prototype.get_opt].
    rewrite get_groups, Hg. now destruct (prop groups group). }
  split; [reflexivity|]. split; [reflexivity|].
  split; [reflexivity|]. split; [reflexivity|].
  split.
  { intros k. unfold Prototype.inherited. apply bool_decide_eq_true. }
  intros k Hk. unfold Prototype.Object_prototype_names in Hk.
  repeat (apply elem_of_cons in Hk as [->|Hk]; [reflexivity|]).
  now apply elem_of_nil in Hk.
Qed.

End PrototypeFacts.

(** ** Calories implied by the macros *)

Lemma or0_eq (n : number) : or0 n == n.
Proof.
  unfold or0. destruct (falsy n) eqn:E; [|reflexivity].
  apply falsy_spec in E. now rewrite E.
Qed.

(** C8.  The calories of the macros are [p * 4 + c * 4 + f * 9], the
    products added from left to right, and the delta of a day is the
    entered calories less the calories of its entered macros, empty fields
    counting as zero, all in double-precision arithmetic as the page
    computes it.  The page shows "Perfect match" exactly when the delta is
    zero, and for a finite calorie figure that is exactly when it equals
    the macro calories, whatever double those are; otherwise it shows the
    delta, with a plus sign when it is above zero.  The day list flags the same
    difference, when it is not zero.  So 1364.4 kcal against 100.1 g,
    150.1 g and 40.4 g is no match (the sum of the doubles is one unit in
    the last place below 1364.4), and 1.3 kcal against 0.1 g, 0 g and 0.1 g
    is one. *)
Theorem macroCalories_delta :
  (∀ p c f : Binary64.number,
     Binary64.macroCalories p c f
     = Binary64.add
         (Binary64.add (Binary64.mul p (Binary64.of_Z 4))
            (Binary64.mul c (Binary64.of_Z 4)))
         (Binary64.mul f (Binary64.of_Z 9)))
  ∧ (∀ d,
       Binary64.calDelta d
       = Binary64.sub
           (Binary64.or0 (Binary64.Number (Binary64.Entry.calories d)))
           (Binary64.macroCalories
              (Binary64.or0 (Binary64.Number (Binary64.Entry.protein d)))
              (Binary64.or0 (Binary64.Number (Binary64.Entry.carbs d)))
              (Binary64.or0 (Binary64.Number (Binary64.Entry.fat d)))))
  ∧ (∀ d,
       Binary64.deltaBadge d = Binary64.PerfectMatch ↔
       Binary64.calDelta d = S754_zero false ∨ Binary64.calDelta d = S754_zero true)
  ∧ (∀ d,
       Binary64.finite (Binary64.or0 (Binary64.Number (Binary64.Entry.calories d)))
       = true →
       Binary64.valid (Binary64.macroCal d) = true →
       (Binary64.deltaBadge d = Binary64.PerfectMatch ↔
        SFeqb (Binary64.or0 (Binary64.Number (Binary64.Entry.calories d)))
          (Binary64.macroCal d) = true))
  ∧ (∀ d,
       Binary64.deltaBadge d = Binary64.PerfectMatch
       ∨ ∃ plus, Binary64.deltaBadge d = Binary64.Delta plus (Binary64.calDelta d)
                 ∧ (plus = true ↔
                    SFltb (Binary64.of_Z 0) (Binary64.calDelta d) = true))
  ∧ (∀ d,
       Binary64.mismatch d = Binary64.calDelta d
       ∧ (Binary64.mismatchShown d = None ↔
          Binary64.deltaBadge d = Binary64.PerfectMatch)
       ∧ (Binary64.mismatchShown d = None
          ∨ Binary64.mismatchShown d = Some (Binary64.calDelta d)))
  ∧ Binary64.deltaBadge
      (Binary64.Entry.mk (Binary64.Num (Binary64.decimal 13644 10))
         (Binary64.Num (Binary64.decimal 1001 10))
         (Binary64.Num (Binary64.decimal 1501 10))
         (Binary64.Num (Binary64.decimal 404 10)))
    = Binary64.Delta true (S754_finite false 4503599627370496 (-94))
  ∧ Binary64.deltaBadge
      (Binary64.Entry.mk (Binary64.Num (Binary64.decimal 13 10))
         (Binary64.Num (Binary64.decimal 1 10))
         (Binary64.Num (Binary64.of_Z 0))
         (Binary64.Num (Binary64.decimal 1 10)))
    = Binary64.PerfectMatch
  ∧ Binary64.deltaBadge
      (Binary64.Entry.mk Binary64.Empty Binary64.Empty Binary64.Empty Binary64.Empty)
    = Binary64.PerfectMatch.
Proof.
  assert (Hbadge : ∀ d,
            Binary64.deltaBadge d = Binary64.PerfectMatch ↔
            SFeqb (Binary64.calDelta d) (Binary64.of_Z 0) = true).
  { intros d. unfold Binary64.deltaBadge.
    destruct (SFeqb (Binary64.calDelta d) (Binary64.of_Z 0)); split;
      intros H; (reflexivity || discriminate H). }
  split; [reflexivity|]. split; [reflexivity|].
  split; [intros d; rewrite Hbadge; apply strictly_zero|].
  split.
  { intros d Hx Hy. rewrite Hbadge. unfold Binary64.calDelta.
    now apply sub_zero_iff_equal. }
  split.
  { intros d. unfold Binary64.deltaBadge.
    destruct (SFeqb (Binary64.calDelta d) (Binary64.of_Z 0)); [now left|right].
    eexists. split; [reflexivity|]. tauto. }
  split.
  { intros d. split; [reflexivity|].
    unfold Binary64.mismatchShown. change (Binary64.mismatch d) with (Binary64.calDelta d).
    rewrite Hbadge.
    destruct (SFeqb (Binary64.calDelta d) (Binary64.of_Z 0)); cbn [negb].
    - split; [tauto|now left].
    - split; [split; intros H; discriminate H|now right]. }
  repeat split; vm_compute; reflexivity.
Qed.

(** A day of 2000 kcal with 150 g protein, 200 g carbs and 60 g fat: the
    macros give 1940 kcal, 60 short of what was entered. *)
Example calDelta_example :
  Binary64.deltaBadge
    (Binary64.Entry.mk (Binary64.Num (Binary64.of_Z 2000))
       (Binary64.Num (Binary64.of_Z 150)) (Binary64.Num (Binary64.of_Z 200))
       (Binary64.Num (Binary64.of_Z 60)))
  = Binary64.Delta true (Binary64.of_Z 60)
  ∧ Binary64.deltaBadge
      (Binary64.Entry.mk (Binary64.Num (Binary64.of_Z 1940))
         (Binary64.Num (Binary64.of_Z 150)) (Binary64.Num (Binary64.of_Z 200))
         (Binary64.Num (Binary64.of_Z 60)))
    = Binary64.PerfectMatch.
Proof. split; vm_compute; reflexivity. Qed.

(** ** Array methods *)

Open Scope nat_scope.

Section Arrays.
Context {A : Type}.
Implicit Types (l items : list A) (i j k idx : nat).

Lemma filter_from_past idx l k :
  idx < k → filter_from (λ (_ : A) i, negb (i =? idx)) k l = l.
Proof.
  revert k. induction l as [|x l IH]; intros k Hk; [reflexivity|].
  cbn [filter_from].
  destruct (Nat.eqb_spec k idx) as [->|_]; [lia|]. cbn [negb].
  f_equal. apply IH. lia.
Qed.

Lemma filter_from_delete idx l k :
  k ≤ idx → filter_from (λ (_ : A) i, negb (i =? idx)) k l = delete (idx - k) l.
Proof.
  revert k. induction l as [|x l IH]; intros k Hk; [reflexivity|].
  cbn [filter_from].
  destruct (Nat.eqb_spec k idx) as [->|Hne]; cbn [negb].
  - rewrite Nat.sub_diag. cbn. apply filter_from_past. lia.
  - replace (idx - k) with (S (idx - S k)) by lia. cbn.
    f_equal. apply IH. lia.
Qed.

(** Filtering out one index deletes the element at that index. *)
Lemma Array_filter_delete idx l :
  Array_filter (λ (_ : A) i, negb (i =? idx)) l = delete idx l.
Proof.
  unfold Array_filter. rewrite filter_from_delete by lia. now rewrite Nat.sub_0_r.
Qed.

Lemma Array_splice_length i items l :
  i < length l →
  length (Array_splice i 1 items l) + 1 = length l + length items.
Proof.
  intros Hi. unfold Array_splice.
  rewrite !length_app, length_take_le, length_drop by lia. lia.
Qed.

Lemma Array_splice_before i items l j :
  i < length l → j < i → Array_splice i 1 items l !! j = l !! j.
Proof.
  intros Hi Hj. unfold Array_splice.
  rewrite lookup_app_l by (rewrite length_take_le; lia).
  now apply lookup_take_lt.
Qed.

Lemma Array_splice_items i items l k :
  i < length l → k < length items →
  Array_splice i 1 items l !! (i + k) = items !! k.
Proof.
  intros Hi Hk. unfold Array_splice.
  rewrite lookup_app_r by (rewrite length_take_le; lia).
  rewrite length_take_le by lia.
  rewrite lookup_app_l by lia. f_equal. lia.
Qed.

Lemma Array_splice_after i items l j :
  i < length l → i < j →
  Array_splice i 1 items l !! (j + length items - 1) = l !! j.
Proof.
  intros Hi Hj. unfold Array_splice.
  rewrite lookup_app_r by (rewrite length_take_le; lia).
  rewrite length_take_le by lia.
  rewrite lookup_app_r by lia.
  rewrite lookup_drop. f_equal. lia.
Qed.

End Arrays.

(** ** Frame of the exercise updaters *)

Lemma insert_exercises_frame (a : nat) (s : AppState) (d : Day.t) (exs : list Exercise) :
  days s !! a = Some d →
  only_active_exercises a s
    {| targets := targets s;
       days := <[a := setDayKey d (Exercises exs)]> (days s) |}.
Proof.
  intros Hd. pose proof (lookup_lt_Some _ _ _ Hd) as Hlt.
  unfold only_active_exercises. cbn [targets days].
  split; [reflexivity|]. split; [apply length_insert|].
  split; [intros j Hj; now apply list_lookup_insert_ne|].
  exists d, (setDayKey d (Exercises exs)).
  split; [exact Hd|]. split; [now apply list_lookup_insert_eq|].
  repeat split.
Qed.

Lemma updateExercise_Some (a i : nat) (partial : list ExerciseKey) (s s' : AppState) :
  updateExercise a i partial s = Some s' ↔
  ∃ d ex, days s !! a = Some d ∧ Day.exercises d !! i = Some ex
          ∧ s' = {| targets := targets s;
                    days := <[a := setDayKey d
                                (Exercises (<[i := spreadExercise ex partial]>
                                              (Day.exercises d)))]> (days s) |}.
Proof.
  unfold updateExercise. split.
  - destruct (days s !! a) as [d|]; [|discriminate]. cbn.
    destruct (Day.exercises d !! i) as [ex|] eqn:Hex; [|discriminate]. cbn.
    intros [= <-]. now exists d, ex.
  - intros (d & ex & -> & Hex & ->). cbn. now rewrite Hex.
Qed.

Lemma removeExercise_Some (a i : nat) (s s' : AppState) :
  removeExercise a i s = Some s' ↔
  ∃ d, days s !! a = Some d
       ∧ s' = {| targets := targets s;
                 days := <[a := setDayKey d (Exercises (delete i (Day.exercises d)))]>
                           (days s) |}.
Proof.
  unfold removeExercise. split.
  - destruct (days s !! a) as [d|]; [|discriminate]. cbn.
    intros [= <-]. exists d. now rewrite Array_filter_delete.
  - intros (d & -> & ->). cbn. now rewrite Array_filter_delete.
Qed.

Lemma replaceExerciseWithAll_Some (a i : nat) (cat type group : string)
      (names : list string) (s s' : AppState) :
  replaceExerciseWithAll a i cat type group names s = Some s' ↔
  ∃ d, days s !! a = Some d
       ∧ s' = {| targets := targets s;
                 days :=
                   <[a := setDayKey d
                            (Exercises
                               (Array_splice i 1
                                  (map (λ n, mkExercise cat type group n
                                               Empty Empty Empty Empty) names)
                                  (Day.exercises d)))]> (days s) |}.
Proof.
  unfold replaceExerciseWithAll. split.
  - destruct (days s !! a) as [d|]; [|discriminate]. cbn.
    intros [= <-]. now exists d.
  - intros (d & -> & ->). reflexivity.
Qed.

(** C9.  [updateExercise], [removeExercise] and [replaceExerciseWithAll]
    change nothing but the exercises of the day at the active index: the
    targets, the number of days, every day at another index and the other
    fields of the active day are as before. *)
Theorem exercise_updaters_frame (activeIdx : nat) (s s' : AppState) :
  (∃ exIdx partial, updateExercise activeIdx exIdx partial s = Some s')
  ∨ (∃ exIdx, removeExercise activeIdx exIdx s = Some s')
  ∨ (∃ exIdx cat type group names,
       replaceExerciseWithAll activeIdx exIdx cat type group names s = Some s') →
  only_active_exercises activeIdx s s'.
Proof.
  intros [(i & partial & H)|[(i & H)|(i & cat & type & group & names & H)]].
  - apply updateExercise_Some in H as (d & ex & Hd & _ & ->).
    now apply insert_exercises_frame.
  - apply removeExercise_Some in H as (d & Hd & ->).
    now apply insert_exercises_frame.
  - apply replaceExerciseWithAll_Some in H as (d & Hd & ->).
    now apply insert_exercises_frame.
Qed.

Lemma exercise_updaters_frame_witness :
  only_active_exercises 1 sampleState
    {| targets := defaultTargets;
       days := [emptyDay "2025-03-02" ""; setDayKey sampleDay (Exercises (delete 1 (Day.exercises sampleDay)))] |}.
Proof.
  apply exercise_updaters_frame. right. left. exists 1. reflexivity.
Defined.

(** The updaters answer whenever their indices are within the lists. *)
Lemma exercise_updaters_defined (a i : nat) (s : AppState) (d : Day.t) :
  days s !! a = Some d →
  is_Some (removeExercise a i s)
  ∧ (∀ cat type group names,
       is_Some (replaceExerciseWithAll a i cat type group names s))
  ∧ (i < length (Day.exercises d) → ∀ partial, is_Some (updateExercise a i partial s)).
Proof.
  intros Hd. unfold removeExercise, replaceExerciseWithAll, updateExercise.
  rewrite Hd. cbn. repeat split; eauto.
  intros Hi partial. apply lookup_lt_is_Some_2 in Hi as [ex ->]. cbn. eauto.
Qed.

(** ** Expanding a row to all the exercises of its group *)

(** In Cardio the only group with names is the one the handler passes. *)
Lemma cardio_names_group (ex : Exercise) :
  isCardio ex = true →
  getExercises (category ex) (type ex) (group ex) ≠ [] →
  group ex = "-".
Proof.
  unfold isCardio. intros Hc. apply String.eqb_eq in Hc. rewrite Hc.
  rewrite getExercises_lookup. unfold EXERCISE_TREE. cbn [prop prop_opt].
  change (String.eqb "Cardio" "Cardio") with true. cbn [prop prop_opt].
  repeat (destruct (String.eqb (type ex) _);
          [cbn [prop prop_opt];
           destruct (String.eqb (group ex) "-") eqn:Eg;
           [intros _; now apply String.eqb_eq in Eg | intros H; now contradict H]|]).
  intros H. now contradict H.
Qed.

Lemma expanded_rows_group (ex : Exercise) :
  map (λ n, mkExercise (category ex) (type ex)
              (if isCardio ex then "-" else group ex) n Empty Empty Empty Empty)
      (getExercises (category ex) (type ex) (group ex))
  = map (λ n, mkExercise (category ex) (type ex) (group ex) n Empty Empty Empty Empty)
        (getExercises (category ex) (type ex) (group ex)).
Proof.
  destruct (isCardio ex) eqn:Hc; [|reflexivity].
  destruct (getExercises (category ex) (type ex) (group ex)) as [|n names] eqn:En;
    [reflexivity|].
  rewrite <- (cardio_names_group ex Hc); [reflexivity|]. now rewrite En.
Qed.

Lemma activeDay_lookup (today : string) (ui : UI) (d : Day.t) :
  days (state ui) !! activeIdx ui = Some d → activeDay today ui = d.
Proof. unfold activeDay. now intros ->. Qed.

(** C4.  When the exercise-name select of row [i] of the active day gets
    the value "__ALL__" and the group of that row has N names, the handler
    answers with the active day's exercise list in which row [i] is
    replaced, in place, by N rows, one per name in order, each with the
    row's category, type and group and with weight, sets, reps and duration
    empty; the rows before [i] keep their places and the rows after it are
    shifted by N - 1. *)
Theorem select_all_expands_in_place
    (today : string) (ui : UI) (i : nat) (d : Day.t) (ex : Exercise) :
  days (state ui) !! activeIdx ui = Some d →
  Day.exercises d !! i = Some ex →
  ∃ ui' d',
    step today ui (ChangeName i "__ALL__") = Some ui'
    ∧ activeIdx ui' = activeIdx ui
    ∧ days (state ui') !! activeIdx ui = Some d'
    ∧ expanded_at i ex (Day.exercises d) (Day.exercises d').
Proof.
  intros Hd Hex.
  pose proof (lookup_lt_Some _ _ _ Hd) as Ha.
  pose proof (lookup_lt_Some _ _ _ Hex) as Hi.
  set (names := getExercises (category ex) (type ex) (group ex)).
  set (rows := map (λ n, mkExercise (category ex) (type ex) (group ex) n
                           Empty Empty Empty Empty) names).
  exists (setState ui
            {| targets := targets (state ui);
               days := <[activeIdx ui :=
                          setDayKey d (Exercises (Array_splice i 1 rows (Day.exercises d)))]>
                         (days (state ui)) |}),
         (setDayKey d (Exercises (Array_splice i 1 rows (Day.exercises d)))).
  split.
  { unfold step. cbv zeta. rewrite (activeDay_lookup today ui d Hd), Hex.
    cbn [mbind option_bind].
    unfold onNameChange. change (String.eqb "__ALL__" "__ALL__") with true. cbv iota zeta.
    unfold replaceExerciseWithAll. rewrite Hd.
    cbn [mbind option_bind fmap option_fmap option_map].
    now rewrite expanded_rows_group. }
  split; [reflexivity|].
  split; [cbn [state setState days]; now apply list_lookup_insert_eq|].
  cbn [setDayKey Day.exercises]. unfold expanded_at. fold names. fold rows.
  split; [unfold Array_splice; now rewrite Nat.add_1_r|].
  split; [replace (length names) with (length rows)
            by (subst rows; apply length_map);
          now apply Array_splice_length|].
  split; [intros j Hj; now apply Array_splice_before|].
  split.
  - intros k n Hk. rewrite Array_splice_items.
    + subst rows. now rewrite list_lookup_fmap, Hk.
    + exact Hi.
    + subst rows. rewrite length_map. now apply lookup_lt_Some in Hk.
  - intros j Hj. replace (length names) with (length rows)
      by (subst rows; apply length_map).
    now apply Array_splice_after.
Qed.

Lemma select_all_expands_in_place_witness :
  ∃ ui' d',
    step "2025-03-02" sampleUI (ChangeName 1 "__ALL__") = Some ui'
    ∧ activeIdx ui' = activeIdx sampleUI
    ∧ days (state ui') !! activeIdx sampleUI = Some d'
    ∧ expanded_at 1 (mkExercise "Cardio" "LISS" "-" "" Empty Empty Empty (Num 30%Q))
        (Day.exercises sampleDay) (Day.exercises d').
Proof.
  apply (select_all_expands_in_place "2025-03-02" sampleUI 1 sampleDay); reflexivity.
Defined.

(** The Cardio row of the sample day becomes three rows, between the two
    rows that were around it. *)
Example select_all_example :
  Day.exercises <$>
    (step "2025-03-02" sampleUI (ChangeName 1 "__ALL__")
       ≫= λ ui', days (state ui') !! 1)
  = Some
      [ mkExercise "Strength" "Push" "Chest" "Flat bench press"
          (Num 135%Q) (Num 3%Q) (Num 8%Q) Empty;
        mkExercise "Cardio" "LISS" "-" "Treadmill" Empty Empty Empty Empty;
        mkExercise "Cardio" "LISS" "-" "Stair Master" Empty Empty Empty Empty;
        mkExercise "Cardio" "LISS" "-" "Elliptical" Empty Empty Empty Empty;
        mkExercise "Strength" "Pull" "Bicep" "EZ bar curl"
          (Num 50%Q) (Num 3%Q) (Num 12%Q) Empty ].
Proof. reflexivity. Qed.

(** ** The day list is never empty *)

Lemma deleteDay_days (today : string) (idx : nat) (s : AppState) :
  days (deleteDay today idx s) =
    if 0 <? length (delete idx (days s)) then delete idx (days s)
    else [emptyDay today today].
Proof. unfold deleteDay. cbn [days]. now rewrite Array_filter_delete. Qed.

Lemma deleteDay_length (today : string) (idx : nat) (s : AppState) :
  idx < length (days s) →
  length (days (deleteDay today idx s)) = Nat.max 1 (length (days s) - 1).
Proof.
  intros Hi. rewrite deleteDay_days.
  pose proof (length_delete (days s) idx (lookup_lt_is_Some_2 _ _ Hi)) as Hlen.
  destruct (Nat.ltb_spec 0 (length (delete idx (days s)))); cbn [length]; lia.
Qed.

Lemma deleteDay_nonempty (today : string) (idx : nat) (s : AppState) :
  days (deleteDay today idx s) ≠ [].
Proof.
  rewrite deleteDay_days.
  destruct (Nat.ltb_spec 0 (length (delete idx (days s)))) as [H|H]; [|discriminate].
  intros E. rewrite E in H. cbn in H. lia.
Qed.

Lemma setActiveDay_Some (a : nat) (partial : list DayKey) (s s' : AppState) :
  setActiveDay a partial s = Some s' ↔
  ∃ d, days s !! a = Some d
       ∧ s' = {| targets := targets s;
                 days := <[a := spreadDay d partial]> (days s) |}.
Proof.
  unfold setActiveDay. split.
  - destruct (days s !! a) as [d|]; [|discriminate]. cbn.
    intros [= <-]. now exists d.
  - intros (d & -> & ->). reflexivity.
Qed.

Lemma setActiveDay_length (a : nat) (partial : list DayKey) (s s' : AppState) :
  setActiveDay a partial s = Some s' → length (days s') = length (days s).
Proof.
  intros H. apply setActiveDay_Some in H as (d & _ & ->). apply length_insert.
Qed.

Lemma updateExercise_length (a i : nat) (partial : list ExerciseKey) (s s' : AppState) :
  updateExercise a i partial s = Some s' → length (days s') = length (days s).
Proof.
  intros H. apply updateExercise_Some in H as (d & ex & _ & _ & ->).
  apply length_insert.
Qed.

Lemma removeExercise_length (a i : nat) (s s' : AppState) :
  removeExercise a i s = Some s' → length (days s') = length (days s).
Proof.
  intros H. apply removeExercise_Some in H as (d & _ & ->). apply length_insert.
Qed.

Lemma replaceExerciseWithAll_length (a i : nat) (cat type group : string)
      (names : list string) (s s' : AppState) :
  replaceExerciseWithAll a i cat type group names s = Some s' →
  length (days s') = length (days s).
Proof.
  intros H. apply replaceExerciseWithAll_Some in H as (d & _ & ->).
  apply length_insert.
Qed.

Lemma recalcMacros_days (goalWeight calories : number) (s : AppState) :
  days (recalcMacros goalWeight calories s) = days s.
Proof. unfold recalcMacros. now destruct (computeMacros _ _). Qed.

Create HintDb updaters.
#[local] Hint Resolve setActiveDay_length updateExercise_length removeExercise_length
  replaceExerciseWithAll_length : updaters.

(** Case analysis on the binds, maps and tests a handler is made of. *)
Ltac split_handler :=
  repeat match goal with
    | H : None = Some _ |- _ => discriminate H
    | H : (?o ≫= _) = Some _ |- _ =>
        destruct o eqn:?; cbn [mbind option_bind] in H
    | H : (_ <$> ?o) = Some _ |- _ =>
        destruct o eqn:?; cbn [fmap option_fmap option_map] in H
    | H : (if ?b then _ else _) = Some _ |- _ => destruct b eqn:?
    end.

(** What an event does to the number of days and to the active index. *)
Lemma step_shape (today : string) (ui ui' : UI) (ev : event) :
  step today ui ev = Some ui' →
  (length (days (state ui')) = length (days (state ui))
   ∧ (activeIdx ui' = activeIdx ui
      ∨ activeIdx ui' < length (days (state ui))))
  ∨ (ev = ClickNewDay
     ∧ length (days (state ui')) = S (length (days (state ui)))
     ∧ activeIdx ui' = 0)
  ∨ (∃ i, ev = ClickConfirm i
          ∧ length (days (state ui')) = Nat.max 1 (length (days (state ui)) - 1)
          ∧ activeIdx ui' = activeIdx ui - 1).
Proof.
  intros H. destruct ev; unfold step in H; cbv zeta in H;
    unfold onCategoryChange, onTypeChange, onGroupChange, onNameChange in H;
    split_handler; injection H as <-; cbn [state activeIdx setState].
  all: try (left; split; [solve [eauto with updaters] | now left]).
  - right. left. now cbn.
  - left. split; [reflexivity|right]. eauto using lookup_lt_Some.
  - right. right. exists i. split; [reflexivity|]. split; [|lia].
    apply deleteDay_length. eauto using lookup_lt_Some.
  - left. split; [now rewrite recalcMacros_days|now left].
  - left. split; [now rewrite recalcMacros_days|now left].
Qed.

(** With the active index inside the day list, an event has a handler
    exactly when its control is on the page: no handler ever leaves the
    data model. *)
Lemma step_handles_rendered (today : string) (ui : UI) (ev : event) :
  well_indexed ui →
  is_Some (step today ui ev) ↔ rendered today ui ev = true.
Proof.
  intros Hinv. destruct (lookup_lt_is_Some_2 _ _ Hinv) as [d Hd].
  pose proof (activeDay_lookup today ui d Hd) as Had.
  destruct ev; unfold step, rendered; cbv zeta; rewrite ?Had;
    unfold onCategoryChange, onTypeChange, onGroupChange, onNameChange,
      setActiveDay, updateExercise, removeExercise, replaceExerciseWithAll;
    rewrite ?Hd; cbn [mbind option_bind fmap option_fmap option_map].
  (* the controls that are always there *)
  all: try (split; [reflexivity || eauto | eauto]; fail).
  (* the controls of an exercise row *)
  all: try (destruct (Day.exercises d !! i) as [ex|] eqn:Hex;
            cbn [mbind option_bind fmap option_fmap option_map from_option];
            repeat match goal with
              | |- context [if ?b then _ else _] => destruct b eqn:?
              end;
            cbn [mbind option_bind fmap option_fmap option_map from_option negb];
            rewrite ?Hex; cbn [mbind option_bind fmap option_fmap option_map];
            rewrite ?bool_decide_eq_true;
            (split; [intros Hs | intros Hr];
             first [ solve [eauto] | congruence | now destruct Hs
                   | now destruct Hr | discriminate ]); fail).
  (* the controls of a row of the day list *)
  all: destruct (days (state ui) !! i) as [di|] eqn:Ei; cbn [mbind option_bind];
    [apply lookup_lt_Some in Ei | apply lookup_ge_None in Ei];
    repeat case_bool_decide; cbn [andb negb];
    (split; [intros [? ?]; first [discriminate | reflexivity | lia]
            | intros ?; first [discriminate | solve [eauto] | exfalso; lia]]).
Qed.

(** An event keeps the active index inside the day list. *)
Lemma step_well_indexed (today : string) (ui ui' : UI) (ev : event) :
  well_indexed ui → step today ui ev = Some ui' → well_indexed ui'.
Proof.
  unfold well_indexed. intros Hinv H.
  apply step_shape in H as [[Hlen [Ha|Ha]]|[(_ & Hlen & Ha)|(i & _ & Hlen & Ha)]];
    lia.
Qed.

Lemma step_nonempty (today : string) (ui ui' : UI) (ev : event) :
  days (state ui) ≠ [] → step today ui ev = Some ui' → days (state ui') ≠ [].
Proof.
  intros Hne H.
  assert (0 < length (days (state ui))) as Hpos
    by (destruct (days (state ui)); [congruence|cbn; lia]).
  assert (0 < length (days (state ui'))) as Hpos';
    [|intros E; rewrite E in Hpos'; cbn in Hpos'; lia].
  apply step_shape in H as [[Hlen _]|[(_ & Hlen & _)|(i & _ & Hlen & _)]]; lia.
Qed.

Lemma run_well_indexed (today : string) (evs : list event) (ui ui' : UI) :
  well_indexed ui → run today ui evs = Some ui' → well_indexed ui'.
Proof.
  revert ui. induction evs as [|ev evs IH]; intros ui Hinv H; cbn [run] in H.
  - now injection H as <-.
  - destruct (step today ui ev) as [ui1|] eqn:E; [|discriminate H].
    cbn [mbind option_bind] in H. eauto using step_well_indexed.
Qed.

Lemma well_indexed_nonempty (ui : UI) : well_indexed ui → days (state ui) ≠ [].
Proof.
  unfold well_indexed. intros H E. rewrite E in H. cbn in H. lia.
Qed.

(** C5.  The day list is never empty.  Every event of the page (a new day,
    a confirmed delete, an edit of a field of the active day, an edit of
    its exercises, a recomputation of the targets) leaves a list that was
    not empty not empty, so no run of the page from its initial state ever
    reaches an empty list; [deleteDay] never answers with an empty list;
    and deleting the only day there is gives the list of exactly one fresh
    day, dated today, with every field empty and no exercise. *)
Theorem days_never_empty :
  (∀ today ui ev ui',
     days (state ui) ≠ [] → step today ui ev = Some ui' → days (state ui') ≠ [])
  ∧ (∀ today evs ui',
       run today (initialUI today) evs = Some ui' → days (state ui') ≠ [])
  ∧ (∀ today idx s, days (deleteDay today idx s) ≠ [])
  ∧ (∀ today t d,
       deleteDay today 0 {| targets := t; days := [d] |}
       = {| targets := t; days := [emptyDay today today] |}
       ∧ emptyDay today today = Day.mk today Empty Empty Empty Empty []).
Proof.
  split; [intros today ui ev ui'; apply step_nonempty|].
  split.
  { intros today evs ui' H. apply well_indexed_nonempty.
    apply (run_well_indexed today evs (initialUI today)); [|exact H].
    unfold well_indexed. cbn. lia. }
  split; [exact deleteDay_nonempty|].
  intros today t d. split; [reflexivity|].
  unfold emptyDay. now destruct (truthy today).
Qed.

Lemma days_never_empty_witness :
  step "2025-03-02"
    {| state := defaultState "2025-03-01"; activeIdx := 0; deleteConfirmIdx := Some 0 |}
    (ClickConfirm 0)
  = Some {| state := {| targets := defaultTargets;
                        days := [emptyDay "2025-03-02" "2025-03-02"] |};
            activeIdx := 0; deleteConfirmIdx := None |}
  ∧ days {| targets := defaultTargets;
            days := [emptyDay "2025-03-02" "2025-03-02"] |} ≠ [].
Proof.
  split; [reflexivity|].
  apply (proj1 days_never_empty "2025-03-02"
           {| state := defaultState "2025-03-01"; activeIdx := 0;
              deleteConfirmIdx := Some 0 |}
           (ClickConfirm 0)
           {| state := {| targets := defaultTargets;
                          days := [emptyDay "2025-03-02" "2025-03-02"] |};
              activeIdx := 0; deleteConfirmIdx := None |});
    [discriminate | reflexivity].
Defined.

(** ** CSV export *)

Lemma or_empty_id (s : string) : or_empty s = s.
Proof.
  unfold or_empty. destruct (truthy s) eqn:E; [reflexivity|].
  now apply truthy_false in E.
Qed.



Section CSVFacts.

Variable String_number : number → string.

(** Two facts about the conversion of the language: zero prints as the
    digit 0, and no number prints as the empty string. *)
Hypothesis String_zero : String_number 0%Q = "0".
Hypothesis String_nonempty : ∀ n, String_number n ≠ "".


(** The packed exercise read as the source's template literal. *)
Lemma packExercise_template (e : Exercise) :
  packExercise String_number e
  = (or_empty (category e) ++ "/" ++ or_empty (type e) ++ "/"
     ++ or_empty (group e) ++ "/" ++ or_empty (name e) ++ "/"
     ++ String_number (field_or0 (weight e)) ++ "/"
     ++ String_number (field_or0 (sets e)) ++ "/"
     ++ String_number (field_or0 (reps e)) ++ "/"
     ++ String_number (field_or0 (duration e)))%string.
Proof. reflexivity. Qed.

(** The source's CSV quoting: a cell is its text between quotes. *)
Lemma csvRow_cells (d : Day.t) :
  csvRow String_number d
  = String.concat "," (map csvCell (rowValues String_number d)).
Proof. reflexivity. Qed.



End CSVFacts.


(** The file for the state the application starts in, and the row of the
    sample day. *)
Example exportCSV_default :
  exportCSV decimalString (defaultState "2025-03-02")
  = String.concat newline
      [ "date,calories,protein,carbs,fat,exercises(c/t/g/name/wt/sets/reps/dur)";
        String.concat "," (map csvCell ["2025-03-02"; "0"; "0"; "0"; "0"; ""]) ].
Proof. reflexivity. Qed.

Example csvRow_sample :
  rowValues decimalString sampleDay
  = [ "2025-03-01"; "2000"; "150"; "0"; "60";
      "Strength/Push/Chest/Flat bench press/135/3/8/0 | Cardio/LISS/-//0/0/0/30 | Strength/Pull/Bicep/EZ bar curl/50/3/12/0" ].
Proof. reflexivity. Qed.

(** ** JSON import *)

Section ImportFacts.
Import JsonImport.

Lemma prop_assign (o : object json) (k k' : string) (v : json) :
  prop (assign o k v) k' = if String.eqb k' k then Some v else prop o k'.
Proof.
  induction o as [|[k0 v0] o IH]; cbn [assign prop].
  - reflexivity.
  - destruct (String.eqb_spec k k0) as [->|Hk]; cbn [prop].
    + now destruct (String.eqb k' k0).
    + destruct (String.eqb_spec k' k0) as [->|Hk'].
      * destruct (String.eqb_spec k0 k); [congruence|reflexivity].
      * exact IH.
Qed.

(** A spread reads, under each key, the last value the spread object has
    for it, and the base's value where it has none. *)
Lemma prop_spread (base : object json) (over : list (string * json)) (k : string) :
  prop (spread base over) k
  = match prop (reverse over) k with
    | Some v => Some v
    | None => prop base k
    end.
Proof.
  induction over as [|[k0 v0] over IH] using rev_ind; [reflexivity|].
  unfold spread in *. rewrite fold_left_app. cbn [fold_left fst snd].
  rewrite prop_assign, reverse_app. cbn [reverse rev_append app prop].
  destruct (String.eqb k k0); [reflexivity|exact IH].
Qed.

(** C6, as the specification states it, fails: a file that holds the
    object with no member at all parses, has no [days], and the handler
    keeps the state but shows no alert. *)
Lemma import_without_days_is_silent :
  member (Some (JObject [])) "days" = None
  ∧ state_after (importJSON (Some (Some (JObject [])))
                   {| targets := defaultTargets; days := JArray [JNull] |} 3)
    = {| targets := defaultTargets; days := JArray [JNull] |}
  ∧ alerts (importJSON (Some (Some (JObject [])))
              {| targets := defaultTargets; days := JArray [JNull] |} 3)
    = [].
Proof. repeat split. Qed.

(** C6, amended.  A file whose content parses to an object whose [days]
    is a non-empty array replaces the whole state: the targets are the
    parsed targets' members over the hard-coded defaults, key by key, the
    days are the parsed array as it is, the first day becomes the active
    one, and nothing is shown.  A file whose content fails to parse leaves
    the state as it was and shows the alert "Invalid JSON file".  A file
    whose content parses but has no [days] with a truthy [length] leaves
    the state as it was and shows nothing: that is every content that is
    not an object, and every object whose [days] is absent, null, a
    boolean, a number, the empty string, the empty array or an object
    without a truthy [length] of its own; so does the absence of a file. *)
Theorem import_outcomes (prev : state) (activeIdx : nat) :
  (∀ members d ds,
     prop members "days" = Some (JArray (d :: ds)) →
     importJSON (Some (Some (JObject members))) prev activeIdx
     = {| state_after :=
            {| targets := spread defaultTargets (parsed_targets (JObject members));
               days := JArray (d :: ds) |};
          activeIdx_after := 0;
          alerts := [] |}
     ∧ ∀ k, prop (spread defaultTargets (parsed_targets (JObject members))) k
            = match prop (reverse (parsed_targets (JObject members))) k with
              | Some v => Some v
              | None => prop defaultTargets k
              end)
  ∧ importJSON (Some None) prev activeIdx
    = {| state_after := prev; activeIdx_after := activeIdx;
         alerts := ["Invalid JSON file"] |}
  ∧ (∀ p,
       truthy_value (length_of (member (Some p) "days")) = false →
       importJSON (Some (Some p)) prev activeIdx
       = {| state_after := prev; activeIdx_after := activeIdx; alerts := [] |})
  ∧ (∀ p,
       truthy_value (length_of (member (Some p) "days")) = false ↔
       (∀ members, p ≠ JObject members)
       ∨ ∃ members,
           p = JObject members
           ∧ (prop members "days" = None
              ∨ prop members "days" = Some JNull
              ∨ (∃ b, prop members "days" = Some (JBool b))
              ∨ (∃ n, prop members "days" = Some (JNumber n))
              ∨ prop members "days" = Some (JString "")
              ∨ prop members "days" = Some (JArray [])
              ∨ ∃ o, prop members "days" = Some (JObject o)
                     ∧ truthy_value (prop o "length") = false))
  ∧ importJSON None prev activeIdx
    = {| state_after := prev; activeIdx_after := activeIdx; alerts := [] |}.
Proof.
  split.
  { intros members d ds Hdays. split; [|intros k; apply prop_spread].
    cbn [importJSON onload member]. rewrite Hdays. reflexivity. }
  split; [reflexivity|]. split; [|split; [|reflexivity]].
  - intros p H. cbn [importJSON]. unfold onload.
    destruct (member (Some p) "days") as [parsed_days|]; [|reflexivity].
    now rewrite H.
  - intros p. split.
    + destruct p as [|b|n|t|items|members];
        try (intros _; left; intros members; discriminate).
      cbn [member]. intros H. right. exists members. split; [reflexivity|].
      destruct (prop members "days") as [[|b|n|t|items|o]|]; cbn in H; eauto 8.
      * destruct t; [eauto 8|discriminate H].
      * destruct items; [eauto 8|discriminate H].
      * do 6 right. eauto.
    + intros [H|(members & -> & H)].
      * destruct p as [|b|n|t|items|members]; try reflexivity.
        now destruct (H members).
      * cbn [member].
        destruct H as [-> | [-> | [[b ->] | [[n ->] | [-> | [-> | (o & -> & H)]]]]]];
          try reflexivity. exact H.
Qed.

Lemma import_outcomes_witness :
  importJSON
    (Some (Some (JObject
       [ ("targets", JObject [("calories", JNumber 2200%Q)]);
         ("days", JArray [JObject [("date", JString "2025-03-01")]]) ])))
    {| targets := defaultTargets; days := JArray [JNull] |} 3
  = {| state_after :=
         {| targets :=
              [ ("calories", JNumber 2200%Q); ("protein", JNumber 130%Q);
                ("carbs", JNumber 160%Q); ("fat", JNumber 60%Q);
                ("goalWeight", JNumber 150%Q) ];
            days := JArray [JObject [("date", JString "2025-03-01")]] |};
       activeIdx_after := 0;
       alerts := [] |}.
Proof.
  apply (proj1 (import_outcomes
                  {| targets := defaultTargets; days := JArray [JNull] |} 3)
           [ ("targets", JObject [("calories", JNumber 2200%Q)]);
             ("days", JArray [JObject [("date", JString "2025-03-01")]]) ]
           (JObject [("date", JString "2025-03-01")]) []).
  reflexivity.
Defined.

(** The guard of the handler reads a [length]: a [days] that is a
    non-empty string passes it, and the state then holds that string where
    the data model has a sequence of days. *)
Example import_string_days :
  state_after (importJSON (Some (Some (JObject [("days", JString "abc")])))
                 {| targets := defaultTargets; days := JArray [JNull] |} 3)
  = {| targets := defaultTargets; days := JString "abc" |}.
Proof. reflexivity. Qed.

End ImportFacts.

(* ================================================================== *)
(** * Part III: further properties of the code                         *)
(* ================================================================== *)

(** ** Numeric inputs *)

Section Inputs.
Local Open Scope Q_scope.

Lemma clamp_spec (n lo hi : number) :
  lo <= hi →
  lo <= clamp n lo hi ∧ clamp n lo hi <= hi
  ∧ (lo <= n → n <= hi → clamp n lo hi == n)
  ∧ (n <= lo → clamp n lo hi == lo)
  ∧ (hi <= n → clamp n lo hi == hi).
Proof.
  intros Hlh. unfold clamp.
  pose proof (Q.min_spec hi n) as Hmin.
  pose proof (Q.max_spec lo (Qmin hi n)) as Hmax.
  generalize dependent (Qmax lo (Qmin hi n)). intros M.
  generalize dependent (Qmin hi n). intros m Hmin Hmax.
  destruct Hmin as [[H1 E1]|[H1 E1]]; destruct Hmax as [[H2 E2]|[H2 E2]];
    repeat split; intros; lra.
Qed.

(** What a numeric input of the page stores is a number between 0 and the
    maximum of the field: the typed number when it is in that range, 0 for
    an empty input or a negative number, the maximum for a larger one. *)
Theorem entered_within_range (v : field) (max : number) :
  0 <= max →
  ∃ n, entered v max = Num n
       ∧ 0 <= n ∧ n <= max
       ∧ (0 <= Number v → Number v <= max → n == Number v)
       ∧ (Number v <= 0 → n == 0)
       ∧ (max <= Number v → n == max).
Proof.
  intros Hmax. exists (clamp (or0 (Number v)) 0 max). split; [reflexivity|].
  destruct (clamp_spec (or0 (Number v)) 0 max Hmax) as (H1 & H2 & H3 & H4 & H5).
  pose proof (or0_eq (Number v)) as E.
  repeat split; try assumption.
  - intros Ha Hb. rewrite H3; [exact E | now rewrite E | now rewrite E].
  - intros Ha. apply H4. now rewrite E.
  - intros Ha. apply H5. now rewrite E.
Qed.

Lemma entered_within_range_witness :
  ∃ n, entered (Num 250000) 100000 = Num n
       ∧ 0 <= n ∧ n <= 100000
       ∧ (0 <= Number (Num 250000) → Number (Num 250000) <= 100000 →
          n == Number (Num 250000))
       ∧ (Number (Num 250000) <= 0 → n == 0)
       ∧ (100000 <= Number (Num 250000) → n == 100000).
Proof. apply (entered_within_range (Num 250000) 100000). discriminate. Defined.

End Inputs.

(** ** The day list *)

Lemma list_delete_ge {A : Type} (l : list A) (i : nat) :
  length l ≤ i → delete i l = l.
Proof.
  intros H. rewrite delete_take_drop, take_ge, drop_ge by lia. apply app_nil_r.
Qed.

(** Deleting a day removes exactly the day at the index: the days before
    it keep their places, the days after it move up by one, the targets
    stay; an index past the end of a list that has days removes nothing;
    and the last day is replaced by an empty one. *)
Theorem deleteDay_removes_one (today : string) (idx : nat) (s : AppState) :
  targets (deleteDay today idx s) = targets s
  ∧ (days s ≠ [] → length (days s) ≤ idx → days (deleteDay today idx s) = days s)
  ∧ (idx < length (days s) → 2 ≤ length (days s) →
     days (deleteDay today idx s) = delete idx (days s)
     ∧ length (days (deleteDay today idx s)) + 1 = length (days s)
     ∧ (∀ j, j < idx → days (deleteDay today idx s) !! j = days s !! j)
     ∧ (∀ j, idx ≤ j → days (deleteDay today idx s) !! j = days s !! S j))
  ∧ (length (days s) ≤ 1 → idx = 0 →
     days (deleteDay today idx s) = [emptyDay today today]).
Proof.
  split; [reflexivity|]. rewrite deleteDay_days. split; [|split].
  - intros Hne Hidx. rewrite list_delete_ge by exact Hidx.
    destruct (days s); [congruence|reflexivity].
  - intros Hidx Hlen.
    pose proof (length_delete (days s) idx (lookup_lt_is_Some_2 _ _ Hidx)) as Hd.
    destruct (Nat.ltb_spec 0 (length (delete idx (days s)))) as [_|H]; [|lia].
    split; [reflexivity|]. split; [lia|]. split.
    + intros j Hj. now apply list_lookup_delete_lt.
    + intros j Hj. now apply list_lookup_delete_ge.
  - intros Hlen ->. destruct (days s) as [|d [|d' l]]; cbn in *; [reflexivity..|lia].
Qed.

Lemma deleteDay_removes_one_witness :
  days (deleteDay "2025-03-03" 0 sampleState) = delete 0 (days sampleState)
  ∧ length (days (deleteDay "2025-03-03" 0 sampleState)) + 1 = length (days sampleState)
  ∧ (∀ j, j < 0 → days (deleteDay "2025-03-03" 0 sampleState) !! j = days sampleState !! j)
  ∧ (∀ j, 0 ≤ j →
       days (deleteDay "2025-03-03" 0 sampleState) !! j = days sampleState !! S j).
Proof.
  apply (proj1 (proj2 (proj2 (deleteDay_removes_one "2025-03-03" 0 sampleState))));
    cbn; lia.
Defined.

(** A new day is put in front of the list and becomes the active day, an
    empty day dated today; every other day moves down by one, and the
    targets and the row armed for deletion stay as they are. *)
Theorem new_day_is_first_and_active (today : string) (ui : UI) :
  ∃ ui', step today ui ClickNewDay = Some ui'
         ∧ activeIdx ui' = 0
         ∧ activeDay today ui' = emptyDay today today
         ∧ length (days (state ui')) = S (length (days (state ui)))
         ∧ (∀ j, days (state ui') !! S j = days (state ui) !! j)
         ∧ targets (state ui') = targets (state ui)
         ∧ deleteConfirmIdx ui' = deleteConfirmIdx ui.
Proof. eexists. split; [reflexivity|]. repeat split. Qed.

Lemma step_ClickTrash (today : string) (ui : UI) (i : nat) :
  i < length (days (state ui)) → deleteConfirmIdx ui ≠ Some i →
  step today ui (ClickTrash i)
  = Some {| state := state ui; activeIdx := activeIdx ui;
            deleteConfirmIdx := Some i |}.
Proof.
  intros Hi Harm. destruct (lookup_lt_is_Some_2 _ _ Hi) as [d Hd].
  unfold step. cbv zeta. rewrite Hd. cbn [mbind option_bind].
  now rewrite bool_decide_eq_false_2.
Qed.

Lemma step_ClickConfirm (today : string) (ui : UI) (i : nat) :
  i < length (days (state ui)) → deleteConfirmIdx ui = Some i →
  step today ui (ClickConfirm i)
  = Some {| state := deleteDay today i (state ui);
            activeIdx := Nat.max 0 (activeIdx ui - 1);
            deleteConfirmIdx := None |}.
Proof.
  intros Hi Harm. destruct (lookup_lt_is_Some_2 _ _ Hi) as [d Hd].
  unfold step. cbv zeta. rewrite Hd. cbn [mbind option_bind].
  now rewrite bool_decide_eq_true_2.
Qed.

(** The row armed for deletion is remembered by its index, not by its day:
    after a first click on the delete button of row [i], a new day moves
    every day down by one, and the confirm button then shown on row [i]
    deletes the day that took that place (the day that was before the armed
    one, or the new day when [i] is 0); the day that was armed stays in the
    list, now at index [i]. *)
Theorem armed_index_follows_the_row (today : string) (ui : UI) (i : nat) :
  i < length (days (state ui)) →
  deleteConfirmIdx ui ≠ Some i →
  ∃ ui', run today ui [ClickTrash i; ClickNewDay; ClickConfirm i] = Some ui'
         ∧ days (state ui') = delete i (emptyDay today today :: days (state ui))
         ∧ days (state ui') !! i = days (state ui) !! i
         ∧ length (days (state ui')) = length (days (state ui))
         ∧ deleteConfirmIdx ui' = None.
Proof.
  intros Hi Harm.
  assert (Hi' : i < length (emptyDay today today :: days (state ui)))
    by (cbn [length]; lia).
  eexists. split.
  { cbn [run]. rewrite step_ClickTrash by assumption. cbn [mbind option_bind].
    change (step today _ ClickNewDay)
      with (Some {| state := addNewDay today (state ui); activeIdx := 0;
                    deleteConfirmIdx := Some i |}).
    cbn [mbind option_bind].
    rewrite step_ClickConfirm by (try reflexivity; exact Hi').
    reflexivity. }
  cbn [state deleteConfirmIdx]. rewrite deleteDay_days. cbn [days addNewDay].
  pose proof (length_delete (emptyDay today today :: days (state ui)) i
                (lookup_lt_is_Some_2 _ _ Hi')) as Hlen.
  cbn [length] in Hlen.
  destruct (Nat.ltb_spec 0 (length (delete i (emptyDay today today :: days (state ui)))))
    as [_|H]; [|lia].
  split; [reflexivity|]. split; [|split; [lia|reflexivity]].
  rewrite list_lookup_delete_ge by lia. reflexivity.
Qed.

Lemma armed_index_follows_the_row_witness :
  ∃ ui', run "2025-03-03" sampleUI [ClickTrash 1; ClickNewDay; ClickConfirm 1] = Some ui'
         ∧ days (state ui')
           = delete 1 (emptyDay "2025-03-03" "2025-03-03" :: days (state sampleUI))
         ∧ days (state ui') !! 1 = days (state sampleUI) !! 1
         ∧ length (days (state ui')) = length (days (state sampleUI))
         ∧ deleteConfirmIdx ui' = None.
Proof.
  apply (armed_index_follows_the_row "2025-03-03" sampleUI 1); [cbn; lia|discriminate].
Defined.

(** The updaters of the active day leave the other days where they are. *)
Lemma insert_other_days (a : nat) (d : Day.t) (l : list Day.t) :
  length (<[a := d]> l) = length l ∧ ∀ j, j ≠ a → <[a := d]> l !! j = l !! j.
Proof.
  split; [apply length_insert|]. intros j Hj. now apply list_lookup_insert_ne.
Qed.

Lemma setActiveDay_other_days (a : nat) (partial : list DayKey) (s s' : AppState) :
  setActiveDay a partial s = Some s' →
  length (days s') = length (days s) ∧ ∀ j, j ≠ a → days s' !! j = days s !! j.
Proof.
  intros H. apply setActiveDay_Some in H as (d & _ & ->). apply insert_other_days.
Qed.

Lemma updateExercise_other_days (a i : nat) (partial : list ExerciseKey) (s s' : AppState) :
  updateExercise a i partial s = Some s' →
  length (days s') = length (days s) ∧ ∀ j, j ≠ a → days s' !! j = days s !! j.
Proof.
  intros H. apply updateExercise_Some in H as (d & ex & _ & _ & ->).
  apply insert_other_days.
Qed.

Lemma removeExercise_other_days (a i : nat) (s s' : AppState) :
  removeExercise a i s = Some s' →
  length (days s') = length (days s) ∧ ∀ j, j ≠ a → days s' !! j = days s !! j.
Proof.
  intros H. apply removeExercise_Some in H as (d & _ & ->). apply insert_other_days.
Qed.

Lemma replaceExerciseWithAll_other_days (a i : nat) (cat type group : string)
      (names : list string) (s s' : AppState) :
  replaceExerciseWithAll a i cat type group names s = Some s' →
  length (days s') = length (days s) ∧ ∀ j, j ≠ a → days s' !! j = days s !! j.
Proof.
  intros H. apply replaceExerciseWithAll_Some in H as (d & _ & ->).
  apply insert_other_days.
Qed.

#[local] Hint Resolve setActiveDay_other_days updateExercise_other_days
  removeExercise_other_days replaceExerciseWithAll_other_days : updaters.

(** Among the controls of the page that edit the state in place (all of
    them but the import, which replaces the whole state, as the load from
    storage does), a day leaves the list in one way only: through the
    confirm button of the row that a first click armed.  Any other of these
    events either puts a new day in front of the others or keeps the number
    of days and every day but the active one; the first click and the
    cancel button change nothing but the armed row. *)
Theorem delete_needs_confirmation (today : string) (ui ui' : UI) (ev : event) :
  step today ui ev = Some ui' →
  ((∃ i, ev = ClickConfirm i
         ∧ deleteConfirmIdx ui = Some i
         ∧ i < length (days (state ui))
         ∧ state ui' = deleteDay today i (state ui)
         ∧ deleteConfirmIdx ui' = None)
   ∨ (ev = ClickNewDay ∧ ∀ j, days (state ui') !! S j = days (state ui) !! j)
   ∨ (length (days (state ui')) = length (days (state ui))
      ∧ ∀ j, j ≠ activeIdx ui → days (state ui') !! j = days (state ui) !! j))
  ∧ (∀ i, ev = ClickTrash i ∨ ev = ClickCancel i →
          state ui' = state ui ∧ activeIdx ui' = activeIdx ui).
Proof.
  intros H. split.
  - destruct ev; unfold step in H; cbv zeta in H;
      unfold onCategoryChange, onTypeChange, onGroupChange, onNameChange in H;
      split_handler; injection H as <-; cbn [state activeIdx setState deleteConfirmIdx].
    all: try (right; right; solve [eauto with updaters]).
    + right. left. now split.
    + left. exists i.
      match goal with
      | Hb : bool_decide _ = true |- _ => apply bool_decide_eq_true in Hb
      end.
      repeat split; eauto using lookup_lt_Some.
    + right. right. now rewrite recalcMacros_days.
    + right. right. now rewrite recalcMacros_days.
  - intros i [->| ->]; unfold step in H; cbv zeta in H; split_handler;
      injection H as <-; now split.
Qed.

Lemma delete_needs_confirmation_witness :
  step "2025-03-03" sampleUI (ClickRemove 0)
  = Some (setState sampleUI
            {| targets := defaultTargets;
               days := [emptyDay "2025-03-02" "";
                        setDayKey sampleDay
                          (Exercises (delete 0 (Day.exercises sampleDay)))] |})
  ∧ length [emptyDay "2025-03-02" "";
            setDayKey sampleDay (Exercises (delete 0 (Day.exercises sampleDay)))]
    = length (days (state sampleUI)).
Proof.
  split; [reflexivity|].
  destruct (proj1 (delete_needs_confirmation "2025-03-03" sampleUI
                     (setState sampleUI
                        {| targets := defaultTargets;
                           days := [emptyDay "2025-03-02" "";
                                    setDayKey sampleDay
                                      (Exercises (delete 0 (Day.exercises sampleDay)))] |})
                     (ClickRemove 0) eq_refl))
    as [(i & H & _)|[(H & _)|(H & _)]];
    [discriminate H | discriminate H | exact H].
Defined.

(** ** Edits of the active day *)

(** A state with the day at [a] replaced. *)
Lemma replaced_day_frame (ui : UI) (d d' : Day.t) :
  days (state ui) !! activeIdx ui = Some d →
  let ui' :=
    setState ui {| targets := targets (state ui);
                   days := <[activeIdx ui := d']> (days (state ui)) |} in
  days (state ui') !! activeIdx ui = Some d'
  ∧ activeIdx ui' = activeIdx ui
  ∧ deleteConfirmIdx ui' = deleteConfirmIdx ui
  ∧ targets (state ui') = targets (state ui)
  ∧ length (days (state ui')) = length (days (state ui))
  ∧ ∀ j, j ≠ activeIdx ui → days (state ui') !! j = days (state ui) !! j.
Proof.
  intros Hd ui'. subst ui'. cbn [state setState days targets activeIdx deleteConfirmIdx].
  split; [apply list_lookup_insert_eq; eauto using lookup_lt_Some|].
  repeat split; [apply length_insert|].
  intros j Hj. now apply list_lookup_insert_ne.
Qed.



(** ** Edits of an exercise row *)

(** The state after [updateExercise] on a row that exists. *)
Lemma step_row_update (ui : UI) (d : Day.t) (ex : Exercise) (i : nat)
      (partial : list ExerciseKey) :
  days (state ui) !! activeIdx ui = Some d →
  Day.exercises d !! i = Some ex →
  setState ui <$> updateExercise (activeIdx ui) i partial (state ui)
  = Some (setState ui
            {| targets := targets (state ui);
               days := <[activeIdx ui :=
                          setDayKey d (Exercises (<[i := spreadExercise ex partial]>
                                                    (Day.exercises d)))]>
                         (days (state ui)) |}).
Proof.
  intros Hd Hex. unfold updateExercise. rewrite Hd. cbn [mbind option_bind].
  rewrite Hex. reflexivity.
Qed.

(** Choosing a category resets what hangs below it: the type and the name
    are cleared; for Cardio the group becomes "-" and weight, sets and reps
    are cleared while the duration stays; for any other category the group
    is cleared and weight, sets, reps and duration stay.  The other rows
    and the other fields of the day are untouched, and until a type is
    chosen the row offers no group and no exercise. *)
Theorem category_change_resets_row
    (today : string) (ui : UI) (d : Day.t) (ex : Exercise) (i : nat) (v : string) :
  days (state ui) !! activeIdx ui = Some d →
  Day.exercises d !! i = Some ex →
  let ex' :=
    if String.eqb v "Cardio"
    then mkExercise v "" "-" "" Empty Empty Empty (duration ex)
    else mkExercise v "" "" "" (weight ex) (sets ex) (reps ex) (duration ex) in
  ∃ ui' d',
    step today ui (ChangeCategory i v) = Some ui'
    ∧ days (state ui') !! activeIdx ui = Some d'
    ∧ same_but_exercises d d'
    ∧ Day.exercises d' = <[i := ex']> (Day.exercises d)
    ∧ Day.exercises d' !! i = Some ex'
    ∧ (∀ j, j ≠ i → Day.exercises d' !! j = Day.exercises d !! j)
    ∧ getGroups (category ex') (type ex') = []
    ∧ getExercises (category ex') (type ex') (group ex') = [].
Proof.
  intros Hd Hex ex'. subst ex'.
  pose proof (lookup_lt_Some _ _ _ Hex) as Hi.
  assert (Hstep : ∀ partial,
            (if String.eqb v "Cardio"
             then partial = [Category v; Type_ ""; Group "-"; Name "";
                             Weight Empty; Sets Empty; Reps Empty]
             else partial = [Category v; Type_ ""; Group ""; Name ""]) →
            step today ui (ChangeCategory i v)
            = Some (setState ui
                      {| targets := targets (state ui);
                         days := <[activeIdx ui :=
                                    setDayKey d
                                      (Exercises (<[i := spreadExercise ex partial]>
                                                    (Day.exercises d)))]>
                                   (days (state ui)) |})).
  { intros partial Hp. unfold step. cbv zeta.
    rewrite (activeDay_lookup today ui d Hd), Hex. cbn [mbind option_bind].
    unfold onCategoryChange.
    destruct (String.eqb v "Cardio"); subst partial;
      apply (step_row_update ui d ex i _ Hd Hex). }
  rewrite getGroups_lookup, getExercises_lookup.
  destruct (String.eqb v "Cardio"); cbn [category type group];
    rewrite tree_no_empty_type;
    (eexists; eexists; split; [apply Hstep; reflexivity|]);
    (split; [apply (replaced_day_frame ui d _ Hd)|]);
    cbn [setDayKey Day.exercises];
    (split; [repeat split|]);
    (split; [reflexivity|]);
    (split; [now apply list_lookup_insert_eq|]);
    (split; [intros j Hj; now apply list_lookup_insert_ne|]); now split.
Qed.

Lemma category_change_resets_row_witness :
  ∃ ui' d',
    step "2025-03-03" sampleUI (ChangeCategory 0 "Cardio") = Some ui'
    ∧ days (state ui') !! activeIdx sampleUI = Some d'
    ∧ same_but_exercises sampleDay d'
    ∧ Day.exercises d'
      = <[0 := mkExercise "Cardio" "" "-" "" Empty Empty Empty Empty]>
          (Day.exercises sampleDay)
    ∧ Day.exercises d' !! 0
      = Some (mkExercise "Cardio" "" "-" "" Empty Empty Empty Empty)
    ∧ (∀ j, j ≠ 0 → Day.exercises d' !! j = Day.exercises sampleDay !! j)
    ∧ getGroups "Cardio" "" = []
    ∧ getExercises "Cardio" "" "-" = [].
Proof.
  apply (category_change_resets_row "2025-03-03" sampleUI sampleDay
           (mkExercise "Strength" "Push" "Chest" "Flat bench press"
              (Num 135%Q) (Num 3%Q) (Num 8%Q) Empty) 0 "Cardio");
    reflexivity.
Defined.

(** Choosing a workout type clears the name and resets the group, to "-"
    on a Cardio row and to nothing elsewhere; choosing a group clears the
    name; weight, sets, reps, duration and what stands above the changed
    select stay.  On a Cardio row a type of the catalogue therefore offers
    its exercises at once, while elsewhere no exercise is offered until a
    group is chosen. *)
Theorem type_and_group_change_reset_below
    (today : string) (ui : UI) (d : Day.t) (ex : Exercise) (i : nat) (v : string) :
  days (state ui) !! activeIdx ui = Some d →
  Day.exercises d !! i = Some ex →
  let after_type :=
    mkExercise (category ex) v (if isCardio ex then "-" else "") ""
      (weight ex) (sets ex) (reps ex) (duration ex) in
  let after_group :=
    mkExercise (category ex) (type ex) v ""
      (weight ex) (sets ex) (reps ex) (duration ex) in
  (∃ ui' d',
     step today ui (ChangeType i v) = Some ui'
     ∧ days (state ui') !! activeIdx ui = Some d'
     ∧ same_but_exercises d d'
     ∧ Day.exercises d' = <[i := after_type]> (Day.exercises d))
  ∧ (∃ ui' d',
       step today ui (ChangeGroup i v) = Some ui'
       ∧ days (state ui') !! activeIdx ui = Some d'
       ∧ same_but_exercises d d'
       ∧ Day.exercises d' = <[i := after_group]> (Day.exercises d))
  ∧ (isCardio ex = true → v ∈ getTypes "Cardio" →
     getExercises (category after_type) (type after_type) (group after_type)
     = ["Treadmill"; "Stair Master"; "Elliptical"])
  ∧ (isCardio ex = false →
     getExercises (category after_type) (type after_type) (group after_type) = []).
Proof.
  intros Hd Hex after_type after_group. subst after_type after_group.
  split; [|split; [|split]].
  - unfold step. cbv zeta. rewrite (activeDay_lookup today ui d Hd), Hex.
    cbn [mbind option_bind]. unfold onTypeChange.
    destruct (isCardio ex);
      (eexists; eexists; split; [apply (step_row_update ui d ex i _ Hd Hex)|]);
      (split; [apply (replaced_day_frame ui d _ Hd)|]);
      cbn [setDayKey Day.exercises]; now repeat split.
  - eexists. eexists. split.
    { unfold step. cbv zeta. rewrite (activeDay_lookup today ui d Hd), Hex.
      cbn [mbind option_bind]. unfold onGroupChange.
      apply (step_row_update ui d ex i _ Hd Hex). }
    split; [apply (replaced_day_frame ui d _ Hd)|].
    cbn [setDayKey Day.exercises]. now repeat split.
  - intros Hc Hv. rewrite Hc. cbn [category type group].
    unfold isCardio in Hc. apply String.eqb_eq in Hc. rewrite Hc.
    change (getTypes "Cardio") with ["LISS"; "HIIT"] in Hv.
    apply elem_of_cons in Hv as [->|Hv]; [reflexivity|].
    apply elem_of_cons in Hv as [->|Hv]; [reflexivity|].
    now apply elem_of_nil in Hv.
  - intros Hc. rewrite Hc. cbn [category type group].
    now rewrite getExercises_lookup, tree_no_empty_group.
Qed.

Lemma type_and_group_change_reset_below_witness :
  getExercises "Cardio" "HIIT" "-" = ["Treadmill"; "Stair Master"; "Elliptical"].
Proof.
  apply (proj1 (proj2 (proj2
           (type_and_group_change_reset_below "2025-03-03" sampleUI sampleDay
              (mkExercise "Cardio" "LISS" "-" "" Empty Empty Empty (Num 30%Q))
              1 "HIIT" eq_refl eq_refl))));
    [reflexivity|].
  apply elem_of_cons. right. apply elem_of_cons. now left.
Defined.

(** A numeric input of a row stores the clamped entry in that one field of
    that one row (weight, reps and duration up to 10000, sets up to 1000);
    the weight, sets and reps inputs exist outside Cardio only, the
    duration input on every row. *)
Theorem row_input_changes_one_field
    (today : string) (ui : UI) (d : Day.t) (ex : Exercise) (i : nat)
    (ev : event) (k : ExerciseKey) :
  days (state ui) !! activeIdx ui = Some d →
  Day.exercises d !! i = Some ex →
  (∃ v, ev = ChangeDuration i v ∧ k = Duration (entered v 10000%Q))
  ∨ (isCardio ex = false
     ∧ ((∃ v, ev = ChangeWeight i v ∧ k = Weight (entered v 10000%Q))
        ∨ (∃ v, ev = ChangeSets i v ∧ k = Sets (entered v 1000%Q))
        ∨ (∃ v, ev = ChangeReps i v ∧ k = Reps (entered v 10000%Q)))) →
  ∃ ui' d',
    step today ui ev = Some ui'
    ∧ days (state ui') !! activeIdx ui = Some d'
    ∧ same_but_exercises d d'
    ∧ Day.exercises d' = <[i := setExerciseKey ex k]> (Day.exercises d)
    ∧ length (Day.exercises d') = length (Day.exercises d)
    ∧ (∀ j, j ≠ i → Day.exercises d' !! j = Day.exercises d !! j)
    ∧ category (setExerciseKey ex k) = category ex
    ∧ type (setExerciseKey ex k) = type ex
    ∧ group (setExerciseKey ex k) = group ex
    ∧ name (setExerciseKey ex k) = name ex.
Proof.
  intros Hd Hex Hev.
  exists (setState ui
            {| targets := targets (state ui);
               days := <[activeIdx ui :=
                          setDayKey d (Exercises (<[i := setExerciseKey ex k]>
                                                    (Day.exercises d)))]>
                         (days (state ui)) |}),
         (setDayKey d (Exercises (<[i := setExerciseKey ex k]> (Day.exercises d)))).
  split.
  { unfold step. cbv zeta.
    destruct Hev as [(v & -> & ->)|(Hc & [(v & -> & ->)|[(v & -> & ->)|(v & -> & ->)]])];
      rewrite (activeDay_lookup today ui d Hd), Hex; cbn [mbind option_bind];
      rewrite ?Hc; rewrite (step_row_update ui d ex i _ Hd Hex); reflexivity. }
  split; [apply (replaced_day_frame ui d _ Hd)|].
  cbn [setDayKey Day.exercises]. split; [repeat split|]. split; [reflexivity|].
  split; [apply length_insert|].
  split; [intros j Hj; now apply list_lookup_insert_ne|].
  destruct Hev as [(v & -> & ->)|(Hc & [(v & -> & ->)|[(v & -> & ->)|(v & -> & ->)]])];
    now repeat split.
Qed.

Lemma row_input_changes_one_field_witness :
  ∃ ui' d',
    step "2025-03-03" sampleUI (ChangeSets 0 (Num 5000%Q)) = Some ui'
    ∧ days (state ui') !! activeIdx sampleUI = Some d'
    ∧ Day.exercises d' !! 0
      = Some (mkExercise "Strength" "Push" "Chest" "Flat bench press"
                (Num 135%Q) (entered (Num 5000%Q) 1000%Q) (Num 8%Q) Empty).
Proof.
  destruct (row_input_changes_one_field "2025-03-03" sampleUI sampleDay
              (mkExercise "Strength" "Push" "Chest" "Flat bench press"
                 (Num 135%Q) (Num 3%Q) (Num 8%Q) Empty)
              0 (ChangeSets 0 (Num 5000%Q)) (Sets (entered (Num 5000%Q) 1000%Q))
              eq_refl eq_refl
              (or_intror (conj eq_refl
                 (or_intror (or_introl (ex_intro _ (Num 5000%Q) (conj eq_refl eq_refl)))))))
    as (ui' & d' & Hstep & Hday & _ & Hexs & _).
  exists ui', d'. split; [exact Hstep|]. split; [exact Hday|].
  rewrite Hexs. reflexivity.
Defined.

(** The state after the remove button of a row that exists. *)
Lemma step_ClickRemove
    (today : string) (ui : UI) (d : Day.t) (ex : Exercise) (i : nat) :
  days (state ui) !! activeIdx ui = Some d →
  Day.exercises d !! i = Some ex →
  step today ui (ClickRemove i)
  = Some (setState ui
            {| targets := targets (state ui);
               days := <[activeIdx ui :=
                          setDayKey d (Exercises (delete i (Day.exercises d)))]>
                         (days (state ui)) |}).
Proof.
  intros Hd Hex.
  unfold step. cbv zeta. rewrite (activeDay_lookup today ui d Hd), Hex.
  cbn [mbind option_bind]. unfold removeExercise. rewrite Hd.
  cbn [mbind option_bind]. now rewrite Array_filter_delete.
Qed.

(** Removing a row deletes exactly that row: the rows before it keep their
    places and the rows after it move up by one; the other fields of the
    day stay. *)
Theorem remove_deletes_one_row
    (today : string) (ui : UI) (d : Day.t) (ex : Exercise) (i : nat) :
  days (state ui) !! activeIdx ui = Some d →
  Day.exercises d !! i = Some ex →
  ∃ ui' d',
    step today ui (ClickRemove i) = Some ui'
    ∧ days (state ui') !! activeIdx ui = Some d'
    ∧ same_but_exercises d d'
    ∧ Day.exercises d' = delete i (Day.exercises d)
    ∧ length (Day.exercises d') + 1 = length (Day.exercises d)
    ∧ (∀ j, j < i → Day.exercises d' !! j = Day.exercises d !! j)
    ∧ (∀ j, i ≤ j → Day.exercises d' !! j = Day.exercises d !! S j).
Proof.
  intros Hd Hex.
  exists (setState ui
            {| targets := targets (state ui);
               days := <[activeIdx ui :=
                          setDayKey d (Exercises (delete i (Day.exercises d)))]>
                         (days (state ui)) |}),
         (setDayKey d (Exercises (delete i (Day.exercises d)))).
  split; [now apply (step_ClickRemove today ui d ex)|].
  split; [apply (replaced_day_frame ui d _ Hd)|].
  cbn [setDayKey Day.exercises]. split; [repeat split|]. split; [reflexivity|].
  split.
  { pose proof (length_delete (Day.exercises d) i (mk_is_Some _ _ Hex)) as H.
    apply lookup_lt_Some in Hex. lia. }
  split; [intros j Hj; now apply list_lookup_delete_lt|].
  intros j Hj. now apply list_lookup_delete_ge.
Qed.

Lemma remove_deletes_one_row_witness :
  ∃ ui' d',
    step "2025-03-03" sampleUI (ClickRemove 1) = Some ui'
    ∧ days (state ui') !! activeIdx sampleUI = Some d'
    ∧ same_but_exercises sampleDay d'
    ∧ Day.exercises d' = delete 1 (Day.exercises sampleDay)
    ∧ length (Day.exercises d') + 1 = length (Day.exercises sampleDay)
    ∧ (∀ j, j < 1 → Day.exercises d' !! j = Day.exercises sampleDay !! j)
    ∧ (∀ j, 1 ≤ j → Day.exercises d' !! j = Day.exercises sampleDay !! S j).
Proof.
  apply (remove_deletes_one_row "2025-03-03" sampleUI sampleDay
           (mkExercise "Cardio" "LISS" "-" "" Empty Empty Empty (Num 30%Q)) 1);
    reflexivity.
Defined.

Lemma setDayKey_own_exercises (d : Day.t) : setDayKey d (Exercises (Day.exercises d)) = d.
Proof. now destruct d. Qed.

Lemma setState_own (ui : UI) :
  setState ui {| targets := targets (state ui); days := days (state ui) |} = ui.
Proof. destruct ui as [[t ds] a c]. reflexivity. Qed.

(** The "Add Exercise" button appends one blank row to the active day and
    changes nothing else; removing that row again gives back the state the
    page was in. *)
Theorem add_then_remove_exercise (today : string) (ui : UI) (d : Day.t) :
  days (state ui) !! activeIdx ui = Some d →
  (∃ ui' d',
     step today ui ClickAddExercise = Some ui'
     ∧ days (state ui') !! activeIdx ui = Some d'
     ∧ same_but_exercises d d'
     ∧ Day.exercises d' = Day.exercises d ++ [blankExercise]
     ∧ ∀ j, j ≠ activeIdx ui → days (state ui') !! j = days (state ui) !! j)
  ∧ run today ui [ClickAddExercise; ClickRemove (length (Day.exercises d))] = Some ui.
Proof.
  intros Hd.
  assert (Hadd : step today ui ClickAddExercise
                 = Some (setState ui
                           {| targets := targets (state ui);
                              days := <[activeIdx ui :=
                                         setDayKey d (Exercises (Day.exercises d
                                                                 ++ [blankExercise]))]>
                                        (days (state ui)) |})).
  { unfold step. cbv zeta. rewrite (activeDay_lookup today ui d Hd).
    unfold setActiveDay. rewrite Hd. reflexivity. }
  split.
  - eexists. eexists. split; [exact Hadd|].
    split; [apply (replaced_day_frame ui d _ Hd)|].
    cbn [setDayKey Day.exercises]. split; [repeat split|]. split; [reflexivity|].
    apply (replaced_day_frame ui d _ Hd).
  - cbn [run]. rewrite Hadd. cbn [mbind option_bind].
    set (d1 := setDayKey d (Exercises (Day.exercises d ++ [blankExercise]))).
    set (ui1 := setState ui _).
    assert (Hd1 : days (state ui1) !! activeIdx ui1 = Some d1)
      by apply (replaced_day_frame ui d d1 Hd).
    assert (Hex1 : Day.exercises d1 !! length (Day.exercises d) = Some blankExercise).
    { subst d1. cbn [setDayKey Day.exercises].
      rewrite lookup_app_r by lia. now rewrite Nat.sub_diag. }
    rewrite (step_ClickRemove today ui1 d1 blankExercise _ Hd1 Hex1).
    cbn [mbind option_bind]. f_equal.
    subst ui1 d1. unfold setState.
    cbn [state days targets activeIdx deleteConfirmIdx setDayKey Day.exercises
         Day.date Day.calories Day.protein Day.carbs Day.fat].
    rewrite list_insert_insert_eq.
    replace (delete (length (Day.exercises d)) (Day.exercises d ++ [blankExercise]))
      with (Day.exercises d)
      by (now rewrite delete_middle, app_nil_r).
    rewrite (list_insert_id (days (state ui)) (activeIdx ui)); [|destruct d; exact Hd].
    apply (setState_own ui).
Qed.

Lemma add_then_remove_exercise_witness :
  run "2025-03-03" sampleUI [ClickAddExercise; ClickRemove 3] = Some sampleUI.
Proof.
  apply (proj2 (add_then_remove_exercise "2025-03-03" sampleUI sampleDay eq_refl)).
Defined.

(** With no name to insert, expanding a row is removing it: the splice
    deletes the row and puts nothing in its place, which is what the filter
    of [removeExercise] does, an index past the last row included (neither
    changes the list then). *)
Theorem expand_without_names_removes
        (activeIdx exIdx : nat) (cat type group : string) (s : AppState) :
  replaceExerciseWithAll activeIdx exIdx cat type group [] s
  = removeExercise activeIdx exIdx s.
Proof.
  unfold replaceExerciseWithAll, removeExercise.
  destruct (days s !! activeIdx) as [d|]; [|reflexivity]. cbn [mbind option_bind].
  rewrite Array_filter_delete, delete_take_drop. unfold Array_splice.
  cbn [map app]. now rewrite Nat.add_1_r.
Qed.

(** ** The catalogue and the cascade of selects *)

(** The cascade of selects never runs dry: every category of the tree
    offers a type, every type offered a group, and every group offered at
    least two exercises, all different; in Cardio the only group of every
    type is "-", the one the handlers fill in. *)
Theorem catalogue_has_no_dead_end (cat type group : string) :
  cat ∈ Object_keys EXERCISE_TREE →
  getTypes cat ≠ []
  ∧ (type ∈ getTypes cat →
     getGroups cat type ≠ []
     ∧ (cat = "Cardio" → getGroups cat type = ["-"])
     ∧ (group ∈ getGroups cat type →
        2 ≤ length (getExercises cat type group)
        ∧ NoDup (getExercises cat type group))).
Proof.
  intros Hcat. change (Object_keys EXERCISE_TREE) with ["Cardio"; "Strength"] in Hcat.
  repeat (apply elem_of_cons in Hcat as [->|Hcat]); [| |now apply elem_of_nil in Hcat].
  - split; [discriminate|]. change (getTypes "Cardio") with ["LISS"; "HIIT"].
    intros Ht.
    repeat (apply elem_of_cons in Ht as [->|Ht]); [| |now apply elem_of_nil in Ht].
    + split; [discriminate|]. split; [reflexivity|].
      change (getGroups "Cardio" "LISS") with ["-"]. intros Hg.
      repeat (apply elem_of_cons in Hg as [->|Hg]); [|now apply elem_of_nil in Hg].
      split; [cbn; lia|]. apply (bool_decide_unpack _); vm_compute; exact I.
    + split; [discriminate|]. split; [reflexivity|].
      change (getGroups "Cardio" "HIIT") with ["-"]. intros Hg.
      repeat (apply elem_of_cons in Hg as [->|Hg]); [|now apply elem_of_nil in Hg].
      split; [cbn; lia|]. apply (bool_decide_unpack _); vm_compute; exact I.
  - split; [discriminate|]. change (getTypes "Strength") with ["Pull"; "Push"; "Legs"].
    intros Ht.
    repeat (apply elem_of_cons in Ht as [->|Ht]); [| | |now apply elem_of_nil in Ht].
    + split; [discriminate|]. split; [discriminate|].
      change (getGroups "Strength" "Pull") with ["Back"; "Bicep"]. intros Hg.
      repeat (apply elem_of_cons in Hg as [->|Hg]); [| |now apply elem_of_nil in Hg];
        (split; [cbn; lia|]); apply (bool_decide_unpack _); vm_compute; exact I.
    + split; [discriminate|]. split; [discriminate|].
      change (getGroups "Strength" "Push") with ["Chest"; "Shoulders"; "Triceps"].
      intros Hg.
      repeat (apply elem_of_cons in Hg as [->|Hg]); [| | |now apply elem_of_nil in Hg];
        (split; [cbn; lia|]); apply (bool_decide_unpack _); vm_compute; exact I.
    + split; [discriminate|]. split; [discriminate|].
      change (getGroups "Strength" "Legs") with ["Legs + Glutes + Calves"]. intros Hg.
      repeat (apply elem_of_cons in Hg as [->|Hg]); [|now apply elem_of_nil in Hg];
        (split; [cbn; lia|]); apply (bool_decide_unpack _); vm_compute; exact I.
Qed.

Lemma catalogue_has_no_dead_end_witness :
  getTypes "Strength" ≠ [] ∧ getGroups "Strength" "Push" ≠ []
  ∧ 2 ≤ length (getExercises "Strength" "Push" "Triceps").
Proof.
  destruct (catalogue_has_no_dead_end "Strength" "Push" "Triceps") as (H1 & H2).
  { apply elem_of_cons. right. apply elem_of_cons. now left. }
  destruct H2 as (H2 & _ & H3).
  { apply elem_of_cons. right. apply elem_of_cons. now left. }
  destruct H3 as (H3 & _).
  { do 2 (apply elem_of_cons; right). apply elem_of_cons. now left. }
  repeat split; assumption.
Defined.

(** ** CSV cells *)

Lemma replaceAll_quote_inj (s1 s2 : string) :
  replaceAll_quote s1 = replaceAll_quote s2 → s1 = s2.
Proof.
  revert s2. induction s1 as [|c1 s1 IH]; intros [|c2 s2]; cbn [replaceAll_quote].
  - reflexivity.
  - destruct (Ascii.eqb c2 quote); discriminate.
  - destruct (Ascii.eqb c1 quote); discriminate.
  - destruct (Ascii.eqb_spec c1 quote) as [->|H1];
      destruct (Ascii.eqb_spec c2 quote) as [->|H2].
    + intros [= H]. f_equal. now apply IH.
    + intros [= <- H]. congruence.
    + intros [= -> H]. congruence.
    + intros [= -> H]. f_equal. now apply IH.
Qed.

Lemma append_char_inj (s1 s2 : string) (c : ascii) :
  (s1 ++ String c EmptyString)%string = (s2 ++ String c EmptyString)%string → s1 = s2.
Proof.
  revert s2. induction s1 as [|c1 s1 IH]; intros [|c2 s2]; cbn [String.append].
  - reflexivity.
  - intros [= _ H]. now destruct s2.
  - intros [= _ H]. now destruct s1.
  - intros [= -> H]. f_equal. now apply IH.
Qed.

(** The quoting of the export loses nothing: two texts that give the same
    cell are the same text, whatever quotes, commas or line breaks they
    hold. *)
Theorem csvCell_injective (v1 v2 : string) :
  csvCell v1 = csvCell v2 → v1 = v2.
Proof.
  unfold csvCell. intros [= H].
  apply replaceAll_quote_inj. now apply append_char_inj in H.
Qed.

Lemma csvCell_injective_witness :
  String quote "a" = String quote "a".
Proof.
  apply (csvCell_injective (String quote "a") (String quote "a")). reflexivity.
Defined.

(** ** Loading from storage *)

Section StorageFacts.
Import JsonImport Storage.

Lemma read_member (d : json) (k : string) :
  d ≠ JNull → read d k = Some (member (Some d) k).
Proof. destruct d; (congruence || reflexivity). Qed.

Lemma loadDay_spec (today : string) (d d' : json) :
  loadDay today d = Some d' ↔
  d ≠ JNull
  ∧ d' = JObject
           [ ("date", or_today today (member (Some d) "date"));
             ("calories", or_blank (member (Some d) "calories"));
             ("protein", or_blank (member (Some d) "protein"));
             ("carbs", or_blank (member (Some d) "carbs"));
             ("fat", or_blank (member (Some d) "fat"));
             ("exercises", array_or_empty (member (Some d) "exercises")) ].
Proof.
  split.
  - destruct d; try discriminate; intros [= <-]; (split; [discriminate|reflexivity]).
  - intros [Hd ->]. unfold loadDay. rewrite !read_member by exact Hd. reflexivity.
Qed.

Lemma map_throwing_Some (f : json → option json) (items loaded : list json) :
  map_throwing f items = Some loaded ↔ Forall2 (λ d d', f d = Some d') items loaded.
Proof.
  revert loaded. induction items as [|x items IH]; intros loaded; cbn [map_throwing].
  - split; [intros [= <-]; constructor | intros H; now inversion H].
  - split.
    + destruct (f x) as [y|] eqn:Ex; [|discriminate]. cbn [mbind option_bind].
      destruct (map_throwing f items) as [ys|]; [|discriminate].
      cbn [mbind option_bind]. intros [= <-]. constructor; [exact Ex|now apply IH].
    + intros H. inversion H as [|? y ? ys Hy Hys]; subst.
      rewrite Hy. cbn [mbind option_bind].
      apply IH in Hys. rewrite Hys. reflexivity.
Qed.

Lemma map_throwing_null (today : string) (items : list json) :
  JNull ∈ items ↔ map_throwing (loadDay today) items = None.
Proof.
  induction items as [|x items IH]; cbn [map_throwing].
  - split; [intros H; now apply elem_of_nil in H|discriminate].
  - rewrite elem_of_cons, IH. split.
    + intros [<-|H]; [reflexivity|].
      destruct (loadDay today x); [|reflexivity]. cbn [mbind option_bind].
      now rewrite H.
    + destruct (loadDay today x) as [y|] eqn:Ex; cbn [mbind option_bind].
      * destruct (map_throwing (loadDay today) items); [discriminate|]. now right.
      * intros _. left. now destruct x.
Qed.

(** The loader takes a stored state exactly when it parses to an object
    whose [days] is a non-empty array without a null in it, and then it
    rebuilds every day; a null among the stored days makes the whole load
    fail, good days included; and a [days] that is a non-empty string,
    which the import would take, fails here. *)
Theorem storage_load_outcomes (today : string) :
  (∀ stored s,
     load today stored = Loaded s ↔
     ∃ o items loaded,
       stored = Some (Some (JObject o))
       ∧ prop o "days" = Some (JArray items)
       ∧ items ≠ [] ∧ (JNull ∉ items)
       ∧ Forall2 (λ d d', loadDay today d = Some d') items loaded
       ∧ s = {| targets := spread defaultTargets (parsed_targets (JObject o));
                days := JArray loaded |})
  ∧ (∀ o items,
       prop o "days" = Some (JArray items) → JNull ∈ items →
       load today (Some (Some (JObject o))) = Failed)
  ∧ (∀ o c text,
       prop o "days" = Some (JString (String c text)) →
       load today (Some (Some (JObject o))) = Failed)
  ∧ load today None = Skipped
  ∧ load today (Some None) = Failed.
Proof.
  split; [|split; [|split; [|split; reflexivity]]].
  - intros stored s. split.
    + destruct stored as [[p|]|]; [|discriminate..]. unfold load.
      destruct p as [|b|n|t|its|o]; try discriminate;
        cbn [truthy_json member];
        try (destruct b; discriminate);
        try (destruct (negb (falsy n)); discriminate);
        try (destruct (truthy t); discriminate).
      destruct (prop o "days") as [ds|] eqn:Hds; [|discriminate].
      destruct ds as [|b|n|t|items|o']; cbn [truthy_value truthy_json length_of andb];
        try discriminate;
        try (destruct b; discriminate);
        try (destruct (negb (falsy n)); discriminate);
        try (destruct (truthy t); cbn [andb]; [destruct (negb _)|]; discriminate);
        try (destruct (truthy_value (prop o' "length")); discriminate).
      destruct items as [|d items]; [discriminate|].
      cbn [length truthy_value truthy_json mbind option_bind loadDays fmap option_fmap option_map].
      destruct (map_throwing (loadDay today) (d :: items)) as [loaded|] eqn:Hl;
        cbn [option_map]; [|destruct (negb _); discriminate].
      destruct (negb _); [|discriminate]. intros [= <-].
      exists o, (d :: items), loaded.
      split; [reflexivity|]. split; [exact Hds|]. split; [discriminate|].
      split; [|split; [now apply map_throwing_Some|reflexivity]].
      intros Hn. apply (map_throwing_null today) in Hn. congruence.
    + intros (o & items & loaded & -> & Hds & Hne & _ & Hl & ->).
      apply map_throwing_Some in Hl. unfold load. cbn [truthy_json member].
      rewrite Hds. destruct items as [|d items]; [congruence|].
      cbn [truthy_value truthy_json length_of andb length mbind option_bind loadDays].
      rewrite Hl. reflexivity.
  - intros o items Hds Hn. apply (map_throwing_null today) in Hn.
    unfold load. cbn [truthy_json member]. rewrite Hds.
    destruct items as [|d items]; [discriminate Hn|].
    cbn [truthy_value truthy_json length_of andb length mbind option_bind loadDays].
    rewrite Hn. reflexivity.
  - intros o c text Hds. unfold load. cbn [truthy_json member]. rewrite Hds.
    reflexivity.
Qed.

Lemma or_today_truthy (today : string) (v : value) :
  truthy today = true → truthy_json (or_today today v) = true.
Proof.
  intros Ht. destruct v as [j|]; cbn [or_today]; [|exact Ht].
  destruct (truthy_json j) eqn:E; [exact E|exact Ht].
Qed.

Lemma or_blank_not_null (v : value) : or_blank v ≠ JNull.
Proof. destruct v as [[]|]; discriminate. Qed.

Lemma array_or_empty_array (v : value) : ∃ items, array_or_empty v = JArray items.
Proof. destruct v as [[]|]; cbn [array_or_empty]; eauto. Qed.

(** What the loader makes of a stored day is a day of the data model in
    shape: an object of exactly the six members, its date truthy (today's
    when the stored one was not), none of the four numbers null, the
    exercises an array.  Loading such a day again, on whatever date, gives
    it back unchanged. *)
Theorem loaded_day_is_normal (today : string) (d d' : json) :
  truthy today = true →
  loadDay today d = Some d' →
  (∃ date calories protein carbs fat exercises,
     d' = JObject [ ("date", date); ("calories", calories); ("protein", protein);
                    ("carbs", carbs); ("fat", fat);
                    ("exercises", JArray exercises) ]
     ∧ truthy_json date = true
     ∧ calories ≠ JNull ∧ protein ≠ JNull ∧ carbs ≠ JNull ∧ fat ≠ JNull)
  ∧ ∀ today', loadDay today' d' = Some d'.
Proof.
  intros Ht Hd. apply loadDay_spec in Hd as [Hn ->].
  pose proof (or_today_truthy today (member (Some d) "date") Ht) as Hdate.
  pose proof (or_blank_not_null (member (Some d) "calories")) as Hc.
  pose proof (or_blank_not_null (member (Some d) "protein")) as Hp.
  pose proof (or_blank_not_null (member (Some d) "carbs")) as Hcb.
  pose proof (or_blank_not_null (member (Some d) "fat")) as Hf.
  destruct (array_or_empty_array (member (Some d) "exercises")) as [exs ->].
  revert Hdate Hc Hp Hcb Hf.
  generalize (or_today today (member (Some d) "date")) as date.
  generalize (or_blank (member (Some d) "calories")) as cal.
  generalize (or_blank (member (Some d) "protein")) as p.
  generalize (or_blank (member (Some d) "carbs")) as c.
  generalize (or_blank (member (Some d) "fat")) as f.
  intros f c p cal date Hdate Hc Hp Hcb Hf. split.
  - exists date, cal, p, c, f, exs. repeat split; assumption.
  - intros today'. apply loadDay_spec. split; [discriminate|].
    cbn [member]. unfold prop. cbn.
    rewrite Hdate.
    destruct cal; [congruence|..]; destruct p; try congruence;
      destruct c; try congruence; destruct f; try congruence; reflexivity.
Qed.

Lemma loaded_day_is_normal_witness :
  (∃ date calories protein carbs fat exercises,
     JObject [ ("date", JString "2025-03-02"); ("calories", JString "");
               ("protein", JNumber 150%Q); ("carbs", JString "");
               ("fat", JString ""); ("exercises", JArray []) ]
     = JObject [ ("date", date); ("calories", calories); ("protein", protein);
                 ("carbs", carbs); ("fat", fat);
                 ("exercises", JArray exercises) ]
     ∧ truthy_json date = true
     ∧ calories ≠ JNull ∧ protein ≠ JNull ∧ carbs ≠ JNull ∧ fat ≠ JNull)
  ∧ ∀ today',
      loadDay today'
        (JObject [ ("date", JString "2025-03-02"); ("calories", JString "");
                   ("protein", JNumber 150%Q); ("carbs", JString "");
                   ("fat", JString ""); ("exercises", JArray []) ])
      = Some (JObject [ ("date", JString "2025-03-02"); ("calories", JString "");
                        ("protein", JNumber 150%Q); ("carbs", JString "");
                        ("fat", JString ""); ("exercises", JArray []) ]).
Proof.
  apply (loaded_day_is_normal "2025-03-02"
           (JObject [ ("protein", JNumber 150%Q); ("calories", JNull);
                      ("exercises", JString "none") ]));
    reflexivity.
Defined.

End StorageFacts.

(** ** Invariants of the page *)

Lemma step_armed (today : string) (ui ui' : UI) (ev : event) :
  step today ui ev = Some ui' →
  (∀ i, deleteConfirmIdx ui = Some i → i < length (days (state ui))) →
  ∀ i, deleteConfirmIdx ui' = Some i → i < length (days (state ui')).
Proof.
  intros H Hinv.
  pose proof (step_shape today ui ui' ev H) as Hshape.
  destruct ev; unfold step in H; cbv zeta in H;
    unfold onCategoryChange, onTypeChange, onGroupChange, onNameChange in H;
    split_handler; injection H as <-;
    cbn [state activeIdx deleteConfirmIdx setState] in *;
    intros j Hj; try discriminate Hj.
  all: try (apply Hinv in Hj;
            destruct Hshape as [[Hlen _]|[(_ & Hlen & _)|(k & [=] & _)]];
            lia).
  injection Hj as <-. eauto using lookup_lt_Some.
Qed.

Lemma run_armed (today : string) (evs : list event) (ui ui' : UI) :
  (∀ i, deleteConfirmIdx ui = Some i → i < length (days (state ui))) →
  run today ui evs = Some ui' →
  ∀ i, deleteConfirmIdx ui' = Some i → i < length (days (state ui')).
Proof.
  revert ui. induction evs as [|ev evs IH]; intros ui Hinv H; cbn [run] in H.
  - now injection H as <-.
  - destruct (step today ui ev) as [ui1|] eqn:E; [|discriminate H].
    cbn [mbind option_bind] in H. eauto using step_armed.
Qed.

(** Whatever the user does from the first render on, the active index
    points at a day of the list, so the fallback of [activeDay] to a fresh
    day is never taken; the row armed for deletion, if any, is a row of the
    list; and an event has a handler exactly when its control is on the
    page. *)
Theorem page_stays_in_the_data_model (today : string) (evs : list event) (ui : UI) :
  run today (initialUI today) evs = Some ui →
  (∃ d, days (state ui) !! activeIdx ui = Some d ∧ activeDay today ui = d)
  ∧ (∀ i, deleteConfirmIdx ui = Some i → i < length (days (state ui)))
  ∧ (∀ ev, is_Some (step today ui ev) ↔ rendered today ui ev = true).
Proof.
  intros H.
  assert (well_indexed ui) as Hwi.
  { apply (run_well_indexed today evs (initialUI today)); [|exact H].
    unfold well_indexed. cbn. lia. }
  split; [|split].
  - destruct (lookup_lt_is_Some_2 _ _ Hwi) as [d Hd].
    exists d. split; [exact Hd|now apply activeDay_lookup].
  - apply (run_armed today evs (initialUI today)); [|exact H]. discriminate.
  - intros ev. now apply step_handles_rendered.
Qed.

Lemma page_stays_in_the_data_model_witness :
  ∃ d, [emptyDay "2025-03-02" "2025-03-02"; emptyDay "2025-03-02" "2025-03-02"] !! 0
       = Some d
       ∧ activeDay "2025-03-02"
           {| state := {| targets := defaultTargets;
                          days := [emptyDay "2025-03-02" "2025-03-02";
                                   emptyDay "2025-03-02" "2025-03-02"] |};
              activeIdx := 0; deleteConfirmIdx := Some 1 |} = d.
Proof.
  exact (proj1 (page_stays_in_the_data_model "2025-03-02" [ClickNewDay; ClickTrash 1]
                  {| state := {| targets := defaultTargets;
                                 days := [emptyDay "2025-03-02" "2025-03-02";
                                          emptyDay "2025-03-02" "2025-03-02"] |};
                     activeIdx := 0; deleteConfirmIdx := Some 1 |}
                  eq_refl)).
Defined.

(** ** The targets *)

Section TargetFacts.
Local Open Scope Q_scope.

Lemma setActiveDay_targets (a : nat) (partial : list DayKey) (s s' : AppState) :
  setActiveDay a partial s = Some s' → targets s' = targets s.
Proof. unfold setActiveDay. intros H. split_handler. now injection H as <-. Qed.

Lemma updateExercise_targets (a i : nat) (partial : list ExerciseKey) (s s' : AppState) :
  updateExercise a i partial s = Some s' → targets s' = targets s.
Proof. unfold updateExercise. intros H. split_handler. now injection H as <-. Qed.

Lemma removeExercise_targets (a i : nat) (s s' : AppState) :
  removeExercise a i s = Some s' → targets s' = targets s.
Proof. unfold removeExercise. intros H. split_handler. now injection H as <-. Qed.

Lemma replaceExerciseWithAll_targets (a i : nat) (cat type group : string)
      (names : list string) (s s' : AppState) :
  replaceExerciseWithAll a i cat type group names s = Some s' → targets s' = targets s.
Proof.
  unfold replaceExerciseWithAll. intros H. split_handler. now injection H as <-.
Qed.

Lemma recalcMacros_targets (goalWeight calories : number) (s : AppState) :
  (computeMacros goalWeight calories = None ∧ recalcMacros goalWeight calories s = s)
  ∨ ∃ m, computeMacros goalWeight calories = Some m
         ∧ targets (recalcMacros goalWeight calories s)
           = {| Targets.calories := inject_Z (Macros.calories m);
                Targets.protein := inject_Z (Macros.protein m);
                Targets.carbs := inject_Z (Macros.carbs m);
                Targets.fat := inject_Z (Macros.fat m);
                Targets.goalWeight := goalWeight |}.
Proof.
  unfold recalcMacros. destruct (computeMacros goalWeight calories) as [m|].
  - right. now exists m.
  - now left.
Qed.

#[local] Hint Resolve setActiveDay_targets updateExercise_targets removeExercise_targets
  replaceExerciseWithAll_targets : updaters.

Lemma step_goal_weight (today : string) (ui ui' : UI) (ev : event) :
  step today ui ev = Some ui' →
  ¬ Targets.goalWeight (targets (state ui)) == 0 →
  ¬ Targets.goalWeight (targets (state ui')) == 0.
Proof.
  intros H Hinv.
  destruct ev; unfold step in H; cbv zeta in H;
    unfold onCategoryChange, onTypeChange, onGroupChange, onNameChange in H;
    split_handler; injection H as <-; cbn [state setState targets addNewDay deleteDay].
  all: try exact Hinv.
  all: try match goal with
       | E : _ = Some ?s |- ¬ Targets.goalWeight (targets ?s) == 0 =>
           replace (targets s) with (targets (state ui)); [exact Hinv|];
           symmetry; eauto with updaters
       end.
  all: match goal with
       | |- context [recalcMacros ?g ?c ?s] =>
           destruct (recalcMacros_targets g c s) as [[_ ->]|(m & Hm & ->)];
           [exact Hinv|];
           apply computeMacros_Some in Hm as (Hg & _ & _);
           cbn [Targets.goalWeight]; exact Hg
       end.
Qed.

(** Whatever the user does on the page from the default targets on (the
    load from storage and the import apart, which take targets as they
    come), the goal weight stored is never zero: [recalcMacros] stores a
    goal weight only with a result of the calculator, which gives none for
    zero.  So a calorie target that is not zero is always taken, and what
    is stored for it is that entry rounded. *)
Theorem goal_weight_never_zero (today : string) (evs : list event) (ui : UI) :
  run today (initialUI today) evs = Some ui →
  ¬ Targets.goalWeight (targets (state ui)) == 0
  ∧ ∀ v, ¬ v == 0 →
         ∃ ui', step today ui (ChangeTargetCalories (Num v)) = Some ui'
                ∧ Targets.calories (targets (state ui')) = inject_Z (Math_round v)
                ∧ Targets.goalWeight (targets (state ui'))
                  = Targets.goalWeight (targets (state ui)).
Proof.
  intros H.
  assert (¬ Targets.goalWeight (targets (state ui)) == 0) as Hg.
  { assert (∀ ui0, ¬ Targets.goalWeight (targets (state ui0)) == 0 →
                   run today ui0 evs = Some ui →
                   ¬ Targets.goalWeight (targets (state ui)) == 0) as Hrun.
    { clear H. induction evs as [|ev evs IH]; intros ui0 Hinv H; cbn [run] in H.
      - now injection H as <-.
      - destruct (step today ui0 ev) as [ui1|] eqn:E; [|discriminate H].
        cbn [mbind option_bind] in H. eauto using step_goal_weight. }
    apply (Hrun (initialUI today)); [|exact H]. intros E. discriminate E. }
  split; [exact Hg|].
  intros v Hv. eexists. split; [reflexivity|].
  cbn [state setState Number].
  assert (or0 v = v) as -> by (unfold or0; now rewrite (falsy_false v Hv)).
  destruct (recalcMacros_targets (Targets.goalWeight (targets (state ui))) v (state ui))
    as [[Hn _]|(m & Hm & ->)].
  - unfold computeMacros in Hn.
    rewrite (falsy_false _ Hg), (falsy_false _ Hv) in Hn. discriminate Hn.
  - apply computeMacros_Some in Hm as (_ & _ & ->).
    cbn [Targets.calories Targets.goalWeight Macros.calories]. split; reflexivity.
Qed.

Lemma goal_weight_never_zero_witness :
  run "2025-03-02" (initialUI "2025-03-02") [ChangeTargetCalories (Num 2000)]
  = Some {| state := {| targets :=
                          {| Targets.calories := 2000; Targets.protein := 150;
                             Targets.carbs := 225; Targets.fat := 56;
                             Targets.goalWeight := 150 |};
                        days := [emptyDay "2025-03-02" "2025-03-02"] |};
            activeIdx := 0; deleteConfirmIdx := None |}
  ∧ ¬ Targets.goalWeight
        {| Targets.calories := 2000; Targets.protein := 150;
           Targets.carbs := 225; Targets.fat := 56;
           Targets.goalWeight := 150 |} == 0.
Proof.
  split; [reflexivity|].
  exact (proj1 (goal_weight_never_zero "2025-03-02" [ChangeTargetCalories (Num 2000)]
                  {| state := {| targets :=
                                   {| Targets.calories := 2000; Targets.protein := 150;
                                      Targets.carbs := 225; Targets.fat := 56;
                                      Targets.goalWeight := 150 |};
                                 days := [emptyDay "2025-03-02" "2025-03-02"] |};
                     activeIdx := 0; deleteConfirmIdx := None |}
                  eq_refl)).
Defined.

(** An emptied or zero target input changes nothing: the state, the active
    index and the armed row are what they were. *)
Theorem falsy_target_input_changes_nothing (today : string) (ui : UI) (v : field) :
  or0 (Number v) == 0 →
  step today ui (ChangeGoalWeight v) = Some ui
  ∧ step today ui (ChangeTargetCalories v) = Some ui.
Proof.
  intros Hv. apply falsy_spec in Hv.
  unfold step. cbv zeta. unfold recalcMacros, computeMacros.
  rewrite Hv, orb_true_r. cbn [orb].
  destruct ui as [s a c]. split; reflexivity.
Qed.

Lemma falsy_target_input_changes_nothing_witness :
  step "2025-03-02" sampleUI (ChangeGoalWeight Empty) = Some sampleUI
  ∧ step "2025-03-02" sampleUI (ChangeTargetCalories Empty) = Some sampleUI.
Proof.
  apply (falsy_target_input_changes_nothing "2025-03-02" sampleUI Empty).
  reflexivity.
Defined.

Lemma Math_round_small (v : number) : -(1 # 2) <= v → v < 1 # 2 → Math_round v = 0%Z.
Proof.
  intros Hlo Hhi. destruct (Math_round_bounds v) as [Hle Hlt].
  assert (-1 < Math_round v < 1)%Z; [|lia].
  split; rewrite Zlt_Qlt.
  - change (inject_Z (-1)) with (-1). generalize dependent (inject_Z (Math_round v)).
    intros q Hle Hlt. lra.
  - change (inject_Z 1) with 1. generalize dependent (inject_Z (Math_round v)).
    intros q Hle Hlt. lra.
Qed.

(** A calorie target that rounds to zero is stored as zero, and from then
    on the goal-weight input is dead: whatever is typed into it, nothing
    changes, until another calorie target is entered. *)
Theorem small_calorie_target_blocks_goal_weight (today : string) (ui : UI) (v : number) :
  ¬ Targets.goalWeight (targets (state ui)) == 0 →
  ¬ v == 0 → -(1 # 2) <= v → v < 1 # 2 →
  ∃ ui1, step today ui (ChangeTargetCalories (Num v)) = Some ui1
         ∧ Targets.calories (targets (state ui1)) = 0
         ∧ ∀ w, step today ui1 (ChangeGoalWeight w) = Some ui1.
Proof.
  intros Hg Hv Hlo Hhi.
  assert (or0 v = v) as Hor by (unfold or0; now rewrite (falsy_false v Hv)).
  set (ui1 := setState ui (recalcMacros (Targets.goalWeight (targets (state ui)))
                             (or0 (Number (Num v))) (state ui))).
  assert (step today ui (ChangeTargetCalories (Num v)) = Some ui1) as Hstep
    by reflexivity.
  assert (Targets.calories (targets (state ui1)) = 0) as Hc.
  { subst ui1. cbn [state setState Number]. rewrite Hor.
    destruct (recalcMacros_targets (Targets.goalWeight (targets (state ui))) v (state ui))
      as [[Hn _]|(m & Hm & ->)].
    - unfold computeMacros in Hn.
      rewrite (falsy_false _ Hg), (falsy_false _ Hv) in Hn. discriminate Hn.
    - apply computeMacros_Some in Hm as (_ & _ & ->).
      cbn [Targets.calories Macros.calories].
      now rewrite (Math_round_small v Hlo Hhi). }
  clearbody ui1. exists ui1. split; [exact Hstep|]. split; [exact Hc|].
  intros w. unfold step. cbv zeta. rewrite Hc.
  unfold recalcMacros, computeMacros.
  change (falsy 0) with true. rewrite orb_true_r.
  destruct ui1 as [s a c]. reflexivity.
Qed.

Lemma small_calorie_target_blocks_goal_weight_witness :
  ∃ ui1, step "2025-03-02" (initialUI "2025-03-02") (ChangeTargetCalories (Num 0.3))
         = Some ui1
         ∧ Targets.calories (targets (state ui1)) = 0
         ∧ ∀ w, step "2025-03-02" ui1 (ChangeGoalWeight w) = Some ui1.
Proof.
  apply (small_calorie_target_blocks_goal_weight "2025-03-02"
           (initialUI "2025-03-02") 0.3).
  - intros E. discriminate E.
  - intros E. discriminate E.
  - unfold Qle. cbn. lia.
  - unfold Qlt. cbn. lia.
Defined.

End TargetFacts.

(** ** The active day after a delete *)

(** A confirmed delete sets the active index to [Math.max (0, prev - 1)]
    whichever day was deleted: one less, except that the first place stays
    the first place.  So when the deleted day stood before the active one,
    the same day stays active; when it stood after it, the day that was
    active is still in the list at its index, and the day before it is now
    the active one unless the active day was the first, which then stays
    active; when the active day itself was deleted, the day before it
    becomes active, or the day after it when it was the first. *)
Theorem delete_moves_active_index_down (today : string) (ui : UI) (i : nat) :
  deleteConfirmIdx ui = Some i →
  i < length (days (state ui)) → 2 ≤ length (days (state ui)) →
  ∃ ui', step today ui (ClickConfirm i) = Some ui'
         ∧ activeIdx ui' = Nat.max 0 (activeIdx ui - 1)
         ∧ (1 ≤ activeIdx ui → S (activeIdx ui') = activeIdx ui)
         ∧ (activeIdx ui = 0 → activeIdx ui' = 0)
         ∧ (i < activeIdx ui →
            days (state ui') !! activeIdx ui' = days (state ui) !! activeIdx ui)
         ∧ (activeIdx ui < i →
            days (state ui') !! activeIdx ui = days (state ui) !! activeIdx ui)
         ∧ (activeIdx ui < i → 1 ≤ activeIdx ui →
            days (state ui') !! activeIdx ui'
            = days (state ui) !! Nat.pred (activeIdx ui))
         ∧ (activeIdx ui < i → activeIdx ui = 0 →
            days (state ui') !! activeIdx ui' = days (state ui) !! 0)
         ∧ (activeIdx ui = i → 1 ≤ i →
            days (state ui') !! activeIdx ui' = days (state ui) !! Nat.pred i)
         ∧ (activeIdx ui = i → i = 0 →
            days (state ui') !! activeIdx ui' = days (state ui) !! 1).
Proof.
  intros Harm Hi Hlen.
  eexists. split; [now apply step_ClickConfirm|].
  cbn [state activeIdx]. rewrite deleteDay_days.
  pose proof (length_delete (days (state ui)) i (lookup_lt_is_Some_2 _ _ Hi)) as Hl.
  destruct (Nat.ltb_spec 0 (length (delete i (days (state ui))))) as [_|Hz]; [|lia].
  split; [reflexivity|].
  replace (Nat.max 0 (activeIdx ui - 1)) with (activeIdx ui - 1) by lia.
  split; [lia|]. split; [lia|].
  split; [intros Ha; rewrite list_lookup_delete_ge by lia; f_equal; lia|].
  split; [intros Ha; now apply list_lookup_delete_lt|].
  split.
  { intros Ha H1. rewrite list_lookup_delete_lt by lia. f_equal. lia. }
  split.
  { intros Ha H0. rewrite H0. cbn [Nat.sub]. apply list_lookup_delete_lt. lia. }
  split.
  { intros Ha H1. rewrite Ha. rewrite list_lookup_delete_lt by lia. f_equal. lia. }
  intros Ha ->. rewrite Ha. cbn [Nat.sub]. now rewrite list_lookup_delete_ge by lia.
Qed.

Lemma delete_moves_active_index_down_witness :
  ∃ ui', step "2025-03-03"
           {| state := {| targets := defaultTargets;
                          days := emptyDay "2025-03-03" "2025-03-01"
                                    :: days (state sampleUI) |};
              activeIdx := 1; deleteConfirmIdx := Some 2 |}
           (ClickConfirm 2) = Some ui'
         ∧ activeIdx ui' = 0
         ∧ days (state ui') !! 0 = Some (emptyDay "2025-03-03" "2025-03-01")
         ∧ days (state ui') !! 1
           = (emptyDay "2025-03-03" "2025-03-01" :: days (state sampleUI)) !! 1.
Proof.
  destruct (delete_moves_active_index_down "2025-03-03"
              {| state := {| targets := defaultTargets;
                             days := emptyDay "2025-03-03" "2025-03-01"
                                       :: days (state sampleUI) |};
                 activeIdx := 1; deleteConfirmIdx := Some 2 |} 2)
    as (ui' & Hstep & Ha & _ & _ & _ & Hkept & Hprev & _);
    [reflexivity|cbn; lia|cbn; lia|].
  cbn [activeIdx] in Ha, Hkept, Hprev.
  assert (activeIdx ui' = 0) as Ha0 by exact Ha.
  rewrite Ha0 in Hprev.
  exists ui'. split; [exact Hstep|]. split; [exact Ha0|].
  split.
  - apply Hprev; lia.
  - apply Hkept. lia.
Defined.
